(** * Scalar "Financial Bodyguard": orchestration and risk aggregation

    A shallow embedding of the fraud-detection core of the repository:

    - [core/adk_core.py]: the agent execution state machine
      ([BaseAgent.execute] and the default plan / delegate / tool-use /
      respond steps), the tool registry, and the multi-agent orchestrator
      (sequential and hierarchical execution, the execution log, the
      aggregation of task results);
    - [agents/specialists/__init__.py]: the five specialist detectors, and
      a specialist as the subclass of [BaseAgent] it is;
    - [agents/tools.py]: the [UPIScamDetector], [KYCPhishingDetector],
      [PoliceImpersonationDetector] and [LoanAgreementDecoder] tools;
    - [agents/financial_bodyguard.py]: routing, max-risk aggregation,
      trajectory matching, recommendations, summaries and statistics.

    Modelling conventions.
    - A Python [float] is a binary64 number: Rocq's primitive [float], whose
      operations round exactly as CPython's do.  The builtins [min] and [max]
      are written out with the comparison they perform.
    - A Python [str] is the string of its UTF-8 bytes.  [str.lower] is the
      ASCII case mapping, which is what Python computes on ASCII text; the
      keyword tables of the program are lower-case already.  On text with
      cased letters outside ASCII the program maps more than the model does,
      so a property that rests on the case mapping is stated for ASCII text
      ([is_ascii]); the others hold whatever the mapping does.
    - The patterns given to [re.search] are terms of a small regular
      expression type, matched by derivatives; [\d] and [\s] are the ASCII
      digits and white space, and a flag to ignore case has no effect on
      text that is lower-case ASCII.  The properties proved of the detectors
      for every text do not depend on which pattern matches; the examples
      are ASCII text.
    - A raised exception is the [Raise] branch of [outcome], with the two
      kinds Python handlers tell apart: what derives from [Exception], and
      what derives from [BaseException] only.
      [try]/[except Exception] is a match that takes the first kind and
      lets the second go on.
    - Mutable attributes ([stats], [task_history]) are threaded explicitly,
      and what the program reads from outside (the clock, the trajectory data
      file, the builtin [float] on a numeral) is a parameter. *)

From Stdlib Require Import String Ascii List Bool Arith ZArith Lia.
From Stdlib Require Import Floats Uint63.
Import ListNotations.

Set Warnings "-inexact-float,-register-all".

Open Scope list_scope.
Open Scope string_scope.

(* ================================================================== *)
(** ** Python strings *)

Module PyStr.

(** [c.lower()] on one ASCII character. *)
Definition lower_ascii (c : ascii) : ascii :=
  let n := nat_of_ascii c in
  if (65 <=? n)%nat && (n <=? 90)%nat then ascii_of_nat (n + 32) else c.

(** [s.lower()]. *)
Fixpoint lower (s : string) : string :=
  match s with
  | EmptyString => EmptyString
  | String c t => String (lower_ascii c) (lower t)
  end.

(** The empty text. *)
Definition empty_text : string := EmptyString.

(** [s.startswith(p)]. *)
Fixpoint startswith (p s : string) : bool :=
  match p, s with
  | EmptyString, _ => true
  | String _ _, EmptyString => false
  | String a p', String b s' => Ascii.eqb a b && startswith p' s'
  end.

(** [needle in hay] on strings: substring test. *)
Fixpoint contains (needle hay : string) : bool :=
  startswith needle hay
  || match hay with
     | EmptyString => false
     | String _ t => contains needle t
     end.

(** [[kw for kw in kws if kw in text]]. *)
Definition hits (kws : list string) (text : string) : list string :=
  filter (fun kw => contains kw text) kws.

(** [sum(1 for kw in kws if kw in text)]. *)
Definition count_hits (kws : list string) (text : string) : nat :=
  length (hits kws text).

(** [any(kw in text for kw in kws)]. *)
Definition any_in (kws : list string) (text : string) : bool :=
  existsb (fun kw => contains kw text) kws.

(** A byte that continues a character of more than one byte (in UTF-8,
    a byte from 0x80 to 0xBF). *)
Definition is_continuation (c : ascii) : bool :=
  let n := nat_of_ascii c in (128 <=? n)%nat && (n <? 192)%nat.

(** [s[:n]]: the first [n] characters, each with all its bytes. *)
Fixpoint take (n : nat) (s : string) : string :=
  match s with
  | EmptyString => EmptyString
  | String c t =>
      if is_continuation c then String c (take n t)
      else match n with
           | O => EmptyString
           | S n' => String c (take n' t)
           end
  end.

(** [s.isascii()]. *)
Fixpoint is_ascii (s : string) : bool :=
  match s with
  | EmptyString => true
  | String c t => (nat_of_ascii c <? 128)%nat && is_ascii t
  end.

(** [sep.join(l)]. *)
Fixpoint join (sep : string) (l : list string) : string :=
  match l with
  | [] => EmptyString
  | [x] => x
  | x :: t => x ++ sep ++ join sep t
  end.

End PyStr.

(* ================================================================== *)
(** ** Python floats *)

Module PyFloat.

(** [float(n)] for a non-negative machine-size integer [n]. *)
Definition of_nat (n : nat) : float := of_uint63 (Uint63.of_Z (Z.of_nat n)).

(** [min(a, b)]: the builtin keeps [a] unless [b < a]. *)
Definition py_min (a b : float) : float := if (b <? a)%float then b else a.

(** [max(a, b)]: the builtin keeps [a] unless [b > a]. *)
Definition py_max (a b : float) : float := if (a <? b)%float then b else a.

(** [max(iterable)] on a non-empty iterable whose first item is [x]. *)
Definition py_max_iter (x : float) (rest : list float) : float :=
  fold_left py_max rest x.

(** [a >= b]. *)
Definition ge (a b : float) : bool := (b <=? a)%float.

(** [a > b]. *)
Definition gt (a b : float) : bool := (b <? a)%float.

(** A score lies in the closed unit interval. *)
Definition in_unit (x : float) : Prop :=
  (0 <=? x)%float = true /\ (x <=? 1)%float = true.

Definition in_unitb (x : float) : bool :=
  (0 <=? x)%float && (x <=? 1)%float.

End PyFloat.

(* ================================================================== *)
(** ** Python values, exceptions *)

Module Py.

(** The dynamically typed values the program passes around. *)
Inductive value : Type :=
| VNone
| VBool (b : bool)
| VInt (z : Z)
| VFloat (f : float)
| VStr (s : string)
| VList (l : list value)
| VDict (items : list (string * value)).

(** An exception object: its class name and [str(e)].  [Exception] is an
    instance of a class that derives from [Exception]; [BaseException] is
    an instance of a class that derives from [BaseException] only, such as
    [SystemExit], [KeyboardInterrupt] or [GeneratorExit]. *)
Inductive exn : Type :=
| Exception (class msg : string)
| BaseException (class msg : string).

Definition exn_class (e : exn) : string :=
  match e with Exception class _ | BaseException class _ => class end.

Definition exn_msg (e : exn) : string :=
  match e with Exception _ msg | BaseException _ msg => msg end.

(** [isinstance(e, Exception)]. *)
Definition is_exception (e : exn) : bool :=
  match e with Exception _ _ => true | BaseException _ _ => false end.

(** The result of running a piece of code that may raise. *)
Inductive outcome (A : Type) : Type :=
| Ok (a : A)
| Raise (e : exn).
Arguments Ok {A} a.
Arguments Raise {A} e.

Definition bind {A B} (m : outcome A) (k : A -> outcome B) : outcome B :=
  match m with
  | Ok a => k a
  | Raise e => Raise e
  end.

(** [try: body  except Exception as e: handler(e)]: the handler takes what
    derives from [Exception]; any other exception goes on propagating. *)
Definition try_except {A} (body : outcome A) (handler : exn -> outcome A)
  : outcome A :=
  match body with
  | Ok a => Ok a
  | Raise e => if is_exception e then handler e else Raise e
  end.

(** [type(v).__name__]. *)
Definition type_name (v : value) : string :=
  match v with
  | VNone => "NoneType"
  | VBool _ => "bool"
  | VInt _ => "int"
  | VFloat _ => "float"
  | VStr _ => "str"
  | VList _ => "list"
  | VDict _ => "dict"
  end.

(** [v.lower()]: only [str] has the attribute. *)
Definition call_lower (v : value) : outcome string :=
  match v with
  | VStr s => Ok (PyStr.lower s)
  | _ => Raise (Exception "AttributeError"
                  ("'" ++ type_name v ++ "' object has no attribute 'lower'"))
  end.

(** [d.get(k)] on the items of a dict. *)
Fixpoint dict_get (k : string) (items : list (string * value)) : option value :=
  match items with
  | [] => None
  | (k', v) :: t => if String.eqb k k' then Some v else dict_get k t
  end.

(** [d[k] = v]: replaces the binding in place, or appends a new one. *)
Fixpoint dict_set (k : string) (v : value) (items : list (string * value))
  : list (string * value) :=
  match items with
  | [] => [(k, v)]
  | (k', v') :: t =>
      if String.eqb k k' then (k, v) :: t else (k', v') :: dict_set k v t
  end.

(** [k in v]: key membership on a dict, substring on a str, and a
    [TypeError] on a value that is not a container. *)
Definition contains_key (k : string) (v : value) : outcome bool :=
  match v with
  | VDict items =>
      Ok (match dict_get k items with Some _ => true | None => false end)
  | VStr s => Ok (PyStr.contains k s)
  | VList l =>
      Ok (existsb (fun x => match x with VStr s => String.eqb k s | _ => false end) l)
  | _ => Raise (Exception "TypeError"
                  ("argument of type '" ++ type_name v ++ "' is not iterable"))
  end.

End Py.

Notation "x <- m ;; k" := (Py.bind m (fun x => k))
  (at level 61, m at next level, right associativity).

(* ================================================================== *)
(** ** Regular expressions: the fragment of [re] the detectors use *)

Module Re.

Inductive regex : Type :=
| Void                       (* matches nothing *)
| Eps                        (* the empty string *)
| Chr (c : ascii)            (* a literal character *)
| Dot                        (* [.]: any character but a newline *)
| Digit                      (* [\d] *)
| Space                      (* [\s] *)
| Cat (r1 r2 : regex)
| Alt (r1 r2 : regex)
| Star (r : regex).

(** A literal word. *)
Fixpoint Lit (s : string) : regex :=
  match s with
  | EmptyString => Eps
  | String c t => Cat (Chr c) (Lit t)
  end.

Definition Opt (r : regex) : regex := Alt r Eps.        (* [r?] *)
Definition Plus (r : regex) : regex := Cat r (Star r).  (* [r+] *)
(** [a.*b] *)
Definition Then (a b : string) : regex := Cat (Lit a) (Cat (Star Dot) (Lit b)).

Definition is_digit (c : ascii) : bool :=
  let n := nat_of_ascii c in (48 <=? n)%nat && (n <=? 57)%nat.

(** [\s] on ASCII: tab, newline, vertical tab, form feed, carriage return,
    the four separators 0x1c-0x1f and the space. *)
Definition is_space (c : ascii) : bool :=
  let n := nat_of_ascii c in
  ((9 <=? n)%nat && (n <=? 13)%nat) || ((28 <=? n)%nat && (n <=? 32)%nat).

Definition is_newline (c : ascii) : bool := (nat_of_ascii c =? 10)%nat.

Fixpoint nullable (r : regex) : bool :=
  match r with
  | Void => false
  | Eps => true
  | Chr _ | Dot | Digit | Space => false
  | Cat r1 r2 => nullable r1 && nullable r2
  | Alt r1 r2 => nullable r1 || nullable r2
  | Star _ => true
  end.

(** Brzozowski derivative: what [r] still has to match after reading [c]. *)
Fixpoint deriv (c : ascii) (r : regex) : regex :=
  match r with
  | Void | Eps => Void
  | Chr d => if Ascii.eqb c d then Eps else Void
  | Dot => if is_newline c then Void else Eps
  | Digit => if is_digit c then Eps else Void
  | Space => if is_space c then Eps else Void
  | Cat r1 r2 =>
      if nullable r1
      then Alt (Cat (deriv c r1) r2) (deriv c r2)
      else Cat (deriv c r1) r2
  | Alt r1 r2 => Alt (deriv c r1) (deriv c r2)
  | Star r1 => Cat (deriv c r1) (Star r1)
  end.

(** [r] can never match any more. *)
Fixpoint dead (r : regex) : bool :=
  match r with
  | Void => true
  | Cat r1 r2 => dead r1 || dead r2
  | Alt r1 r2 => dead r1 && dead r2
  | _ => false
  end.

(** [re.match(r, s) is not None]: some prefix of [s] matches [r]. *)
Fixpoint match_prefix (r : regex) (s : string) : bool :=
  nullable r
  || match s with
     | EmptyString => false
     | String c t =>
         let r' := deriv c r in
         if dead r' then false else match_prefix r' t
     end.

(** [re.search(r, s) is not None]: a match starts somewhere in [s]. *)
Fixpoint search (r : regex) (s : string) : bool :=
  match_prefix r s
  || match s with
     | EmptyString => false
     | String _ t => search r t
     end.

(** Splits off the longest prefix whose characters satisfy [p]. *)
Fixpoint span (p : ascii -> bool) (s : string) : string * string :=
  match s with
  | EmptyString => (EmptyString, EmptyString)
  | String c t =>
      if p c then let (a, b) := span p t in (String c a, b)
      else (EmptyString, s)
  end.

(** The text starts with optional white space and then a [%]. *)
Definition percent_follows (s : string) : bool :=
  match snd (span is_space s) with
  | String c _ => Ascii.eqb c "%"
  | EmptyString => false
  end.

(** Group 1 of the interest-rate pattern matched at the start of [s].  The
    pattern is: group 1 = one or more digits, an optional dot, any digits;
    then any white space; then a percent sign.  The group is a maximal run of
    digits, then greedily a dot and a second maximal run; when the percent
    sign does not follow, the dot is given back.  A shorter run of digits is
    followed by a digit, never by white space or a percent sign, so no other
    backtracking point can succeed. *)
Definition rate_group_at (s : string) : option string :=
  let (d1, r1) := span is_digit s in
  match d1 with
  | EmptyString => None
  | _ =>
      let dotted :=
        match r1 with
        | String c r2 =>
            if Ascii.eqb c "."
            then let (d2, r3) := span is_digit r2 in
                 if percent_follows r3 then Some (d1 ++ "." ++ d2) else None
            else None
        | EmptyString => None
        end in
      match dotted with
      | Some g => Some g
      | None => if percent_follows r1 then Some d1 else None
      end
  end.

(** [re.search(pattern, s).group(1)] for the interest-rate pattern of
    [DocumentAnalystAgent.analyze]: the group of the leftmost match, [None]
    when nothing matches.  The pattern ends in an optional "p.a." / "per
    annum" tail, which changes neither whether there is a match nor group 1. *)
Fixpoint rate_group (s : string) : option string :=
  match rate_group_at s with
  | Some g => Some g
  | None =>
      match s with
      | EmptyString => None
      | String _ t => rate_group t
      end
  end.

End Re.

(* ================================================================== *)
(** ** Threat tiers and findings *)

Inductive ThreatLevel : Type := SAFE | LOW | MEDIUM | HIGH | CRITICAL.

Definition ThreatLevel_eqb (a b : ThreatLevel) : bool :=
  match a, b with
  | SAFE, SAFE | LOW, LOW | MEDIUM, MEDIUM | HIGH, HIGH | CRITICAL, CRITICAL => true
  | _, _ => false
  end.

(** The result dict of a detector, as far as its callers read it: the keys
    [agent], [risk_score] and [threat_level] (a key the dict does not carry
    is [None]), the matched phrases or indicator names, and the boolean flag
    ([is_phishing], [is_impersonation], [is_fraud]) of the detectors that
    set one.  Where the program returns [list(set(...))] the list is kept in
    program order without its duplicates.  Display texts (advice, Hindi
    guidance) and the UPI result's [matched_trajectories], which is read off
    the trajectory data file, are not modelled. *)
Record Finding : Type := mkFinding {
  agent : option string;
  risk_score : option float;
  threat_level : option ThreatLevel;
  evidence : list string;
  flagged : option bool
}.

(* ================================================================== *)
(** ** agents/specialists/__init__.py *)

Module UPIFraudAgent.
Import PyStr PyFloat.
Local Open Scope float_scope.

Definition agent_id : string := "upi_fraud_agent".

Record Pattern : Type := mkPattern {
  p_name : string;
  keywords : list string;
  indicators : list string;
  risk : float
}.

(** [self.patterns], in insertion order. *)
Definition patterns : list Pattern :=
  [ mkPattern "collect_scam"
      ["collect"; "request"; "claim"; "receive"; "accepting"]
      ["won"; "lottery"; "prize"; "cashback"; "reward"; "refund"] 0.95;
    mkPattern "qr_fraud"
      ["scan"; "qr"; "code"]
      ["receive"; "payment"; "money"; "credit"] 0.92;
    mkPattern "fake_refund"
      ["refund"; "reversal"; "pending"; "failed"]
      ["upi pin"; "enter"; "verify"; "confirm"] 0.90;
    mkPattern "marketplace"
      ["army"; "crpf"; "posting"; "buyer"; "seller"]
      ["qr"; "link"; "pay"; "receive"] 0.88 ].

(** One entry of [detected_patterns]. *)
Record Detected : Type := mkDetected {
  d_name : string;
  d_risk : float;
  d_keywords : nat;
  d_indicators : nat
}.

(** The score of a pattern with [keyword_hits] and [indicator_hits]:
    [risk = base * (0.7 + 0.15 * k + 0.15 * i)] and then [min(risk, 1.0)]. *)
Definition pattern_score (base : float) (keyword_hits indicator_hits : nat)
  : float :=
  let risk := base * (0.7 + 0.15 * of_nat keyword_hits
                          + 0.15 * of_nat indicator_hits) in
  py_min risk 1.0.

(** The loop state: [detected_patterns], [max_risk], [red_flags]. *)
Definition scan_state : Type := (list Detected * float * list string)%type.

(** One iteration of [for pattern_name, pattern_data in self.patterns.items()]. *)
Definition scan_step (content_lower : string) (st : scan_state) (p : Pattern)
  : scan_state :=
  let '(detected_patterns, max_risk, red_flags) := st in
  let keyword_hits := count_hits (keywords p) content_lower in
  let indicator_hits := count_hits (indicators p) content_lower in
  if (0 <? keyword_hits)%nat && (0 <? indicator_hits)%nat then
    let risk := pattern_score (risk p) keyword_hits indicator_hits in
    ((detected_patterns
        ++ [mkDetected (p_name p) risk keyword_hits indicator_hits])%list,
     py_max max_risk risk,
     (red_flags ++ hits (keywords p) content_lower
                ++ hits (indicators p) content_lower)%list)
  else st.

(** The whole pattern loop, from [max_risk = 0.0]. *)
Definition scan_patterns (content_lower : string) : scan_state :=
  fold_left (scan_step content_lower) patterns ([], 0.0, []).

Definition urgency_words : list string :=
  ["urgent"; "immediately"; "now"; "hurry"; "fast"; "limited"; "expire";
   "last chance"].

(** The urgency amplifier: [+0.05] per urgency word, clamped at [1.0]. *)
Definition amplify (max_risk : float) (urgency_hits : nat) : float :=
  if (0 <? urgency_hits)%nat
  then py_min (max_risk + 0.05 * of_nat urgency_hits) 1.0
  else max_risk.

(** The threat level of a risk: the [if]/[elif] chain of [analyze]. *)
Definition level_of (max_risk : float) : ThreatLevel :=
  if ge max_risk 0.9 then CRITICAL
  else if ge max_risk 0.7 then HIGH
  else if ge max_risk 0.4 then MEDIUM
  else LOW.

(** [analyze] after [content_lower = content.lower()]. *)
Definition analyze_lower (content_lower : string) : Finding :=
  let '(detected_patterns, max_risk, red_flags) := scan_patterns content_lower in
  let urgency_hits := count_hits urgency_words content_lower in
  let max_risk := amplify max_risk urgency_hits in
  let red_flags :=
    if (0 <? urgency_hits)%nat
    then (red_flags ++ ["urgency_pressure"])%list else red_flags in
  {| agent := Some agent_id;
     risk_score := Some max_risk;
     threat_level := Some (level_of max_risk);
     evidence := nodup string_dec red_flags;
     flagged := None |}.

Definition analyze (content : string) : Finding :=
  analyze_lower (lower content).

(** [analyze] called with an arbitrary object. *)
Definition analyze_dyn (content : Py.value) : Py.outcome Finding :=
  content_lower <- Py.call_lower content ;;
  Py.Ok (analyze_lower content_lower).

End UPIFraudAgent.

Module PhishingAgent.
Import PyStr PyFloat Re.
Local Open Scope float_scope.

Definition agent_id : string := "phishing_agent".

Record Indicator : Type := mkIndicator {
  i_name : string;
  i_patterns : list regex;
  i_risk : float
}.

(** [self.phishing_indicators], in insertion order. *)
Definition phishing_indicators : list Indicator :=
  [ mkIndicator "apk_download"
      [Lit ".apk"; Then "download" "app"; Then "install" "app"] 0.98;
    mkIndicator "shortened_url"
      [Lit "bit.ly"; Lit "tinyurl"; Lit "goo.gl"; Lit "t.co"; Lit "short."] 0.85;
    mkIndicator "fake_bank"
      [Then "sbi" "update"; Then "hdfc" "kyc"; Then "icici" "verify";
       Then "axis" "confirm"] 0.90;
    mkIndicator "account_threat"
      [Then "block" "account"; Lit "suspend"; Lit "freeze"; Lit "deactivate";
       Then "close" "account"] 0.80;
    mkIndicator "screen_share"
      [Lit "anydesk"; Lit "teamviewer"; Lit "quicksupport";
       Then "screen" "share"] 0.95;
    mkIndicator "otp_request"
      [Then "share" "otp"; Then "enter" "otp"; Then "send" "otp";
       Then "otp" "verification"] 0.96 ].

(** One iteration of the outer loop: the inner loop stops at the first
    pattern that matches.  (The search is asked to ignore case, on a text
    that is lower case already: on ASCII text the flag changes nothing.) *)
Definition scan_step (content_lower : string) (st : list string * float)
  (ind : Indicator) : list string * float :=
  let '(detected, max_risk) := st in
  if existsb (fun pattern => search pattern content_lower) (i_patterns ind)
  then ((detected ++ [i_name ind])%list, py_max max_risk (i_risk ind))
  else st.

Definition scan_indicators (content_lower : string) : list string * float :=
  fold_left (scan_step content_lower) phishing_indicators ([], 0.0).

(** The additional KYC check. *)
Definition kyc_check (content_lower : string) (st : list string * float)
  : list string * float :=
  let '(detected, max_risk) := st in
  if contains "kyc" content_lower
     && (contains "update" content_lower || contains "verify" content_lower)
  then if max_risk <? 0.8
       then ((detected ++ ["kyc_urgency"])%list, 0.85)
       else st
  else st.

Definition level_of (max_risk : float) : ThreatLevel :=
  if ge max_risk 0.9 then CRITICAL
  else if ge max_risk 0.7 then HIGH
  else LOW.

Definition analyze_lower (content_lower : string) : Finding :=
  let '(detected, max_risk) :=
    kyc_check content_lower (scan_indicators content_lower) in
  {| agent := Some agent_id;
     risk_score := Some max_risk;
     threat_level := Some (level_of max_risk);
     evidence := detected;
     flagged := Some (ge max_risk 0.7) |}.

Definition analyze (content : string) : Finding :=
  analyze_lower (lower content).

Definition analyze_dyn (content : Py.value) : Py.outcome Finding :=
  content_lower <- Py.call_lower content ;;
  Py.Ok (analyze_lower content_lower).

End PhishingAgent.

Module ImpersonationAgent.
Import PyStr PyFloat.
Local Open Scope float_scope.

Definition agent_id : string := "impersonation_agent".

Definition authority_keywords : list string :=
  ["police"; "cbi"; "ed"; "enforcement directorate"; "crime branch";
   "cyber cell"; "income tax"; "customs"; "narcotics"; "ncb";
   "interpol"; "fir"; "warrant"; "court order"; "legal notice"].

Definition threat_indicators : list string :=
  ["arrest"; "custody"; "jail"; "prison"; "warrant";
   "case against"; "charges"; "investigation"; "questioning";
   "money laundering"; "illegal"; "suspicious activity"].

Definition money_demands : list string :=
  ["pay"; "transfer"; "fine"; "penalty"; "fee"; "deposit";
   "security"; "bail"; "₹"; "rs"; "rupee"; "lakh"; "crore"].

Definition video_terms : list string :=
  ["video call"; "whatsapp video"; "online arrest"; "digital arrest"].

(** [if hits: risk_score += w * min(len(hits), 3)]. *)
Definition add_capped (risk_score w : float) (hits : list string) : float :=
  match hits with
  | [] => risk_score
  | _ :: _ => risk_score + w * of_nat (Nat.min (length hits) 3)
  end.

(** The risk accumulated from the three hit lists and the video-call flag. *)
Definition risk_of (authority_hits threat_hits money_hits : list string)
  (video : bool) : float :=
  let risk_score := 0.0 in
  let risk_score := add_capped risk_score 0.3 authority_hits in
  let risk_score := add_capped risk_score 0.25 threat_hits in
  let risk_score :=
    match money_hits with [] => risk_score | _ :: _ => risk_score + 0.35 end in
  let risk_score := if video then risk_score + 0.25 else risk_score in
  py_min risk_score 1.0.

Definition level_of (risk_score : float) : ThreatLevel :=
  if ge risk_score 0.8 then CRITICAL
  else if ge risk_score 0.5 then HIGH
  else LOW.

Definition analyze_lower (content_lower : string) : Finding :=
  let authority_hits := hits authority_keywords content_lower in
  let threat_hits := hits threat_indicators content_lower in
  let money_hits := hits money_demands content_lower in
  let risk_score :=
    risk_of authority_hits threat_hits money_hits
      (any_in video_terms content_lower) in
  {| agent := Some agent_id;
     risk_score := Some risk_score;
     threat_level := Some (level_of risk_score);
     evidence := (authority_hits ++ threat_hits ++ money_hits)%list;
     flagged := Some (ge risk_score 0.7) |}.

Definition analyze (content : string) : Finding :=
  analyze_lower (lower content).

Definition analyze_dyn (content : Py.value) : Py.outcome Finding :=
  content_lower <- Py.call_lower content ;;
  Py.Ok (analyze_lower content_lower).

End ImpersonationAgent.

Module InvestmentFraudAgent.
Import PyStr PyFloat Re.
Local Open Scope float_scope.

Definition agent_id : string := "investment_agent".

Definition scam_indicators : list string :=
  ["guaranteed returns"; "risk-free"; "double your money";
   "high returns"; "100% profit"; "fixed return";
   "no loss"; "sure profit"; "income guarantee"].

Definition red_flag_terms : list string :=
  ["referral bonus"; "mlm"; "network marketing";
   "joining fee"; "registration fee"; "crypto trading";
   "forex"; "binary options"; "daily profit"].

(** The unrealistic-return pattern: digits, white space, a percent sign,
    white space, and one of "daily", "weekly", "monthly", "per month". *)
Definition return_pattern : regex :=
  Cat (Plus Digit)
   (Cat (Star Space)
     (Cat (Chr "%")
       (Cat (Star Space)
         (Alt (Lit "daily")
           (Alt (Lit "weekly") (Alt (Lit "monthly") (Lit "per month"))))))).

Definition add_capped (risk_score w : float) (hits : list string) : float :=
  match hits with
  | [] => risk_score
  | _ :: _ => risk_score + w * of_nat (Nat.min (length hits) 3)
  end.

Definition risk_of (scam_hits red_flag_hits : list string)
  (return_match : bool) : float :=
  let risk_score := 0.0 in
  let risk_score := add_capped risk_score 0.4 scam_hits in
  let risk_score := add_capped risk_score 0.3 red_flag_hits in
  let risk_score :=
    if return_match then py_max risk_score 0.95 else risk_score in
  py_min risk_score 1.0.

Definition level_of (risk_score : float) : ThreatLevel :=
  if ge risk_score 0.8 then CRITICAL
  else if ge risk_score 0.5 then HIGH
  else LOW.

Definition analyze_lower (content_lower : string) : Finding :=
  let scam_hits := hits scam_indicators content_lower in
  let red_flag_hits := hits red_flag_terms content_lower in
  let risk_score :=
    risk_of scam_hits red_flag_hits (search return_pattern content_lower) in
  {| agent := Some agent_id;
     risk_score := Some risk_score;
     threat_level := Some (level_of risk_score);
     evidence := (scam_hits ++ red_flag_hits)%list;
     flagged := Some (ge risk_score 0.7) |}.

Definition analyze (content : string) : Finding :=
  analyze_lower (lower content).

Definition analyze_dyn (content : Py.value) : Py.outcome Finding :=
  content_lower <- Py.call_lower content ;;
  Py.Ok (analyze_lower content_lower).

End InvestmentFraudAgent.

Module DocumentAnalystAgent.
Import PyStr PyFloat Re.
Local Open Scope float_scope.

Definition agent_id : string := "document_agent".

Definition loan_red_flags : list (string * list string) :=
  [ ("floating_rate",
     ["floating"; "variable rate"; "linked to repo"; "subject to change"]);
    ("foreclosure_penalty",
     ["foreclosure charge"; "prepayment penalty"; "early closure fee"]);
    ("hidden_fees",
     ["processing fee"; "documentation charge"; "verification fee"]);
    ("forced_insurance",
     ["mandatory insurance"; "credit protect"; "loan cover"]);
    ("penal_interest",
     ["penal interest"; "default charge"; "late payment penalty"]) ].

Definition insurance_red_flags : list (string * list string) :=
  [ ("pre_existing", ["pre-existing"; "prior condition"; "existing disease"]);
    ("waiting_period", ["waiting period"; "cooling off"; "dormant period"]);
    ("sub_limits", ["sub-limit"; "room rent cap"; "per day maximum"]);
    ("co_payment", ["co-pay"; "co-insurance"; "borne by insured"]);
    ("exclusions", ["not covered"; "excluded"; "exception"; "does not cover"]) ].

(** One entry of [found_issues]: the issue, the keyword that matched (the
    rate entry has none here) and its label. *)
Record Issue : Type := mkIssue {
  issue : string;
  keyword : option string;
  label : string
}.

(** The issue of one table row: its first keyword found in the text.  The
    issue keeps the key of the row; the program shows it with spaces and
    capitals. *)
Definition row_issue (content_lower : string) (row : string * list string)
  : list Issue :=
  match find (fun kw => contains (lower kw) content_lower) (snd row) with
  | Some kw =>
      [mkIssue (fst row) (Some kw)
         (if contains "penalty" kw || contains "not covered" kw
          then "HIGH" else "MEDIUM")]
  | None => []
  end.

Section Analyze.

(** The builtin [float] on the text of a decimal numeral. *)
Variable py_float : string -> float.

(** [interest_rate]: the rate found in the text, if any. *)
Definition interest_rate (content_lower : string) : option float :=
  option_map py_float (rate_group content_lower).

(** [interest_rate and interest_rate > 15]. *)
Definition high_rate (rate : option float) : bool :=
  match rate with
  | Some r => negb (r =? 0) && gt r 15
  | None => false
  end.

Definition found_issues (content_lower doc_type : string) : list Issue :=
  let red_flags :=
    if String.eqb doc_type "loan" then loan_red_flags
    else insurance_red_flags in
  (flat_map (row_issue content_lower) red_flags
   ++ (if high_rate (interest_rate content_lower)
       then [mkIssue "High Interest Rate" None "HIGH"] else []))%list.

Definition analyze_lower (content_lower doc_type : string) : Finding :=
  let issues := found_issues content_lower doc_type in
  let risk_score := py_min (of_nat (length issues) * 0.2) 1.0 in
  {| agent := Some agent_id;
     risk_score := Some risk_score;
     threat_level := None;
     evidence := map issue issues;
     flagged := None |}.

(** [analyze(content, doc_type='loan')]. *)
Definition analyze (content doc_type : string) : Finding :=
  analyze_lower (lower content) doc_type.

Definition analyze_dyn (content : Py.value) (doc_type : string)
  : Py.outcome Finding :=
  content_lower <- Py.call_lower content ;;
  Py.Ok (analyze_lower content_lower doc_type).

End Analyze.

End DocumentAnalystAgent.

(* ================================================================== *)
(** ** agents/tools.py: the UPI scam detector tool *)

Module UPIScamDetector.
Import PyStr PyFloat.
Local Open Scope float_scope.

Record Pattern : Type := mkPattern {
  p_name : string;
  keywords : list string;
  indicators : list string;
  risk : float
}.

Definition SCAM_PATTERNS : list Pattern :=
  [ mkPattern "collect_request_scam"
      ["collect"; "request"; "pay"; "receive"; "claim"]
      ["won"; "lottery"; "prize"; "cashback"; "refund"; "reward"] 0.9;
    mkPattern "fake_cashback"
      ["cashback"; "bonus"; "reward"; "credit"]
      ["click"; "link"; "verify"; "otp"] 0.85;
    mkPattern "refund_scam"
      ["refund"; "reversal"; "failed"; "pending"]
      ["upi pin"; "enter"; "confirm"; "process"] 0.88;
    mkPattern "qr_code_scam"
      ["scan"; "qr"; "code"; "payment"]
      ["receive"; "get"; "credit"; "money"] 0.92 ].

Definition ODD_AMOUNTS : list float := [1; 10; 49999; 50000; 99999; 100000].

(** [pattern_risk = base * (0.5 + 0.25 * k + 0.25 * i)] and then
    [min(pattern_risk, 1.0)]. *)
Definition pattern_score (base : float) (keyword_matches indicator_matches : nat)
  : float :=
  let pattern_risk := base * (0.5 + 0.25 * of_nat keyword_matches
                                  + 0.25 * of_nat indicator_matches) in
  py_min pattern_risk 1.0.

(** The loop state: the detected patterns with their risk, [total_risk]. *)
Definition scan_state : Type := (list (string * float) * float)%type.

Definition scan_step (message_lower : string) (st : scan_state) (p : Pattern)
  : scan_state :=
  let '(detected_patterns, total_risk) := st in
  let keyword_matches := count_hits (keywords p) message_lower in
  let indicator_matches := count_hits (indicators p) message_lower in
  if (0 <? keyword_matches)%nat && (0 <? indicator_matches)%nat then
    let pattern_risk :=
      pattern_score (risk p) keyword_matches indicator_matches in
    ((detected_patterns ++ [(p_name p, pattern_risk)])%list,
     py_max total_risk pattern_risk)
  else st.

(** The pattern loop: [total_risk] before the amplifiers. *)
Definition scan_patterns (message_lower : string) : scan_state :=
  fold_left (scan_step message_lower) SCAM_PATTERNS ([], 0.0).

Definition urgency_words : list string :=
  ["urgent"; "immediately"; "now"; "hurry"; "fast"; "quick"; "limited";
   "expire"].

(** Urgency language: [+0.1] per word, clamped. *)
Definition amplify_urgency (total_risk : float) (urgency_count : nat) : float :=
  if (0 <? urgency_count)%nat
  then py_min (total_risk + 0.1 * of_nat urgency_count) 1.0
  else total_risk.

(** [if amount and amount in self.ODD_AMOUNTS]: [+0.15], clamped. *)
Definition amplify_amount (total_risk : float) (amount : option float) : float :=
  match amount with
  | Some a =>
      if negb (a =? 0) && existsb (fun o => a =? o) ODD_AMOUNTS
      then py_min (total_risk + 0.15) 1.0
      else total_risk
  | None => total_risk
  end.

Definition level_of (total_risk : float) : ThreatLevel :=
  if ge total_risk 0.9 then CRITICAL
  else if ge total_risk 0.7 then HIGH
  else if ge total_risk 0.4 then MEDIUM
  else if gt total_risk 0 then LOW
  else SAFE.

(** The [ToolResult]: the risk, the detected patterns, the level and the
    scam flag.  The explanation texts are not modelled. *)
Record ToolResult : Type := mkToolResult {
  tr_risk_score : float;
  tr_patterns_detected : list (string * float);
  tr_risk_level : ThreatLevel;
  tr_is_scam : bool
}.

Definition analyze (message : string) (amount : option float) : ToolResult :=
  let message_lower := lower message in
  let '(detected_patterns, total_risk) := scan_patterns message_lower in
  let total_risk :=
    amplify_urgency total_risk (count_hits urgency_words message_lower) in
  let total_risk := amplify_amount total_risk amount in
  {| tr_risk_score := total_risk;
     tr_patterns_detected := detected_patterns;
     tr_risk_level := level_of total_risk;
     tr_is_scam := ge total_risk 0.7 |}.

End UPIScamDetector.

(* ================================================================== *)
(** ** core/adk_core.py: the agent execution state machine *)

Module AdkCore.
Import Py.

Inductive TaskStatus : Type := PENDING | RUNNING | COMPLETED | FAILED | DELEGATED.

Record Task : Type := mkTask {
  task_id : string;
  task_type : string;
  content : string;
  parent_task_id : option string
}.

(** [sub_results] and [metadata] keep their empty defaults in [execute] and
    are left out. *)
Record TaskResult : Type := mkTaskResult {
  tr_task_id : string;
  tr_agent_id : string;
  status : TaskStatus;
  result : value;
  confidence : float;
  reasoning : string;
  execution_time : float
}.

(** The plan dict: a key that is absent is [None]. *)
Record Plan : Type := mkPlan {
  action : string;
  delegate_to : option string;
  use_tools : option (list string);
  plan_reasoning : option string
}.

Record ToolDefinition : Type := mkTool {
  tool_name : string;
  function : string -> outcome value     (* called as [function(content=...)] *)
}.

(** [ToolRegistry._tools]. *)
Definition Registry : Type := list (string * ToolDefinition).

Fixpoint ToolRegistry_get (reg : Registry) (name : string)
  : option ToolDefinition :=
  match reg with
  | [] => None
  | (k, t) :: rest => if String.eqb name k then Some t else ToolRegistry_get rest name
  end.

(** [ToolRegistry.execute(name, content=...)]. *)
Definition ToolRegistry_execute (reg : Registry) (name content : string)
  : outcome value :=
  match ToolRegistry_get reg name with
  | Some tool => function tool content
  | None => Raise (Exception "ValueError" ("Tool " ++ name ++ " not found"))
  end.

(** A registered sub-agent, as its parent sees it: its name and its own
    [execute]. *)
Record SubAgent : Type := mkSubAgent {
  sa_name : string;
  sa_execute : Task -> outcome TaskResult
}.

(** An agent: its identity and the methods [execute] calls, each of which a
    subclass may override and each of which may raise. *)
Record Agent : Type := mkAgent {
  agent_id : string;
  _plan : Task -> outcome Plan;
  _delegate : Task -> string -> outcome value;
  _use_tools : Task -> list string -> outcome value;
  _generate_response : Task -> outcome value;
  _verify : Task -> value -> outcome value;
  _calculate_confidence : value -> outcome float
}.

(** Truthiness of [plan.get('delegate_to')] and [plan.get('use_tools')]. *)
Definition truthy_str (o : option string) : option string :=
  match o with
  | Some EmptyString | None => None
  | Some s => Some s
  end.

Definition truthy_list (o : option (list string)) : option (list string) :=
  match o with
  | Some [] | None => None
  | Some l => Some l
  end.

(** Step 2 of [execute]: delegate, use tools, or respond directly. *)
Definition run_plan (a : Agent) (task : Task) (plan : Plan) : outcome value :=
  match truthy_str (delegate_to plan) with
  | Some sub => _delegate a task sub
  | None =>
      match truthy_list (use_tools plan) with
      | Some names => _use_tools a task names
      | None => _generate_response a task
      end
  end.

(** The body of the [try] block of [execute]; [elapsed] is
    [time.time() - start_time]. *)
Definition execute_try (a : Agent) (task : Task) (elapsed : float)
  : outcome TaskResult :=
  plan <- _plan a task ;;
  result <- run_plan a task plan ;;
  verified_result <- _verify a task result ;;
  conf <- _calculate_confidence a verified_result ;;
  Ok {| tr_task_id := task_id task;
        tr_agent_id := agent_id a;
        status := COMPLETED;
        result := verified_result;
        confidence := conf;
        reasoning := match plan_reasoning plan with Some r => r | None => EmptyString end;
        execution_time := elapsed |}.

(** The [except Exception as e] handler of [execute]. *)
Definition execute_except (a : Agent) (task : Task) (elapsed : float) (e : exn)
  : outcome TaskResult :=
  Ok {| tr_task_id := task_id task;
        tr_agent_id := agent_id a;
        status := FAILED;
        result := VDict [("error", VStr (exn_msg e))];
        confidence := 0%float;
        reasoning := "Execution failed: " ++ exn_msg e;
        execution_time := elapsed |}.

(** [BaseAgent.execute]: the returned result and the new [task_history]
    (only a completed task is appended). *)
Definition execute (a : Agent) (task_history : list TaskResult) (task : Task)
  (elapsed : float) : outcome (TaskResult * list TaskResult) :=
  try_except
    (r <- execute_try a task elapsed ;; Ok (r, (task_history ++ [r])%list))
    (fun e => r <- execute_except a task elapsed e ;; Ok (r, task_history)).

(** *** The default methods of [BaseAgent] *)

Section BaseAgent.

(** [ToolRegistry._tools], the process-wide registry. *)
Variable reg : Registry.

(** [self.sub_agents], [self.tools], [self.name], and the optional client of
    the generative-language service (the text it returns for a prompt). *)
Variable sub_agents : list (string * SubAgent).
Variable tools : list string.
Variable name : string.
Variable client : option (string -> outcome string).

(** The two predicates [_plan] consults, open to overriding. *)
Variable _should_delegate : Task -> SubAgent -> outcome bool.
Variable _tool_matches : Task -> ToolDefinition -> outcome bool.

(** The first loop of [_plan]: the first sub-agent to delegate to. *)
Fixpoint plan_delegate (task : Task) (subs : list (string * SubAgent))
  : outcome (option Plan) :=
  match subs with
  | [] => Ok None
  | (sub_id, agent) :: rest =>
      b <- _should_delegate task agent ;;
      if b then
        Ok (Some {| action := "delegate";
                    delegate_to := Some sub_id;
                    use_tools := None;
                    plan_reasoning :=
                      Some ("Delegating to " ++ sa_name agent
                            ++ " for specialized handling") |})
      else plan_delegate task rest
  end.

(** The second loop of [_plan]: the registered tools that match. *)
Fixpoint plan_tools (task : Task) (names : list string)
  : outcome (list string) :=
  match names with
  | [] => Ok []
  | tool_name :: rest =>
      match ToolRegistry_get reg tool_name with
      | Some tool =>
          b <- _tool_matches task tool ;;
          tl <- plan_tools task rest ;;
          Ok (if b then tool_name :: tl else tl)
      | None => plan_tools task rest
      end
  end.

(** [_plan]: delegate to the first sub-agent that asks for it, else use the
    registered tools that match, else respond directly.  (The method first
    lower-cases the content into a variable it never reads.) *)
Definition BaseAgent_plan (task : Task) : outcome Plan :=
  d <- plan_delegate task sub_agents ;;
  match d with
  | Some plan => Ok plan
  | None =>
      tools_to_use <- plan_tools task tools ;;
      match tools_to_use with
      | _ :: _ =>
          Ok {| action := "use_tools";
                delegate_to := None;
                use_tools := Some tools_to_use;
                plan_reasoning :=
                  Some ("Using tools: " ++ PyStr.join ", " tools_to_use) |}
      | [] =>
          Ok {| action := "respond";
                delegate_to := None;
                use_tools := None;
                plan_reasoning := Some "Generating direct response" |}
      end
  end.

(** One iteration of the loop of [_use_tools]: the tool runs inside its own
    [try]; what it raises from the [Exception] hierarchy leaves an error
    marker under its name. *)
Definition use_tool (task : Task) (results : list (string * value))
  (tool_name : string) : outcome (list (string * value)) :=
  try_except
    (r <- ToolRegistry_execute reg tool_name (content task) ;;
     Ok (dict_set tool_name r results))
    (fun e => Ok (dict_set tool_name (VDict [("error", VStr (exn_msg e))])
                    results)).

(** The loop of [_use_tools], from the dict built so far: it goes on after
    a marked failure and ends where an exception is not caught. *)
Fixpoint use_tools_from (task : Task) (tool_names : list string)
  (results : list (string * value)) : outcome (list (string * value)) :=
  match tool_names with
  | [] => Ok results
  | tool_name :: rest =>
      results <- use_tool task results tool_name ;;
      use_tools_from task rest results
  end.

(** [_use_tools]. *)
Definition BaseAgent_use_tools (task : Task) (tool_names : list string)
  : outcome value :=
  results <- use_tools_from task tool_names [] ;;
  Ok (VDict results).

Fixpoint lookup_sub (subs : list (string * SubAgent)) (sub_id : string)
  : option SubAgent :=
  match subs with
  | [] => None
  | (k, a) :: rest => if String.eqb sub_id k then Some a else lookup_sub rest sub_id
  end.

(** [_delegate]: the sub-agent's own [execute], or an error marker for an
    unknown id. *)
Definition BaseAgent_delegate (task : Task) (sub_id : string) : outcome value :=
  match lookup_sub sub_agents sub_id with
  | Some agent => r <- sa_execute agent task ;; Ok (result r)
  | None => Ok (VDict [("error", VStr ("Agent " ++ sub_id ++ " not found"))])
  end.

Definition BaseAgent_fallback_response (task : Task) : string :=
  "[" ++ name ++ "] Analyzed: " ++ PyStr.take 100 (content task) ++ "...".

(** [_generate_response]: a failure of the service is caught here and
    returned as an error marker. *)
Definition BaseAgent_generate_response (task : Task) : outcome value :=
  match client with
  | Some generate_content =>
      try_except
        (text <- generate_content (content task) ;;
         Ok (VDict [("response", VStr text)]))
        (fun e => Ok (VDict [("error", VStr (exn_msg e))]))
  | None => Ok (VDict [("response", VStr (BaseAgent_fallback_response task))])
  end.

Definition BaseAgent_verify (task : Task) (r : value) : outcome value := Ok r.

Definition BaseAgent_calculate_confidence (r : value) : outcome float :=
  b <- contains_key "error" r ;;
  Ok (if b then 0 else 0.8)%float.

End BaseAgent.

(** The predicates of the base class: never delegate, every tool applies. *)
Definition never_delegate (task : Task) (agent : SubAgent) : outcome bool :=
  Ok false.
Definition always_matches (task : Task) (tool : ToolDefinition) : outcome bool :=
  Ok true.

(** An agent that overrides nothing. *)
Definition BaseAgent (reg : Registry) (agent_id name : string)
  (sub_agents : list (string * SubAgent)) (tools : list string)
  (client : option (string -> outcome string)) : Agent :=
  {| agent_id := agent_id;
     _plan := BaseAgent_plan reg sub_agents tools never_delegate always_matches;
     _delegate := BaseAgent_delegate sub_agents;
     _use_tools := BaseAgent_use_tools reg;
     _generate_response := BaseAgent_generate_response name client;
     _verify := BaseAgent_verify;
     _calculate_confidence := BaseAgent_calculate_confidence |}.

End AdkCore.

(* ================================================================== *)
(** ** agents/financial_bodyguard.py: the orchestrator *)

Module FinancialBodyguard.
Import PyStr PyFloat.

(** One entry of the trajectory data file.  The file is read once at start
    up; its entries are a parameter of the orchestrator. *)
Record Trajectory : Type := mkTrajectory {
  t_id : string;
  t_name : option string;
  t_red_flags : option (list string);
  t_hindi_warning : option string
}.

(** [self.stats]. *)
Record Stats : Type := mkStats {
  total_analyses : nat;
  threats_detected : nat;
  critical_blocks : nat
}.

(** The dict [_aggregate_results] returns; the two informational keys are
    absent when there are no results. *)
Record Aggregated : Type := mkAggregated {
  a_threat_level : ThreatLevel;
  a_risk_score : float;
  a_primary_threat : option string;
  a_agent_count : option nat;
  a_all_risks : option (list float)
}.

Record ProtectionResult : Type := mkProtectionResult {
  pr_threat_level : ThreatLevel;
  pr_risk_score : float;
  pr_primary_threat : option string;
  pr_summary : string;
  pr_hindi_summary : string;
  pr_recommendations : list string;
  pr_agent_findings : list Finding;
  pr_matched_trajectory : option Trajectory;
  pr_emergency_action : bool;
  pr_timestamp : string
}.

(** *** Routing *)

Definition upi_triggers : list string :=
  ["upi"; "collect"; "pay"; "gpay"; "phonepe"; "paytm"; "qr"; "₹"; "rs"].
Definition phishing_triggers : list string :=
  ["kyc"; "update"; "verify"; "bank"; "apk"; "download"; "link"; "click"].
Definition impersonation_triggers : list string :=
  ["police"; "cbi"; "ed"; "arrest"; "warrant"; "customs"; "parcel"].
Definition document_triggers : list string :=
  ["loan"; "emi"; "insurance"; "policy"; "premium"; "interest rate"].
Definition investment_triggers : list string :=
  ["invest"; "return"; "profit"; "trading"; "crypto"; "forex"; "double"].

Definition _route_to_agents (content : string) : list string :=
  let content_lower := lower content in
  let agents :=
    ((if any_in upi_triggers content_lower then ["upi"] else [])
     ++ (if any_in phishing_triggers content_lower then ["phishing"] else [])
     ++ (if any_in impersonation_triggers content_lower
         then ["impersonation"] else [])
     ++ (if any_in document_triggers content_lower then ["document"] else [])
     ++ (if any_in investment_triggers content_lower
         then ["investment"] else []))%list in
  match agents with
  | [] => ["upi"; "phishing"; "impersonation"]
  | _ :: _ => agents
  end.

(** *** Aggregation *)

(** [r.get('risk_score', 0)] and [r.get('agent', 'unknown')]. *)
Definition get_risk (r : Finding) : float :=
  match risk_score r with Some x => x | None => 0%float end.
Definition get_agent (r : Finding) : string :=
  match agent r with Some a => a | None => "unknown" end.

(** The loop that picks [primary_threat]: the first result whose risk
    equals [max_risk]. *)
Fixpoint first_at (max_risk : float) (results : list Finding) : option string :=
  match results with
  | [] => None
  | r :: rest =>
      if (get_risk r =? max_risk)%float then Some (get_agent r)
      else first_at max_risk rest
  end.

Definition _aggregate_results (results : list Finding) : Aggregated :=
  match results with
  | [] =>
      {| a_threat_level := SAFE;
         a_risk_score := 0%float;
         a_primary_threat := None;
         a_agent_count := None;
         a_all_risks := None |}
  | r0 :: rest =>
      let max_risk := py_max_iter (get_risk r0) (map get_risk rest) in
      let primary_threat := first_at max_risk results in
      let threat_level :=
        if ge max_risk 0.9 then CRITICAL
        else if ge max_risk 0.7 then HIGH
        else if ge max_risk 0.4 then MEDIUM
        else if gt max_risk 0.1 then LOW
        else SAFE in
      {| a_threat_level := threat_level;
         a_risk_score := max_risk;
         a_primary_threat := primary_threat;
         a_agent_count := Some (length results);
         a_all_risks := Some (map get_risk results) |}
  end.

(** *** Trajectory matching *)

(** [sum(1 for rf in red_flags if rf.lower() in content_lower)]. *)
Definition red_flag_matches (content_lower : string) (t : Trajectory) : nat :=
  let red_flags := match t_red_flags t with Some l => l | None => [] end in
  length (filter (fun rf => contains (lower rf) content_lower) red_flags).

(** One iteration of the loop over [self.trajectories]; the state is
    [(best_match, best_score)]. *)
Definition match_step (content_lower : string)
  (st : option Trajectory * nat) (trajectory : Trajectory)
  : option Trajectory * nat :=
  let '(best_match, best_score) := st in
  let matches := red_flag_matches content_lower trajectory in
  if (best_score <? matches)%nat then (Some trajectory, matches) else st.

Definition _match_trajectory (trajectories : list Trajectory) (content : string)
  (aggregated : Aggregated) : option Trajectory :=
  let content_lower := lower content in
  let '(best_match, best_score) :=
    fold_left (match_step content_lower) trajectories (None, 0) in
  if (2 <=? best_score)%nat then best_match else None.

(** *** Recommendations *)

Definition elder_rec : string :=
  "👴 Please show this to a younger family member".

Definition critical_recs : list string :=
  [ "🚨 STOP! Do NOT proceed with this transaction!";
    "🚫 Do NOT share any OTP, PIN, or password";
    "📞 Call Cyber Crime Helpline: 1930";
    "👨‍👩‍👧 Inform a trusted family member immediately";
    "🏦 If you've shared any details, call your bank NOW" ].

Definition high_recs : list string :=
  [ "⚠️ This appears to be a scam - do not proceed";
    "🔒 Do not click any links in this message";
    "📱 Verify sender through official channels only";
    "⏰ Take time to verify - genuine matters can wait" ].

Definition medium_recs : list string :=
  [ "⚡ Exercise caution before proceeding";
    "🔍 Verify the sender's identity";
    "📞 Contact official helpline to confirm" ].

Definition other_recs : list string :=
  [ "✅ No immediate threat detected";
    "🔒 Always protect your OTP and PIN";
    "👀 Stay alert for future suspicious messages" ].

Definition _generate_recommendations (threat_level : ThreatLevel)
  (risk_score : float) (user_age : Z) : list string :=
  let is_elderly := (60 <=? user_age)%Z in
  match threat_level with
  | CRITICAL =>
      let recs := critical_recs in
      if is_elderly then elder_rec :: recs else recs
  | HIGH => high_recs
  | MEDIUM => medium_recs
  | _ => other_recs
  end.

(** *** Summaries *)

Definition _generate_summaries (aggregated : Aggregated)
  (trajectory : option Trajectory) : string * string :=
  let '(summary, hindi) :=
    match a_threat_level aggregated with
    | CRITICAL =>
        ("🚨 CRITICAL THREAT! This is almost certainly a scam. Do NOT proceed!",
         "🚨 गंभीर खतरा! यह निश्चित रूप से धोखाधड़ी है! आगे न बढ़ें! हेल्पलाइन: 1930")
    | HIGH =>
        ("⚠️ HIGH RISK detected. Strong indicators of fraud found.",
         "⚠️ उच्च जोखिम! धोखाधड़ी के संकेत मिले।")
    | MEDIUM =>
        ("⚡ CAUTION advised. Some suspicious elements found.",
         "⚡ सावधान! कुछ संदिग्ध तत्व मिले।")
    | _ =>
        ("✅ LOW RISK. No major threats detected.",
         "✅ कम जोखिम। कोई बड़ा खतरा नहीं।")
    end in
  let nl := String (ascii_of_nat 10) (String (ascii_of_nat 10) EmptyString) in
  match trajectory with
  | Some t =>
      (summary ++ nl ++ "Matched scam pattern: "
         ++ match t_name t with Some n => n | None => "Unknown" end,
       match t_hindi_warning t with
       | Some (String c w) => hindi ++ nl ++ String c w
       | _ => hindi
       end)
  | None => (summary, hindi)
  end.

(** *** The analysis *)

Section Analyze.

(** The builtin [float], which the document agent calls. *)
Variable py_float : string -> float.

(** [self.trajectories]. *)
Variable trajectories : list Trajectory.

(** [self.specialists.get(agent_id)], applied to the content. *)
Definition specialist (agent_id : string) : option (string -> Finding) :=
  if String.eqb agent_id "upi" then Some UPIFraudAgent.analyze
  else if String.eqb agent_id "phishing" then Some PhishingAgent.analyze
  else if String.eqb agent_id "impersonation" then Some ImpersonationAgent.analyze
  else if String.eqb agent_id "document"
  then Some (fun c => DocumentAnalystAgent.analyze py_float c "loan")
  else if String.eqb agent_id "investment" then Some InvestmentFraudAgent.analyze
  else None.

(** The loop that runs the selected agents in routing order. *)
Definition run_agents (agents_to_use : list string) (content : string)
  : list Finding :=
  flat_map
    (fun agent_id =>
       match specialist agent_id with
       | Some analyze => [analyze content]
       | None => []
       end)
    agents_to_use.

(** [analyze(content, user_age)]: the result and the updated statistics.
    [now] is the time stamp read from the clock. *)
Definition analyze (stats : Stats) (content : string) (user_age : Z)
  (now : string) : ProtectionResult * Stats :=
  let stats :=
    {| total_analyses := total_analyses stats + 1;
       threats_detected := threats_detected stats;
       critical_blocks := critical_blocks stats |} in
  let agents_to_use := _route_to_agents content in
  let agent_results := run_agents agents_to_use content in
  let aggregated := _aggregate_results agent_results in
  let matched_trajectory := _match_trajectory trajectories content aggregated in
  let recommendations :=
    _generate_recommendations (a_threat_level aggregated)
      (a_risk_score aggregated) user_age in
  let '(summary, hindi) := _generate_summaries aggregated matched_trajectory in
  let stats :=
    match a_threat_level aggregated with
    | HIGH | CRITICAL =>
        {| total_analyses := total_analyses stats;
           threats_detected := threats_detected stats + 1;
           critical_blocks := critical_blocks stats |}
    | _ => stats
    end in
  let stats :=
    match a_threat_level aggregated with
    | CRITICAL =>
        {| total_analyses := total_analyses stats;
           threats_detected := threats_detected stats;
           critical_blocks := critical_blocks stats + 1 |}
    | _ => stats
    end in
  ({| pr_threat_level := a_threat_level aggregated;
      pr_risk_score := a_risk_score aggregated;
      pr_primary_threat := a_primary_threat aggregated;
      pr_summary := summary;
      pr_hindi_summary := hindi;
      pr_recommendations := recommendations;
      pr_agent_findings := agent_results;
      pr_matched_trajectory := matched_trajectory;
      pr_emergency_action := ThreatLevel_eqb (a_threat_level aggregated) CRITICAL;
      pr_timestamp := now |},
   stats).

End Analyze.

End FinancialBodyguard.


(* ================================================================== *)
(** ** core/adk_core.py: registration and the multi-agent orchestrator *)

Module AdkRegistry.
Import Py AdkCore.

(** [ToolRegistry.register(name, description, parameters, function)]:
    [cls._tools[name] = ToolDefinition(...)].  A name already present keeps
    its place and gets the new tool; a new name goes to the end.  The
    description and the parameter schema of a tool are not modelled. *)
Fixpoint ToolRegistry_register (reg : Registry) (name : string)
  (f : string -> outcome value) : Registry :=
  match reg with
  | [] => [(name, mkTool name f)]
  | (k, t) :: rest =>
      if String.eqb name k then (name, mkTool name f) :: rest
      else (k, t) :: ToolRegistry_register rest name f
  end.

(** [register_sub_agent(agent)]: [self.sub_agents[agent.agent_id] = agent]. *)
Fixpoint register_sub_agent (subs : list (string * SubAgent))
  (sub_id : string) (agent : SubAgent) : list (string * SubAgent) :=
  match subs with
  | [] => [(sub_id, agent)]
  | (k, a) :: rest =>
      if String.eqb sub_id k then (sub_id, agent) :: rest
      else (k, a) :: register_sub_agent rest sub_id agent
  end.

End AdkRegistry.

Module MultiAgentOrchestrator.
Import Py AdkCore.

(** [AgentContext]: the context a task refers to.  The object is shared by
    the task and everything derived from it, so it is passed beside the task
    and handed back when it was written. *)
Record AgentContext : Type := mkContext {
  session_id : string;
  user_id : option string;
  user_age_group : string;
  language : string;
  risk_tolerance : float;
  metadata : list (string * value)
}.

(** A registered agent as the orchestrator uses it: its id, and the result
    its [execute] returns for a task and the context the task refers to
    (an agent whose [execute] returns: nothing outside the [Exception]
    hierarchy is raised in it, and it does not write to the context). *)
Record Member : Type := mkMember {
  m_agent_id : string;
  m_execute : Task -> AgentContext -> TaskResult
}.

(** One entry of [execution_log]. *)
Record LogEntry : Type := mkLogEntry {
  le_agent_id : string;
  le_task_id : string;
  le_status : string;
  le_confidence : float;
  le_execution_time : float;
  le_timestamp : string
}.

(** [status.value]. *)
Definition status_value (s : TaskStatus) : string :=
  match s with
  | PENDING => "pending"
  | RUNNING => "running"
  | COMPLETED => "completed"
  | FAILED => "failed"
  | DELEGATED => "delegated"
  end.

(** [self.agents.get(agent_id)]. *)
Fixpoint agents_get (agents : list (string * Member)) (agent_id : string)
  : option Member :=
  match agents with
  | [] => None
  | (k, a) :: rest =>
      if String.eqb agent_id k then Some a else agents_get rest agent_id
  end.

(** [register_agent(agent)]: [self.agents[agent.agent_id] = agent]. *)
Fixpoint register_agent (agents : list (string * Member)) (agent : Member)
  : list (string * Member) :=
  match agents with
  | [] => [(m_agent_id agent, agent)]
  | (k, a) :: rest =>
      if String.eqb (m_agent_id agent) k then (m_agent_id agent, agent) :: rest
      else (k, a) :: register_agent rest agent
  end.

(** [context.metadata[key] = v]. *)
Definition set_metadata (key : string) (v : value) (c : AgentContext)
  : AgentContext :=
  {| session_id := session_id c;
     user_id := user_id c;
     user_age_group := user_age_group c;
     language := language c;
     risk_tolerance := risk_tolerance c;
     metadata := dict_set key v (metadata c) |}.

Section Orchestrator.

(** The clock: the time stamp read when the log has [n] entries. *)
Variable utcnow : nat -> string.

(** [self.agents]. *)
Variable agents : list (string * Member).

(** [_log_execution(agent_id, result)]: appends one entry. *)
Definition _log_execution (execution_log : list LogEntry) (agent_id : string)
  (r : TaskResult) : list LogEntry :=
  (execution_log
   ++ [ {| le_agent_id := agent_id;
           le_task_id := tr_task_id r;
           le_status := status_value (status r);
           le_confidence := confidence r;
           le_execution_time := execution_time r;
           le_timestamp := utcnow (length execution_log) |} ])%list.

(** The task derived for one agent. *)
Definition derived_task (task : Task) (agent_id : string) : Task :=
  {| task_id := task_id task ++ "_" ++ agent_id;
     task_type := task_type task;
     content := content task;
     parent_task_id := Some (task_id task) |}.

(** The state of the loop of [execute_sequential]: [results], the shared
    context, and the log. *)
Definition seq_state : Type :=
  (list TaskResult * AgentContext * list LogEntry)%type.

Definition sequential_step (task : Task) (st : seq_state) (agent_id : string)
  : seq_state :=
  let '(results, current_context, execution_log) := st in
  match agents_get agents agent_id with
  | Some agent =>
      let agent_task := derived_task task agent_id in
      let r := m_execute agent agent_task current_context in
      ((results ++ [r])%list,
       set_metadata "previous_result" (result r) current_context,
       _log_execution execution_log agent_id r)
  | None => st
  end.

(** [execute_sequential(task, agent_order)]: the results, the context as the
    run leaves it, and the log. *)
Definition execute_sequential (execution_log : list LogEntry) (task : Task)
  (context : AgentContext) (agent_order : list string) : seq_state :=
  fold_left (sequential_step task) agent_order ([], context, execution_log).

(** [execute_hierarchical(task, root_agent_id)]: the result and the log. *)
Definition execute_hierarchical (execution_log : list LogEntry) (task : Task)
  (context : AgentContext) (root_agent_id : string)
  : outcome (TaskResult * list LogEntry) :=
  match agents_get agents root_agent_id with
  | None =>
      Raise (Exception "ValueError" ("Agent " ++ root_agent_id ++ " not found"))
  | Some root_agent =>
      let r := m_execute root_agent task context in
      Ok (r, _log_execution execution_log root_agent_id r)
  end.

End Orchestrator.

(** [max(results, key=lambda r: 1 - r.confidence)] on a non-empty list: the
    first result is kept until one with a greater key comes. *)
Definition risk_key (r : TaskResult) : float := (1 - confidence r)%float.

Definition max_by_risk (r0 : TaskResult) (rest : list TaskResult) : TaskResult :=
  fold_left
    (fun best r => if (risk_key best <? risk_key r)%float then r else best)
    rest r0.

(** The dict [aggregate_results] returns. *)
Inductive Aggregate : Type :=
| NoResults                                   (* [{"status": "no_results"}] *)
| Aggregated
    (agent_count : nat)
    (avg_confidence : float)
    (primary_result : value)
    (all_findings : list (string * value * float))
    (execution_times : list float).

Definition is_dict (v : value) : bool :=
  match v with VDict _ => true | _ => false end.

Section Aggregate.

(** The builtin [sum] on floats (its rounding depends on the interpreter
    version). *)
Variable py_sum : list float -> float.

Definition aggregate_results (results : list TaskResult) : Aggregate :=
  match results with
  | [] => NoResults
  | r0 :: rest =>
      let total_confidence := py_sum (map confidence results) in
      let avg_confidence :=
        (total_confidence / PyFloat.of_nat (length results))%float in
      let max_risk_result := max_by_risk r0 rest in
      Aggregated
        (length results)
        avg_confidence
        (result max_risk_result)
        (map (fun r => (tr_agent_id r, result r, confidence r))
           (filter (fun r => is_dict (result r)) results))
        (map execution_time results)
  end.

End Aggregate.

End MultiAgentOrchestrator.

(* ================================================================== *)
(** ** agents/tools.py: the KYC phishing and police impersonation tools *)

Module KYCPhishingDetector.
Import PyStr PyFloat Re.
Local Open Scope float_scope.

Record Indicator : Type := mkIndicator {
  i_name : string;
  i_patterns : list regex;
  i_risk : float;
  i_explanation : string
}.

(** A number pattern, any white space, and a unit. *)
Definition spaced (n : regex) (unit : string) : regex :=
  Cat n (Cat (Star Space) (Lit unit)).

(** [PHISHING_INDICATORS], in insertion order. *)
Definition PHISHING_INDICATORS : list Indicator :=
  [ mkIndicator "apk_download"
      [Lit ".apk"; Then "download" "app"; Then "install" "app"] 0.98
      "APK download request - NEVER download apps from links";
    mkIndicator "shortened_url"
      [Lit "bit.ly"; Lit "tinyurl"; Lit "goo.gl"; Lit "shorturl"; Lit "t.co"]
      0.85
      "Shortened URL detected - may hide malicious destination";
    mkIndicator "fake_bank_url"
      [Then "sbi" "secure"; Then "hdfc" "update"; Then "icici" "kyc";
       Then "bank" "verify"] 0.9
      "Suspicious bank-related URL pattern";
    mkIndicator "blocking_threat"
      [Then "block" "account"; Then "suspend" "account";
       Then "freeze" "account"; Lit "deactivate"] 0.8
      "Account blocking threat - common scare tactic";
    mkIndicator "time_pressure"
      [spaced (Plus Digit) "hour"; spaced (Plus Digit) "hr";
       spaced (Lit "24") "hour"; spaced (Lit "48") "hour";
       Lit "today"; Lit "midnight"] 0.75
      "Artificial time pressure - real banks give adequate time" ].

(** The pattern of the credential check: one of four words. *)
Definition credentials : regex :=
  Alt (Lit "otp") (Alt (Lit "pin") (Alt (Lit "password") (Lit "cvv"))).

(** One entry of [detected]. *)
Record Detected : Type := mkDetected {
  d_indicator : string;
  d_risk : float;
  d_explanation : string
}.

(** The loop state: [detected], [max_risk], [evidence]. *)
Definition scan_state : Type := (list Detected * float * list string)%type.

(** One iteration of the outer loop: the inner loop stops at the first
    pattern that matches. *)
Definition scan_step (message_lower : string) (st : scan_state)
  (ind : Indicator) : scan_state :=
  let '(detected, max_risk, evidence) := st in
  if existsb (fun pattern => search pattern message_lower) (i_patterns ind)
  then ((detected
         ++ [mkDetected (i_name ind) (i_risk ind) (i_explanation ind)])%list,
        py_max max_risk (i_risk ind),
        (evidence ++ [i_explanation ind])%list)
  else st.

Definition scan_indicators (message_lower : string) : scan_state :=
  fold_left (scan_step message_lower) PHISHING_INDICATORS ([], 0.0, []).

(** The check for OTP/PIN requests. *)
Definition credential_check (message_lower : string) (st : scan_state)
  : scan_state :=
  let '(detected, max_risk, evidence) := st in
  if search credentials message_lower
  then (detected, py_max max_risk 0.95,
        (evidence ++ ["Request for sensitive credentials (OTP/PIN/CVV)"])%list)
  else st.

Definition level_of (max_risk : float) : ThreatLevel :=
  if ge max_risk 0.9 then CRITICAL
  else if ge max_risk 0.7 then HIGH
  else if ge max_risk 0.4 then MEDIUM
  else SAFE.

(** The [ToolResult]; the explanation texts are not modelled. *)
Record ToolResult : Type := mkToolResult {
  tr_risk_score : float;
  tr_indicators : list Detected;
  tr_evidence : list string;
  tr_is_phishing : bool;
  tr_risk_level : ThreatLevel;
  tr_confidence : float
}.

Definition analyze (message : string) : ToolResult :=
  let message_lower := lower message in
  let '(detected, max_risk, evidence) :=
    credential_check message_lower (scan_indicators message_lower) in
  {| tr_risk_score := max_risk;
     tr_indicators := detected;
     tr_evidence := evidence;
     tr_is_phishing := ge max_risk 0.7;
     tr_risk_level := level_of max_risk;
     tr_confidence := match detected with [] => 0.7 | _ :: _ => 0.9 end |}.

End KYCPhishingDetector.

Module PoliceImpersonationDetector.
Import PyStr PyFloat Re.
Local Open Scope float_scope.

Definition AUTHORITY_KEYWORDS : list string :=
  ["police"; "cbi"; "ed"; "enforcement"; "crime branch"; "cyber cell";
   "income tax"; "customs"; "narcotics"; "interpol"; "fir"; "warrant";
   "arrest"; "jail"; "court"; "legal action"; "investigation"].

Definition THREAT_PATTERNS : list string :=
  ["arrest"; "custody"; "jail"; "prison"; "warrant"; "case against";
   "money laundering"; "illegal"; "suspicious activity"; "linked to";
   "aadhaar"; "pan"; "bank account"].

(** The pattern of the money demand: one of eight alternatives, the fourth
    being "rs" with an optional dot. *)
Definition money_demand : regex :=
  Alt (Lit "pay")
    (Alt (Lit "transfer")
       (Alt (Lit "₹")
          (Alt (Cat (Lit "rs") (Opt (Chr ".")))
             (Alt (Lit "rupee")
                (Alt (Lit "fine") (Alt (Lit "penalty") (Lit "fee"))))))).

(** The pattern of the time pressure. *)
Definition time_pressure : regex :=
  Alt (Lit "immediate") (Alt (Lit "now") (Alt (Lit "today") (Lit "urgent"))).

(** [if matches: risk_score += w * min(len(matches), 3)]. *)
Definition add_capped (risk_score w : float) (matches : list string) : float :=
  match matches with
  | [] => risk_score
  | _ :: _ => risk_score + w * of_nat (Nat.min (length matches) 3)
  end.

(** The risk accumulated from the two lists of matches and the two
    patterns. *)
Definition risk_of (authority_matches threat_matches : list string)
  (money time : bool) : float :=
  let risk_score := 0.0 in
  let risk_score := add_capped risk_score 0.3 authority_matches in
  let risk_score := add_capped risk_score 0.25 threat_matches in
  let risk_score := if money then risk_score + 0.35 else risk_score in
  let risk_score := if time then risk_score + 0.15 else risk_score in
  py_min risk_score 1.0.

(** One line of [evidence]: a label and the first three matches. *)
Definition evidence_line (label : string) (matches : list string)
  : list string :=
  match matches with
  | [] => []
  | _ :: _ => [label ++ join ", " (firstn 3 matches)]
  end.

(** The lines of [evidence]. *)
Definition evidence_of (authority_matches threat_matches : list string)
  (money time : bool) : list string :=
  (evidence_line "Authority claims: " authority_matches
   ++ evidence_line "Threat language: " threat_matches
   ++ (if money then ["Monetary demand detected"] else [])
   ++ (if time then ["Immediate action demanded"] else []))%list.

Definition level_of (risk_score : float) : ThreatLevel :=
  if ge risk_score 0.8 then CRITICAL
  else if ge risk_score 0.5 then HIGH
  else LOW.

(** The [ToolResult]; the explanation texts are not modelled. *)
Record ToolResult : Type := mkToolResult {
  tr_risk_score : float;
  tr_authority_claims : list string;
  tr_threats : list string;
  tr_evidence : list string;
  tr_is_impersonation : bool;
  tr_risk_level : ThreatLevel;
  tr_confidence : float
}.

Definition analyze (message : string) : ToolResult :=
  let message_lower := lower message in
  let authority_matches := hits AUTHORITY_KEYWORDS message_lower in
  let threat_matches := hits THREAT_PATTERNS message_lower in
  let money := search money_demand message_lower in
  let time := search time_pressure message_lower in
  let risk_score := risk_of authority_matches threat_matches money time in
  {| tr_risk_score := risk_score;
     tr_authority_claims := authority_matches;
     tr_threats := threat_matches;
     tr_evidence := evidence_of authority_matches threat_matches money time;
     tr_is_impersonation := ge risk_score 0.7;
     tr_risk_level := level_of risk_score;
     tr_confidence := 0.88 |}.

End PoliceImpersonationDetector.

(* ================================================================== *)
(** ** agents/tools.py: the loan agreement decoder *)

Module LoanAgreementDecoder.
Import PyStr PyFloat Re.
Local Open Scope float_scope.

(** The three risk labels of the decoder, the strings "LOW", "MEDIUM" and
    "HIGH". *)
Inductive Risk : Type := R_LOW | R_MEDIUM | R_HIGH.

Definition Risk_eqb (a b : Risk) : bool :=
  match a, b with
  | R_LOW, R_LOW | R_MEDIUM, R_MEDIUM | R_HIGH, R_HIGH => true
  | _, _ => false
  end.

Record Term : Type := mkTerm {
  t_name : string;
  t_patterns : list regex;
  t_risk : Risk
}.

(** The parts, with anything but a newline between one and the next. *)
Fixpoint gaps (parts : list regex) : regex :=
  match parts with
  | [] => Eps
  | [r] => r
  | r :: rest => Cat r (Cat (Star Dot) (gaps rest))
  end.

(** One or more digits and a percent sign. *)
Definition percentage : regex := Cat (Plus Digit) (Chr "%").

(** [DANGER_TERMS], in insertion order (the explanation texts are not
    modelled). *)
Definition DANGER_TERMS : list Term :=
  [ mkTerm "floating_rate"
      [Lit "floating"; Then "variable" "rate";
       gaps [Lit "linked"; Lit "to"; Lit "repo"];
       gaps [Lit "subject"; Lit "to"; Lit "change"]] R_MEDIUM;
    mkTerm "foreclosure_penalty"
      [Then "foreclosure" "charge"; Then "prepayment" "penalty";
       gaps [Lit "early"; Lit "closure"; Lit "fee"];
       gaps [percentage; Lit "prepay"]] R_HIGH;
    mkTerm "processing_fee"
      [gaps [Lit "processing"; Lit "fee"; percentage];
       Then "processing" "charge"] R_MEDIUM;
    mkTerm "hidden_insurance"
      [Then "mandatory" "insurance"; Then "credit" "protect";
       Then "loan" "cover"; Then "insurance" "premium"] R_HIGH;
    mkTerm "penal_interest"
      [Then "penal" "interest"; Then "default" "charge";
       gaps [Lit "late"; Lit "payment"; percentage];
       Then "penalty" "rate"] R_HIGH;
    mkTerm "arbitration_clause"
      [Lit "arbitration"; Then "dispute" "resolution"; Then "no" "court"]
      R_MEDIUM ].

(** One entry of [found_terms]: the term and its risk.  The term keeps the
    key of the table; the program shows it with spaces and capitals. *)
Record Found : Type := mkFound {
  f_term : string;
  f_risk : Risk
}.

(** [total_risks]: the three counters. *)
Record Summary : Type := mkSummary {
  n_high : nat;
  n_medium : nat;
  n_low : nat
}.

(** [total_risks[risk] += 1]. *)
Definition bump (risk : Risk) (s : Summary) : Summary :=
  match risk with
  | R_HIGH => mkSummary (n_high s + 1) (n_medium s) (n_low s)
  | R_MEDIUM => mkSummary (n_high s) (n_medium s + 1) (n_low s)
  | R_LOW => mkSummary (n_high s) (n_medium s) (n_low s + 1)
  end.

(** The update of [max_risk] for a found term. *)
Definition update_max (risk max_risk : Risk) : Risk :=
  if Risk_eqb risk R_HIGH then R_HIGH
  else if Risk_eqb risk R_MEDIUM && negb (Risk_eqb max_risk R_HIGH)
       then R_MEDIUM
       else max_risk.

(** The loop state: [found_terms], [max_risk], [total_risks]. *)
Definition scan_state : Type := (list Found * Risk * Summary)%type.

(** One iteration of the outer loop: the inner loop stops at the first
    pattern that matches. *)
Definition scan_step (text_lower : string) (st : scan_state) (term : Term)
  : scan_state :=
  let '(found_terms, max_risk, total_risks) := st in
  if existsb (fun pattern => search pattern text_lower) (t_patterns term)
  then ((found_terms ++ [mkFound (t_name term) (t_risk term)])%list,
        update_max (t_risk term) max_risk,
        bump (t_risk term) total_risks)
  else st.

Definition scan_terms (text_lower : string) : scan_state :=
  fold_left (scan_step text_lower) DANGER_TERMS ([], R_LOW, mkSummary 0 0 0).

(** What the interest-rate pattern asks for after its first group: any
    white space, a percent sign, any white space, and one of "p.a." (either
    dot optional), "per annum" (any white space between), "annual". *)
Definition rate_rest : regex :=
  Cat (Star Space)
    (Cat (Chr "%")
       (Cat (Star Space)
          (Alt (Cat (Chr "p")
                  (Cat (Opt (Chr ".")) (Cat (Chr "a") (Opt (Chr ".")))))
             (Alt (Cat (Lit "per") (Cat (Star Space) (Lit "annum")))
                (Lit "annual"))))).

(** Group 1 of the interest-rate pattern matched at the start of [s]: one
    or more digits, an optional dot, any digits.  The group is a maximal run
    of digits, then greedily a dot and a second maximal run; when the rest
    of the pattern does not follow, the dot is given back.  A shorter run of
    digits is followed by a digit, where the rest of the pattern cannot
    start, so no other backtracking point can succeed. *)
Definition rate_group_at (s : string) : option string :=
  let (d1, r1) := span is_digit s in
  match d1 with
  | EmptyString => None
  | _ =>
      let dotted :=
        match r1 with
        | String c r2 =>
            if Ascii.eqb c "."
            then let (d2, r3) := span is_digit r2 in
                 if match_prefix rate_rest r3
                 then Some (d1 ++ "." ++ d2) else None
            else None
        | EmptyString => None
        end in
      match dotted with
      | Some g => Some g
      | None => if match_prefix rate_rest r1 then Some d1 else None
      end
  end.

(** [re.search(pattern, s).group(1)] for the interest-rate pattern: the
    group of the leftmost match, [None] when nothing matches. *)
Fixpoint rate_group (s : string) : option string :=
  match rate_group_at s with
  | Some g => Some g
  | None =>
      match s with
      | EmptyString => None
      | String _ t => rate_group t
      end
  end.

(** The [ToolResult]; the explanation texts are not modelled. *)
Record ToolResult : Type := mkToolResult {
  tr_found_terms : list Found;
  tr_risk_summary : Summary;
  tr_interest_rate : option float;
  tr_max_risk : Risk;
  tr_risk_level : ThreatLevel;
  tr_confidence : float
}.

Definition level_of (max_risk : Risk) : ThreatLevel :=
  if Risk_eqb max_risk R_HIGH then HIGH
  else if Risk_eqb max_risk R_MEDIUM then MEDIUM
  else LOW.

Section Analyze.

(** The builtin [float] on the text of a decimal numeral. *)
Variable py_float : string -> float.

(** [interest_rate]: the rate found in the text, if any. *)
Definition interest_rate (text_lower : string) : option float :=
  option_map py_float (rate_group text_lower).

(** [interest_rate and interest_rate > 15]. *)
Definition high_rate (rate : option float) : bool :=
  match rate with
  | Some r => negb (r =? 0) && gt r 15
  | None => false
  end.

Definition analyze (document_text : string) : ToolResult :=
  let text_lower := lower document_text in
  let '(found_terms, max_risk, total_risks) := scan_terms text_lower in
  let interest_rate := interest_rate text_lower in
  let '(found_terms, max_risk) :=
    if high_rate interest_rate
    then ((found_terms ++ [mkFound "High Interest Rate" R_HIGH])%list, R_HIGH)
    else (found_terms, max_risk) in
  {| tr_found_terms := found_terms;
     tr_risk_summary := total_risks;
     tr_interest_rate := interest_rate;
     tr_max_risk := max_risk;
     tr_risk_level := level_of max_risk;
     tr_confidence := 0.75 |}.

End Analyze.

End LoanAgreementDecoder.

(* ================================================================== *)
(** ** agents/specialists/__init__.py: the specialists as agents *)

Module SpecialistAgent.
Import Py AdkCore.

(** [UPIFraudAgent.tools]; the other specialists keep the empty default. *)
Definition upi_tools : list string := ["upi_pattern_matcher"; "risk_calculator"].

(** A specialist, as a subclass of [BaseAgent]: it registers no sub-agent,
    may override [tools], and overrides [_generate_response] with its own
    analysis of the task; every other method is the base class's. *)
Definition specialist_agent (reg : Registry) (agent_id : string)
  (tools : list string) (analysis : Task -> outcome value) : Agent :=
  {| agent_id := agent_id;
     _plan := BaseAgent_plan reg [] tools never_delegate always_matches;
     _delegate := BaseAgent_delegate [];
     _use_tools := BaseAgent_use_tools reg;
     _generate_response := analysis;
     _verify := BaseAgent_verify;
     _calculate_confidence := BaseAgent_calculate_confidence |}.

End SpecialistAgent.

(* ================================================================== *)
(** * The vocabulary of the properties

    The predicates and tables the statements below are written with: the
    tables of the specification in its own words, what it means to be a
    maximum or a first position, the invariant of the trajectory loop, the
    contribution of one pattern to a scan, and the sample inputs. *)

Import PyStr PyFloat Py AdkCore FinancialBodyguard.

(** ** Aggregation *)

(** [m] is the maximum of the risk scores of [results]: one of them, and
    not below any of them. *)
Definition is_maximum (m : float) (results : list Finding) : Prop :=
  (exists r, In r results /\ m = get_risk r)
  /\ (forall r, In r results -> (get_risk r <=? m)%float = true).

(** [a] is the agent id of the first finding of [results], in list order,
    whose risk score equals [m]: every finding before it is strictly below. *)
Definition first_attaining (m : float) (results : list Finding) (a : string)
  : Prop :=
  exists i r,
    nth_error results i = Some r
    /\ (get_risk r =? m)%float = true
    /\ (forall j r', (j < i)%nat -> nth_error results j = Some r' ->
                     (get_risk r' <? m)%float = true)
    /\ a = get_agent r.

(** Three findings in routing order; the last two tie at the maximum. *)
Definition sample_findings : list Finding :=
  [ mkFinding (Some "upi_fraud_agent") (Some 0.4%float) (Some MEDIUM) [] None;
    mkFinding (Some "phishing_agent") (Some 0.9%float) (Some CRITICAL) [] None;
    mkFinding (Some "impersonation_agent") (Some 0.9%float) (Some CRITICAL) []
      None ].

(** The band table in the words of the specification: at least 0.9 is
    CRITICAL, at least 0.7 HIGH, at least 0.4 MEDIUM, above 0.1 LOW, and
    SAFE otherwise. *)
Definition orchestrator_band (score : float) : ThreatLevel :=
  if (0.9 <=? score)%float then CRITICAL
  else if (0.7 <=? score)%float then HIGH
  else if (0.4 <=? score)%float then MEDIUM
  else if (0.1 <? score)%float then LOW
  else SAFE.

(** ** Trajectory matching *)

(** What the loop has established after the trajectories [seen]: nothing
    matched so far, or the best match is the first trajectory with the
    highest count. *)
Definition best_so_far (content_lower : string) (seen : list Trajectory)
  (st : option Trajectory * nat) : Prop :=
  let count := red_flag_matches content_lower in
  match fst st with
  | None => snd st = 0 /\ forall t, In t seen -> count t = 0
  | Some t =>
      snd st = count t /\ 0 < count t
      /\ exists i,
           nth_error seen i = Some t
           /\ (forall t', In t' seen -> count t' <= count t)
           /\ (forall j t', j < i -> nth_error seen j = Some t' ->
                            count t' < count t)
  end.

(** A library whose second and third entries both have two red flags in the
    text, and whose first has exactly one. *)
Definition sample_trajectories : list Trajectory :=
  [ mkTrajectory "T1" (Some "Lottery") (Some ["lottery"; "kyc"]) None;
    mkTrajectory "T2" (Some "Digital arrest") (Some ["CBI"; "Warrant"; "parcel"])
      (Some "सावधान");
    mkTrajectory "T3" (Some "Fine") (Some ["warrant"; "fine"]) None ].

(** *** Overlap, in the words of the specification

    The specification counts the red-flag phrases of a trajectory that
    occur in the content as substrings, letter case ignored.  The
    definitions below say this without the case mapping of the program:
    two characters agree when they are the same letter in either case. *)

(** The code of the capital letter of a small ASCII letter, the code itself
    otherwise. *)
Definition capital_code (n : nat) : nat :=
  if (97 <=? n)%nat && (n <=? 122)%nat then n - 32 else n.

(** The same character, or the same ASCII letter in two cases. *)
Definition same_letter (a b : ascii) : bool :=
  (capital_code (nat_of_ascii a) =? capital_code (nat_of_ascii b))%nat.

(** The two texts are equal, letter case ignored. *)
Fixpoint same_text (a b : string) : bool :=
  match a, b with
  | EmptyString, EmptyString => true
  | String x a', String y b' => same_letter x y && same_text a' b'
  | _, _ => false
  end.

(** The phrase stands at the start of the text, letter case ignored. *)
Fixpoint ci_prefix (phrase text : string) : bool :=
  match phrase, text with
  | EmptyString, _ => true
  | String _ _, EmptyString => false
  | String x p', String y t' => same_letter x y && ci_prefix p' t'
  end.

(** The phrase occurs in the text, letter case ignored. *)
Fixpoint ci_occurs (phrase text : string) : bool :=
  ci_prefix phrase text
  || match text with
     | EmptyString => false
     | String _ t' => ci_occurs phrase t'
     end.

(** The same, as a statement: a part of the text equals the phrase, letter
    case ignored. *)
Definition occurs_ignoring_case (phrase text : string) : Prop :=
  exists before part after,
    text = before ++ part ++ after /\ same_text part phrase = true.

(** The listed red flags of a trajectory. *)
Definition listed_flags (t : Trajectory) : list string :=
  match t_red_flags t with Some l => l | None => [] end.

(** The entries of the list of red flags that occur in the content, letter
    case ignored: a phrase that is listed twice is counted twice. *)
Definition listed_overlap (content : string) (t : Trajectory) : nat :=
  length (filter (fun rf => ci_occurs rf content) (listed_flags t)).

(** The phrases without the later copies of a phrase, letter case
    ignored. *)
Fixpoint distinct_phrases (phrases : list string) : list string :=
  match phrases with
  | [] => []
  | p :: rest =>
      p :: filter (fun q => negb (same_text q p)) (distinct_phrases rest)
  end.

(** The red-flag phrases that overlap with the content: the distinct
    phrases of the trajectory that occur in it, letter case ignored. *)
Definition overlapping_phrases (content : string) (t : Trajectory)
  : list string :=
  filter (fun rf => ci_occurs rf content) (distinct_phrases (listed_flags t)).

(** Every red flag of the library is ASCII text. *)
Definition ascii_library (trajectories : list Trajectory) : bool :=
  forallb (fun t => forallb is_ascii (listed_flags t)) trajectories.

(** A trajectory that lists one phrase twice, in two cases. *)
Definition otp_twice : Trajectory :=
  mkTrajectory "T9" (Some "OTP theft") (Some ["otp"; "OTP"]) None.

(** ** Pattern scans *)

(** The per-pattern score in the words of the specification: the base
    weight times [min(1, 0.5 + 0.25 * keyword_hits + 0.25 * indicator_hits)]. *)
Definition claimed_pattern_score (base_weight : float)
  (keyword_hits indicator_hits : nat) : float :=
  (base_weight
   * py_min 1 (0.5 + 0.25 * of_nat keyword_hits
                   + 0.25 * of_nat indicator_hits))%float.

(** [total] is the maximum of [scores], scores of the unit interval: no
    score is above it, it is the score of some entry when there is one, and
    [0.0] when there is none. *)
Definition is_max_score (scores : list float) (total : float) : Prop :=
  (forall s, In s scores -> (s <=? total)%float = true)
  /\ (scores = [] -> total = 0%float)
  /\ (scores <> [] -> exists s, In s scores /\ (total =? s)%float = true).

(** What a pattern of the tool adds to [detected_patterns]. *)
Definition tool_entry (message_lower : string) (p : UPIScamDetector.Pattern)
  : list (string * float) :=
  let k := count_hits (UPIScamDetector.keywords p) message_lower in
  let i := count_hits (UPIScamDetector.indicators p) message_lower in
  if (0 <? k)%nat && (0 <? i)%nat
  then [(UPIScamDetector.p_name p,
         UPIScamDetector.pattern_score (UPIScamDetector.risk p) k i)]
  else [].

(** What a pattern of the specialist adds to [detected_patterns] and to
    [red_flags]. *)
Definition agent_entry (content_lower : string) (p : UPIFraudAgent.Pattern)
  : list UPIFraudAgent.Detected :=
  let k := count_hits (UPIFraudAgent.keywords p) content_lower in
  let i := count_hits (UPIFraudAgent.indicators p) content_lower in
  if (0 <? k)%nat && (0 <? i)%nat
  then [UPIFraudAgent.mkDetected (UPIFraudAgent.p_name p)
          (UPIFraudAgent.pattern_score (UPIFraudAgent.risk p) k i) k i]
  else [].

Definition agent_flags (content_lower : string) (p : UPIFraudAgent.Pattern)
  : list string :=
  let k := count_hits (UPIFraudAgent.keywords p) content_lower in
  let i := count_hits (UPIFraudAgent.indicators p) content_lower in
  if (0 <? k)%nat && (0 <? i)%nat
  then (hits (UPIFraudAgent.keywords p) content_lower
        ++ hits (UPIFraudAgent.indicators p) content_lower)%list
  else [].

(** Every score a pattern of the specialist can have, for all possible
    numbers of hits. *)
Definition agent_scores : list float :=
  flat_map
    (fun p =>
       flat_map
         (fun k =>
            map (fun i => UPIFraudAgent.pattern_score (UPIFraudAgent.risk p) k i)
              (seq 0 (S (length (UPIFraudAgent.indicators p)))))
         (seq 0 (S (length (UPIFraudAgent.keywords p)))))
    UPIFraudAgent.patterns.

(** ** Capped hit counts *)

(** [min(len(hits), 3)]. *)
Definition cap (l : list string) : nat := Nat.min (length l) 3.

(** [risk_score += w * n] when there is a hit. *)
Definition add_n (risk_score w : float) (n : nat) : float :=
  match n with
  | O => risk_score
  | S _ => (risk_score + w * of_nat n)%float
  end.

(** The impersonation risk as a function of the capped counts. *)
Definition impersonation_risk_n (na nt : nat) (money video : bool) : float :=
  let r := add_n (add_n 0 0.3 na) 0.25 nt in
  let r := if money then (r + 0.35)%float else r in
  let r := if video then (r + 0.25)%float else r in
  py_min r 1.

(** The investment risk as a function of the capped counts. *)
Definition investment_risk_n (ns nr : nat) (return_match : bool) : float :=
  let r := add_n (add_n 0 0.4 ns) 0.3 nr in
  let r := if return_match then py_max r 0.95 else r in
  py_min r 1.

(** ** Detector bands *)

(** The detector-local band table in the words of the specification: at
    least 0.9 CRITICAL, at least 0.7 HIGH, at least 0.4 MEDIUM, above 0 LOW,
    SAFE otherwise. *)
Definition claimed_detector_band (risk : float) : ThreatLevel :=
  if (0.9 <=? risk)%float then CRITICAL
  else if (0.7 <=? risk)%float then HIGH
  else if (0.4 <=? risk)%float then MEDIUM
  else if (0 <? risk)%float then LOW
  else SAFE.

(** ** The execution boundary *)

(** An exception [e] leaves one of the steps of [execute]: the plan, the
    step the plan chose (delegate, tool use or direct response), the
    verification, or the confidence score. *)
Inductive escapes (a : Agent) (task : Task) (e : exn) : Prop :=
| escapes_plan :
    _plan a task = Raise e -> escapes a task e
| escapes_delegate plan sub :
    _plan a task = Ok plan ->
    truthy_str (delegate_to plan) = Some sub ->
    _delegate a task sub = Raise e -> escapes a task e
| escapes_tools plan names :
    _plan a task = Ok plan ->
    truthy_str (delegate_to plan) = None ->
    truthy_list (use_tools plan) = Some names ->
    _use_tools a task names = Raise e -> escapes a task e
| escapes_response plan :
    _plan a task = Ok plan ->
    truthy_str (delegate_to plan) = None ->
    truthy_list (use_tools plan) = None ->
    _generate_response a task = Raise e -> escapes a task e
| escapes_verify plan r :
    _plan a task = Ok plan ->
    run_plan a task plan = Ok r ->
    _verify a task r = Raise e -> escapes a task e
| escapes_confidence plan r v :
    _plan a task = Ok plan ->
    run_plan a task plan = Ok r ->
    _verify a task r = Ok v ->
    _calculate_confidence a v = Raise e -> escapes a task e.

(** A tool that raises, registered under the name the agent uses. *)
Definition crashing_registry : Registry :=
  [ ("risk_calculator",
     mkTool "risk_calculator"
       (fun _ => Raise (Exception "RuntimeError" "calculator crashed"))) ].

Definition tool_agent : Agent :=
  BaseAgent crashing_registry "worker" "Worker" [] ["risk_calculator"] None.

(** An agent whose generative-language service is unreachable. *)
Definition offline_agent : Agent :=
  BaseAgent [] "talker" "Talker" [] []
    (Some (fun _ => Raise (Exception "ConnectionError" "service unreachable"))).

(** A specialist whose overridden response step raises. *)
Definition raising_agent : Agent :=
  {| agent_id := "specialist";
     _plan := BaseAgent_plan [] [] [] never_delegate always_matches;
     _delegate := BaseAgent_delegate [];
     _use_tools := BaseAgent_use_tools [];
     _generate_response :=
       fun _ => Raise (Exception "KeyError" "'risk_score'");
     _verify := BaseAgent_verify;
     _calculate_confidence := BaseAgent_calculate_confidence |}.

Definition sample_task : Task := mkTask "t1" "fraud_detection" "hello" None.

(** The first exception outside the [Exception] hierarchy that a tool of
    the list raises, if there is one. *)
Fixpoint first_escape (reg : Registry) (task : Task) (tool_names : list string)
  : option exn :=
  match tool_names with
  | [] => None
  | tool_name :: rest =>
      match ToolRegistry_execute reg tool_name (content task) with
      | Raise e =>
          if is_exception e then first_escape reg task rest else Some e
      | Ok _ => first_escape reg task rest
      end
  end.

(** A tool that is interrupted, registered under the name the agent uses. *)
Definition interrupted_registry : Registry :=
  [ ("risk_calculator",
     mkTool "risk_calculator"
       (fun _ => Raise (BaseException "KeyboardInterrupt" EmptyString))) ].

Definition interrupted_agent : Agent :=
  BaseAgent interrupted_registry "worker" "Worker" [] ["risk_calculator"] None.

(** ** Further vocabulary: routing, tiers, statistics *)

(** The keys of [self.specialists], in the order the routing tests them. *)
Definition specialist_keys : list string :=
  ["upi"; "phishing"; "impersonation"; "document"; "investment"].

(** [l1] is [l2] with some elements left out. *)
Fixpoint subsequence (l1 l2 : list string) : bool :=
  match l1, l2 with
  | [], _ => true
  | _ :: _, [] => false
  | x :: t1, y :: t2 =>
      if String.eqb x y then subsequence t1 t2 else subsequence l1 t2
  end.

(** The agent ids of the five specialists. *)
Definition specialist_agent_ids : list string :=
  [ UPIFraudAgent.agent_id; PhishingAgent.agent_id;
    ImpersonationAgent.agent_id; DocumentAnalystAgent.agent_id;
    InvestmentFraudAgent.agent_id ].

(** The position of a tier in SAFE < LOW < MEDIUM < HIGH < CRITICAL. *)
Definition tier_rank (t : ThreatLevel) : nat :=
  match t with
  | SAFE => 0
  | LOW => 1
  | MEDIUM => 2
  | HIGH => 3
  | CRITICAL => 4
  end.

(** The counters are nested: every critical block is a detected threat, and
    every detected threat is an analysis. *)
Definition stats_nested (s : Stats) : Prop :=
  critical_blocks s <= threats_detected s
  /\ threats_detected s <= total_analyses s.

(** The upper-case form of a text: [s.upper()] on ASCII. *)
Definition upper_ascii (c : ascii) : ascii :=
  let n := nat_of_ascii c in
  if (97 <=? n)%nat && (n <=? 122)%nat then ascii_of_nat (n - 32) else c.

Fixpoint upper (s : string) : string :=
  match s with
  | EmptyString => EmptyString
  | String c t => String (upper_ascii c) (upper t)
  end.

(** The trigger words that send a content to the specialist under [key]. *)
Definition triggers (key : string) : list string :=
  if String.eqb key "upi" then upi_triggers
  else if String.eqb key "phishing" then phishing_triggers
  else if String.eqb key "impersonation" then impersonation_triggers
  else if String.eqb key "document" then document_triggers
  else if String.eqb key "investment" then investment_triggers
  else [].

(** The agents consulted when no trigger word occurs. *)
Definition default_agents : list string := ["upi"; "phishing"; "impersonation"].

(** A list of findings whose risk scores are numbers. *)
Definition scores_are_numbers (results : list Finding) : Prop :=
  forall r, In r results -> is_nan (get_risk r) = false.

(** Findings with the scores 0.4, 0.95 and 0.2, and two of them again in
    another order. *)
Definition sample_mixed : list Finding :=
  [ mkFinding (Some "upi_fraud_agent") (Some 0.4%float) (Some MEDIUM) [] None;
    mkFinding (Some "phishing_agent") (Some 0.95%float) (Some CRITICAL) []
      (Some true);
    mkFinding (Some "document_agent") (Some 0.2%float) None [] None ].

Definition sample_part : list Finding :=
  [ mkFinding (Some "document_agent") (Some 0.2%float) None [] None;
    mkFinding (Some "upi_fraud_agent") (Some 0.4%float) (Some MEDIUM) [] None ].

Definition sample_shuffled : list Finding :=
  [ mkFinding (Some "document_agent") (Some 0.2%float) None [] None;
    mkFinding (Some "phishing_agent") (Some 0.95%float) (Some CRITICAL) []
      (Some true);
    mkFinding (Some "upi_fraud_agent") (Some 0.4%float) (Some MEDIUM) [] None;
    mkFinding (Some "document_agent") (Some 0.2%float) None [] None ].

(** ** Further vocabulary: the specialists *)

(** Every score a matched pattern of the UPI specialist can have: at least
    one keyword hit and one indicator hit. *)
Definition agent_matched_scores : list float :=
  flat_map
    (fun p =>
       flat_map
         (fun k =>
            map (fun i => UPIFraudAgent.pattern_score (UPIFraudAgent.risk p) k i)
              (seq 1 (length (UPIFraudAgent.indicators p))))
         (seq 1 (length (UPIFraudAgent.keywords p))))
    UPIFraudAgent.patterns.

(** A pattern of the UPI specialist is matched by a lower-case text. *)
Definition upi_matched (content_lower : string) (p : UPIFraudAgent.Pattern)
  : Prop :=
  (0 < count_hits (UPIFraudAgent.keywords p) content_lower)%nat
  /\ (0 < count_hits (UPIFraudAgent.indicators p) content_lower)%nat.

(** HIGH or CRITICAL. *)
Definition at_least_high (t : option ThreatLevel) : Prop :=
  t = Some HIGH \/ t = Some CRITICAL.

(** What the phishing loop has established: nothing detected and no risk,
    or something detected and the risk of an indicator. *)
Definition phishing_scan_inv (st : list string * float) : Prop :=
  (fst st = [] /\ snd st = 0%float)
  \/ (fst st <> []
      /\ In (snd st)
           (map PhishingAgent.i_risk PhishingAgent.phishing_indicators)).

(** ** Further vocabulary: the agent core *)

(** What [_use_tools] stores for a tool: its result, or the error marker of
    the exception it raised. *)
Definition tool_outcome (o : outcome value) : value :=
  match o with
  | Ok r => r
  | Raise e => VDict [("error", VStr (exn_msg e))]
  end.

(** The name is registered. *)
Definition registered (reg : Registry) (name : string) : bool :=
  match ToolRegistry_get reg name with Some _ => true | None => false end.

(** A registry with a tool that answers and a tool that raises. *)
Definition mixed_registry : Registry :=
  AdkRegistry.ToolRegistry_register
    (AdkRegistry.ToolRegistry_register [] "upi_pattern_matcher"
       (fun c => Ok (VDict [("matched", VStr c)])))
    "risk_calculator"
    (fun _ => Raise (Exception "RuntimeError" "calculator crashed")).

(** The last element of a list. *)
Definition last_result (results : list TaskResult) : option TaskResult :=
  nth_error results (Nat.pred (length results)).

(** Every confidence is one the base class assigns: 0.0 or 0.8. *)
Definition base_confidences (results : list TaskResult) : Prop :=
  forall r, In r results ->
            confidence r = 0%float \/ confidence r = 0.8%float.

(** Three results; the second and the third carry an error marker. *)
Definition sample_results : list TaskResult :=
  [ mkTaskResult "t_a" "a" COMPLETED (VDict [("response", VStr "fine")])
      0.8 "Generating direct response" 0.1;
    mkTaskResult "t_b" "b" COMPLETED (VDict [("error", VStr "Agent x not found")])
      0 "Delegating" 0.2;
    mkTaskResult "t_c" "c" FAILED (VDict [("error", VStr "boom")])
      0 "Execution failed: boom" 0.3 ].

(** ** Further vocabulary: the orchestrator of agents *)

(** The orchestrator holds an agent under this id. *)
Definition known (agents : list (string * MultiAgentOrchestrator.Member))
  (agent_id : string) : bool :=
  match MultiAgentOrchestrator.agents_get agents agent_id with
  | Some _ => true
  | None => false
  end.

(** What the context hands over from the agent before. *)
Definition previous_result (c : MultiAgentOrchestrator.AgentContext)
  : option value :=
  dict_get "previous_result" (MultiAgentOrchestrator.metadata c).

(** The first result the base class gave no confidence, if there is one. *)
Definition first_without_confidence (results : list TaskResult)
  : option TaskResult :=
  find (fun r => (confidence r =? 0)%float) results.

(** The loop of [_use_tools], from the dict built so far. *)
Definition use_tools_loop (reg : Registry) (task : Task)
  (names : list string) (results : list (string * value))
  : list (string * value) :=
  fold_left
    (fun results tool_name =>
       match ToolRegistry_execute reg tool_name (content task) with
       | Ok r => dict_set tool_name r results
       | Raise e =>
           dict_set tool_name (VDict [("error", VStr (exn_msg e))]) results
       end)
    names results.

(** What every specialist's finding carries: the id of one of the five
    agents and a risk score of the unit interval. *)
Definition finding_ok (f : Finding) : Prop :=
  (exists a, agent f = Some a /\ In a specialist_agent_ids)
  /\ exists r, risk_score f = Some r /\ in_unit r.

(** A plain left-to-right sum, one of the roundings [sum] may use. *)
Definition plain_sum (xs : list float) : float :=
  fold_left PrimFloat.add xs 0%float.

(** ** Further vocabulary: the tools *)

(** Every score a matched pattern of the [UPIScamDetector] tool can have: at
    least one keyword hit and one indicator hit. *)
Definition tool_matched_scores : list float :=
  flat_map
    (fun p =>
       flat_map
         (fun k =>
            map (fun i =>
                   UPIScamDetector.pattern_score (UPIScamDetector.risk p) k i)
              (seq 1 (length (UPIScamDetector.indicators p))))
         (seq 1 (length (UPIScamDetector.keywords p))))
    UPIScamDetector.SCAM_PATTERNS.

(** [amount and amount in self.ODD_AMOUNTS]. *)
Definition odd_amount (amount : option float) : bool :=
  match amount with
  | Some a =>
      negb (a =? 0)%float
      && existsb (fun o => (a =? o)%float) UPIScamDetector.ODD_AMOUNTS
  | None => false
  end.

(** The two amplifiers of the tool, by the number of urgency words and
    whether the amount is an odd one. *)
Definition tool_amplify (total_risk : float) (urgency_count : nat)
  (odd : bool) : float :=
  let total_risk := UPIScamDetector.amplify_urgency total_risk urgency_count in
  if odd then py_min (total_risk + 0.15)%float 1.0%float else total_risk.

(** What the loop of the KYC tool has established: nothing detected and no
    risk, or something detected and the risk of an indicator. *)
Definition kyc_scan_inv (st : KYCPhishingDetector.scan_state) : Prop :=
  let '(detected, max_risk, _) := st in
  (detected = [] /\ max_risk = 0%float)
  \/ (detected <> []
      /\ In max_risk
           (map KYCPhishingDetector.i_risk
              KYCPhishingDetector.PHISHING_INDICATORS)).

(** The risks the KYC tool can report. *)
Definition kyc_risks : list float :=
  (0 :: map KYCPhishingDetector.i_risk KYCPhishingDetector.PHISHING_INDICATORS
   ++ 0.95 :: map (fun ind => py_max (KYCPhishingDetector.i_risk ind) 0.95)
                KYCPhishingDetector.PHISHING_INDICATORS)%float%list.

(** The risk of the police tool as a function of the capped counts. *)
Definition police_risk_n (na nt : nat) (money time : bool) : float :=
  let r := add_n (add_n 0 0.3 na) 0.25 nt in
  let r := if money then (r + 0.35)%float else r in
  let r := if time then (r + 0.15)%float else r in
  py_min r 1.0.

(** ** Further vocabulary: the loan decoder *)

(** A listed term carries the risk. *)
Definition has_risk (risk : LoanAgreementDecoder.Risk)
  (found : list LoanAgreementDecoder.Found) : bool :=
  existsb
    (fun f => LoanAgreementDecoder.Risk_eqb (LoanAgreementDecoder.f_risk f) risk)
    found.

(** The number of listed terms that carry the risk. *)
Definition count_risk (risk : LoanAgreementDecoder.Risk)
  (found : list LoanAgreementDecoder.Found) : nat :=
  length
    (filter
       (fun f =>
          LoanAgreementDecoder.Risk_eqb (LoanAgreementDecoder.f_risk f) risk)
       found).

(** The highest risk among the listed terms, LOW for none. *)
Definition listed_max (found : list LoanAgreementDecoder.Found)
  : LoanAgreementDecoder.Risk :=
  if has_risk LoanAgreementDecoder.R_HIGH found then LoanAgreementDecoder.R_HIGH
  else if has_risk LoanAgreementDecoder.R_MEDIUM found
       then LoanAgreementDecoder.R_MEDIUM
       else LoanAgreementDecoder.R_LOW.

(** What the loop of the loan decoder keeps: [max_risk] is the highest
    listed risk and the counters count the listed terms by risk. *)
Definition loan_scan_inv (st : LoanAgreementDecoder.scan_state) : Prop :=
  let '(found_terms, max_risk, total_risks) := st in
  max_risk = listed_max found_terms
  /\ LoanAgreementDecoder.n_high total_risks
     = count_risk LoanAgreementDecoder.R_HIGH found_terms
  /\ LoanAgreementDecoder.n_medium total_risks
     = count_risk LoanAgreementDecoder.R_MEDIUM found_terms
  /\ LoanAgreementDecoder.n_low total_risks = 0
  /\ count_risk LoanAgreementDecoder.R_LOW found_terms = 0.

(** ** Further vocabulary: a specialist run by the agent core *)

(** A registry that holds a tool under the first tool name of the UPI
    specialist. *)
Definition upi_tool_registry : Registry :=
  AdkRegistry.ToolRegistry_register [] "upi_pattern_matcher"
    (fun c => Ok (VDict [("matched", VStr c)])).

(** The analysis of a specialist, as a dict with its risk score. *)
Definition sample_analysis (task : Task) : outcome value :=
  Ok (VDict [("agent", VStr "upi_fraud_agent"); ("risk_score", VFloat 0.9)]).

(* ================================================================== *)
(** * Properties *)

(** ** Order facts on binary64 numbers

    The comparisons of primitive floats are specified by [SFcompare] on
    their decoded form; the facts below are what a total order on the
    numbers that are not NaN provides. *)

Module FloatFacts.
Import PyFloat.
Local Open Scope float_scope.

Lemma SFleb_trans (a b c : spec_float) :
  SFleb a b = true -> SFleb b c = true -> SFleb a c = true.
Proof.
  unfold SFleb, SFcompare.
  destruct a as [sa|sa| |sa ma ea], b as [sb|sb| |sb mb eb],
           c as [sc|sc| |sc mc ec];
    try discriminate; try reflexivity;
    repeat match goal with s : bool |- _ => destruct s end;
    try discriminate; try reflexivity; try (intros; assumption).
  all: fold (Pos.compare ma mb); fold (Pos.compare mb mc);
    fold (Pos.compare ma mc).
  all: destruct (Z.compare_spec ea eb), (Z.compare_spec eb ec),
         (Z.compare_spec ea ec);
    try lia; try discriminate; try reflexivity; subst.
  all: destruct (Pos.compare_spec ma mb), (Pos.compare_spec mb mc),
         (Pos.compare_spec ma mc);
    simpl; try lia; try discriminate; try reflexivity.
Qed.

Lemma SFcompare_antisym (a b : spec_float) :
  SFcompare b a = option_map CompOpp (SFcompare a b).
Proof.
  unfold SFcompare.
  destruct a as [sa|sa| |sa ma ea], b as [sb|sb| |sb mb eb];
    try reflexivity;
    repeat match goal with s : bool |- _ => destruct s end;
    try reflexivity; simpl.
  all: rewrite (Z.compare_antisym ea eb);
    destruct (Z.compare ea eb); simpl; try reflexivity.
  all: change (PosDef.Pos.compare_cont Eq mb ma) with (Pos.compare mb ma);
    change (PosDef.Pos.compare_cont Eq ma mb) with (Pos.compare ma mb);
    rewrite (Pos.compare_antisym ma mb);
    destruct (Pos.compare ma mb); reflexivity.
Qed.

Lemma is_nan_false_compare (x : float) :
  is_nan x = false -> SFcompare (Prim2SF x) (Prim2SF x) = Some Eq.
Proof.
  unfold is_nan. rewrite FloatAxioms.eqb_spec. unfold SFeqb.
  destruct (SFcompare (Prim2SF x) (Prim2SF x)) as [[ | | ]|]; simpl;
    intro H; try discriminate; reflexivity.
Qed.

Lemma not_nan_spec (x : float) :
  is_nan x = false -> Prim2SF x <> S754_nan.
Proof.
  intros H E. apply is_nan_false_compare in H. rewrite E in H. discriminate.
Qed.

Lemma compare_defined (x y : float) :
  is_nan x = false -> is_nan y = false ->
  exists c, SFcompare (Prim2SF x) (Prim2SF y) = Some c.
Proof.
  intros Hx Hy. apply not_nan_spec in Hx. apply not_nan_spec in Hy.
  destruct (Prim2SF x), (Prim2SF y); try congruence; simpl; eauto.
Qed.

Lemma SFcompare_refl (a : spec_float) :
  a <> S754_nan -> SFcompare a a = Some Eq.
Proof.
  destruct a as [s|s| |s m e]; simpl; try congruence; intros _;
    destruct s; try reflexivity;
    rewrite Z.compare_refl;
    change (PosDef.Pos.compare_cont Eq m m) with (Pos.compare m m);
    rewrite Pos.compare_refl; reflexivity.
Qed.

Lemma spec_not_nan (x : float) :
  Prim2SF x <> S754_nan -> is_nan x = false.
Proof.
  intro H. unfold is_nan. rewrite FloatAxioms.eqb_spec. unfold SFeqb.
  rewrite (SFcompare_refl _ H). reflexivity.
Qed.

Lemma leb_not_nan_l (x y : float) : (x <=? y) = true -> is_nan x = false.
Proof.
  rewrite FloatAxioms.leb_spec. intro H. apply spec_not_nan. intro E.
  rewrite E in H. discriminate.
Qed.

Lemma leb_not_nan_r (x y : float) : (x <=? y) = true -> is_nan y = false.
Proof.
  rewrite FloatAxioms.leb_spec. intro H. apply spec_not_nan. intro E.
  rewrite E in H. unfold SFleb in H.
  destruct (Prim2SF x); discriminate.
Qed.

Lemma leb_trans (x y z : float) :
  (x <=? y) = true -> (y <=? z) = true -> (x <=? z) = true.
Proof. rewrite !FloatAxioms.leb_spec. apply SFleb_trans. Qed.

Lemma leb_refl (x : float) : is_nan x = false -> (x <=? x) = true.
Proof.
  intro H. rewrite FloatAxioms.leb_spec. unfold SFleb.
  rewrite (is_nan_false_compare x H). reflexivity.
Qed.

Lemma eqb_refl (x : float) : is_nan x = false -> (x =? x) = true.
Proof. unfold is_nan. destruct (x =? x); simpl; congruence. Qed.

(** Totality: when [x < y] fails on two numbers, [y <= x]. *)
Lemma ltb_false_leb (x y : float) :
  is_nan x = false -> is_nan y = false ->
  (x <? y) = false -> (y <=? x) = true.
Proof.
  intros Hx Hy. rewrite FloatAxioms.ltb_spec, FloatAxioms.leb_spec. unfold SFltb, SFleb.
  rewrite (SFcompare_antisym (Prim2SF x) (Prim2SF y)).
  destruct (compare_defined x y Hx Hy) as [c ->].
  destruct c; simpl; congruence.
Qed.

Lemma ltb_leb (x y : float) : (x <? y) = true -> (x <=? y) = true.
Proof.
  rewrite FloatAxioms.ltb_spec, FloatAxioms.leb_spec. unfold SFltb, SFleb.
  destruct (SFcompare (Prim2SF x) (Prim2SF y)) as [[ | | ]|]; congruence.
Qed.

Lemma eqb_leb (x y : float) : (x =? y) = true -> (x <=? y) = true.
Proof.
  rewrite FloatAxioms.eqb_spec, FloatAxioms.leb_spec. unfold SFeqb, SFleb.
  destruct (SFcompare (Prim2SF x) (Prim2SF y)) as [[ | | ]|]; congruence.
Qed.

Lemma eqb_sym (x y : float) : (x =? y) = (y =? x).
Proof.
  rewrite !FloatAxioms.eqb_spec. unfold SFeqb.
  rewrite (SFcompare_antisym (Prim2SF x) (Prim2SF y)).
  destruct (SFcompare (Prim2SF x) (Prim2SF y)) as [[ | | ]|]; reflexivity.
Qed.

(** Below the bound and not equal to it: strictly below. *)
Lemma leb_neq_ltb (x y : float) :
  (x <=? y) = true -> (x =? y) = false -> (x <? y) = true.
Proof.
  rewrite FloatAxioms.eqb_spec, FloatAxioms.leb_spec, FloatAxioms.ltb_spec. unfold SFeqb, SFleb, SFltb.
  destruct (SFcompare (Prim2SF x) (Prim2SF y)) as [[ | | ]|]; congruence.
Qed.

Lemma ltb_neq (x y : float) : (x <? y) = true -> (x =? y) = false.
Proof.
  rewrite FloatAxioms.eqb_spec, FloatAxioms.ltb_spec. unfold SFeqb, SFltb.
  destruct (SFcompare (Prim2SF x) (Prim2SF y)) as [[ | | ]|]; congruence.
Qed.

Lemma leb_antisym (x y : float) :
  (x <=? y) = true -> (y <=? x) = true -> (x =? y) = true.
Proof.
  rewrite FloatAxioms.eqb_spec, !FloatAxioms.leb_spec. unfold SFeqb, SFleb.
  rewrite (SFcompare_antisym (Prim2SF x) (Prim2SF y)).
  destruct (SFcompare (Prim2SF x) (Prim2SF y)) as [[ | | ]|];
    simpl; congruence.
Qed.

Lemma in_unit_iff (x : float) : in_unitb x = true <-> in_unit x.
Proof. unfold in_unitb, in_unit. apply andb_true_iff. Qed.

Lemma in_unit_not_nan (x : float) : in_unit x -> is_nan x = false.
Proof. intros [H _]. exact (leb_not_nan_r _ _ H). Qed.

(** [max(a, b)] returns one of its arguments. *)
Lemma py_max_cases (a b : float) : py_max a b = a \/ py_max a b = b.
Proof. unfold py_max. destruct (a <? b); auto. Qed.

Lemma py_max_ub_l (a b : float) :
  is_nan a = false -> (a <=? py_max a b) = true.
Proof.
  intros Ha. unfold py_max. destruct (a <? b) eqn:E.
  - now apply ltb_leb.
  - now apply leb_refl.
Qed.

Lemma py_max_ub_r (a b : float) :
  is_nan a = false -> is_nan b = false -> (b <=? py_max a b) = true.
Proof.
  intros Ha Hb. unfold py_max. destruct (a <? b) eqn:E.
  - now apply leb_refl.
  - now apply ltb_false_leb.
Qed.

Lemma py_max_not_nan (a b : float) :
  is_nan a = false -> is_nan b = false -> is_nan (py_max a b) = false.
Proof. intros Ha Hb. destruct (py_max_cases a b) as [-> | ->]; assumption. Qed.

End FloatFacts.

(* ================================================================== *)
(** ** Aggregation: the maximum and the primary threat *)

Module AggregateFacts.
Import PyFloat FloatFacts FinancialBodyguard.
Local Open Scope float_scope.

Lemma py_max_iter_spec (rest : list float) : forall x,
  is_nan x = false ->
  (forall y, In y rest -> is_nan y = false) ->
  (py_max_iter x rest = x \/ In (py_max_iter x rest) rest)
  /\ (x <=? py_max_iter x rest) = true
  /\ (forall y, In y rest -> (y <=? py_max_iter x rest) = true).
Proof.
  unfold py_max_iter.
  induction rest as [|a rest IH]; intros x Hx Hall; simpl.
  - split; [now left|]. split; [now apply leb_refl|]. intros y [].
  - assert (Ha : is_nan a = false) by (apply Hall; now left).
    assert (Hm : is_nan (py_max x a) = false) by now apply py_max_not_nan.
    destruct (IH (py_max x a) Hm) as (Hin & Hle & Hub).
    { intros y Hy. apply Hall. now right. }
    split; [|split].
    + destruct Hin as [E | Hin]; [|now right; right].
      rewrite E. destruct (py_max_cases x a) as [-> | ->];
        [now left | now right; left].
    + eapply leb_trans; [apply (py_max_ub_l x a); exact Hx | exact Hle].
    + intros y [<- | Hy].
      * eapply leb_trans; [apply (py_max_ub_r x); assumption | exact Hle].
      * now apply Hub.
Qed.

Lemma first_at_spec (m : float) : forall results,
  (exists r, In r results /\ (get_risk r =? m) = true) ->
  exists i r,
    nth_error results i = Some r
    /\ (get_risk r =? m) = true
    /\ (forall j r', (j < i)%nat -> nth_error results j = Some r' ->
                     (get_risk r' =? m) = false)
    /\ first_at m results = Some (get_agent r).
Proof.
  induction results as [|r0 results IH]; intros (r & Hin & Hr).
  - destruct Hin.
  - simpl. destruct (get_risk r0 =? m) eqn:E0.
    + exists 0%nat, r0. repeat split; auto. intros j r' Hj. lia.
    + destruct Hin as [-> | Hin]; [congruence|].
      destruct IH as (i & r1 & Hnth & Hr1 & Hbefore & Hfirst); [eauto|].
      exists (S i), r1. repeat split; auto.
      intros [|j] r' Hj Hnth'; simpl in Hnth'.
      * now inversion Hnth'; subst.
      * apply (Hbefore j); [lia | assumption].
Qed.

End AggregateFacts.

Import PyFloat FinancialBodyguard AggregateFacts.

(** C1.  For a non-empty list of findings whose risk scores are numbers, the
    aggregated risk score is the maximum of the findings' risk scores, and
    [primary_threat] is the agent id of the first finding, in the order of
    the list (the invocation order), whose risk score attains that
    maximum. *)
Theorem aggregate_results_max_first (results : list Finding) :
  results <> [] ->
  (forall r, In r results -> is_nan (get_risk r) = false) ->
  let aggregated := _aggregate_results results in
  is_maximum (a_risk_score aggregated) results
  /\ exists a, a_primary_threat aggregated = Some a
               /\ first_attaining (a_risk_score aggregated) results a.
Proof.
  intros Hne Hnan. destruct results as [|r0 rest]; [congruence|].
  cbn zeta. unfold _aggregate_results.
  cbn [a_risk_score a_primary_threat].
  set (m := PyFloat.py_max_iter (get_risk r0) (map get_risk rest)).
  destruct (py_max_iter_spec (map get_risk rest) (get_risk r0)) as (Hin & Hle & Hub).
  { apply Hnan. now left. }
  { intros y Hy. apply in_map_iff in Hy. destruct Hy as (r & <- & Hr).
    apply Hnan. now right. }
  fold m in Hin, Hle, Hub.
  assert (Hmax : is_maximum m (r0 :: rest)).
  { split.
    - destruct Hin as [E | Hin].
      + exists r0. split; [now left | exact E].
      + apply in_map_iff in Hin. destruct Hin as (r & E & Hr).
        exists r. split; [now right | now symmetry].
    - intros r [<- | Hr]; [exact Hle|].
      apply Hub. now apply in_map. }
  split; [exact Hmax|].
  destruct Hmax as ((r & Hr & Em) & Hall).
  destruct (first_at_spec m (r0 :: rest)) as (i & r1 & Hnth & Hr1 & Hbefore & Hfirst).
  { exists r. split; [exact Hr|]. rewrite Em. apply FloatFacts.eqb_refl.
    now apply Hnan. }
  exists (get_agent r1). split; [exact Hfirst|].
  exists i, r1. repeat split; auto.
  intros j r' Hj Hnth'. apply FloatFacts.leb_neq_ltb.
  - apply Hall. eapply nth_error_In; eauto.
  - eapply Hbefore; eauto.
Qed.

Lemma aggregate_results_max_first_witness :
  a_risk_score (_aggregate_results sample_findings) = 0.9%float
  /\ a_primary_threat (_aggregate_results sample_findings) = Some "phishing_agent"
  /\ is_maximum (a_risk_score (_aggregate_results sample_findings))
       sample_findings
  /\ exists a,
       a_primary_threat (_aggregate_results sample_findings) = Some a
       /\ first_attaining (a_risk_score (_aggregate_results sample_findings))
            sample_findings a.
Proof.
  split; [reflexivity|]. split; [reflexivity|].
  apply (aggregate_results_max_first sample_findings).
  - discriminate.
  - intros r [<- | [<- | [<- | []]]]; reflexivity.
Defined.

(* ================================================================== *)
(** ** The orchestrator's band table *)

(** C3.  The aggregated threat tier is the band of the aggregated risk
    score under the orchestrator's table, whatever the findings are; a score
    of 0.95 is CRITICAL and a score of 0.65 is MEDIUM. *)
Theorem aggregate_results_tier_of_score :
  (forall results,
     a_threat_level (_aggregate_results results)
     = orchestrator_band (a_risk_score (_aggregate_results results)))
  /\ (forall results,
        a_risk_score (_aggregate_results results) = 0.95%float ->
        a_threat_level (_aggregate_results results) = CRITICAL)
  /\ (forall results,
        a_risk_score (_aggregate_results results) = 0.65%float ->
        a_threat_level (_aggregate_results results) = MEDIUM)
  /\ orchestrator_band 0.95 = CRITICAL
  /\ orchestrator_band 0.65 = MEDIUM.
Proof.
  assert (H : forall results,
             a_threat_level (_aggregate_results results)
             = orchestrator_band (a_risk_score (_aggregate_results results))).
  { intros [|r0 rest]; [reflexivity|].
    unfold _aggregate_results, orchestrator_band, ge, gt.
    cbn [a_threat_level a_risk_score]. reflexivity. }
  split; [exact H|].
  split; [intros results E; rewrite H, E; reflexivity|].
  split; [intros results E; rewrite H, E; reflexivity|].
  split; reflexivity.
Qed.

(* ================================================================== *)
(** ** Trajectory matching *)

Module TrajectoryFacts.
Import PyStr.

Section Matching.

Variable content_lower : string.

Abbreviation count := (red_flag_matches content_lower).

Lemma match_step_invariant (seen : list Trajectory)
  (st : option Trajectory * nat) (t : Trajectory) :
  best_so_far content_lower seen st ->
  best_so_far content_lower (seen ++ [t]) (match_step content_lower st t).
Proof.
  destruct st as [best score]. unfold best_so_far, match_step. simpl.
  destruct (Nat.ltb_spec score (count t)) as [Hlt | Hge]; simpl.
  - (* the new trajectory is strictly better *)
    intros H. split; [reflexivity|]. split; [lia|].
    exists (length seen). split.
    { rewrite nth_error_app2, Nat.sub_diag; [reflexivity | lia]. }
    assert (Hall : forall t', In t' seen -> count t' <= score).
    { destruct best as [b|].
      - destruct H as (-> & _ & i & _ & Hall & _). exact Hall.
      - destruct H as (-> & Hall). intros t' Ht'. rewrite (Hall t' Ht'). lia. }
    split.
    + intros t' Ht'. apply in_app_or in Ht'. destruct Ht' as [Ht' | [<- | []]].
      * specialize (Hall t' Ht'). lia.
      * lia.
    + intros j t' Hj Hnth. rewrite nth_error_app1 in Hnth by exact Hj.
      apply nth_error_In in Hnth. specialize (Hall t' Hnth). lia.
  - (* the best so far is kept *)
    destruct best as [b|].
    + intros (-> & Hpos & i & Hnth & Hall & Hbefore).
      split; [reflexivity|]. split; [exact Hpos|].
      exists i. split.
      { rewrite nth_error_app1; [exact Hnth|].
        apply nth_error_Some. congruence. }
      split.
      * intros t' Ht'. apply in_app_or in Ht'.
        destruct Ht' as [Ht' | [<- | []]]; [now apply Hall | exact Hge].
      * intros j t' Hj Hnth'. apply (Hbefore j t' Hj).
        rewrite nth_error_app1 in Hnth'; [exact Hnth'|].
        assert (i < length seen) by (apply nth_error_Some; congruence). lia.
    + intros (-> & Hall). split; [reflexivity|].
      intros t' Ht'. apply in_app_or in Ht'.
      destruct Ht' as [Ht' | [<- | []]]; [now apply Hall | lia].
Qed.

Lemma match_loop_invariant (trajectories : list Trajectory) :
  best_so_far content_lower trajectories
    (fold_left (match_step content_lower) trajectories (None, 0)).
Proof.
  induction trajectories as [|t seen IH] using rev_ind.
  - simpl. split; [reflexivity|]. intros t [].
  - rewrite fold_left_app. simpl. now apply match_step_invariant.
Qed.

End Matching.

(** *** The count of the program is the overlap of the specification *)

Lemma lower_ascii_code (c : ascii) :
  nat_of_ascii (lower_ascii c)
  = let n := nat_of_ascii c in
    if (65 <=? n)%nat && (n <=? 90)%nat then n + 32 else n.
Proof.
  unfold lower_ascii. cbv zeta.
  destruct (Nat.leb_spec 65 (nat_of_ascii c)); [|reflexivity].
  destruct (Nat.leb_spec (nat_of_ascii c) 90); [|reflexivity].
  cbn [andb]. apply nat_ascii_embedding. lia.
Qed.

Lemma ascii_eqb_code (a b : ascii) :
  Ascii.eqb a b = (nat_of_ascii a =? nat_of_ascii b)%nat.
Proof.
  destruct (Ascii.eqb_spec a b) as [-> | Hne].
  - symmetry. apply Nat.eqb_refl.
  - symmetry. apply Nat.eqb_neq. intros E. apply Hne.
    rewrite <- (ascii_nat_embedding a), <- (ascii_nat_embedding b).
    now rewrite E.
Qed.

(** The case mapping of the program identifies exactly the characters that
    are the same letter. *)
Lemma lower_ascii_same_letter (a b : ascii) :
  Ascii.eqb (lower_ascii a) (lower_ascii b) = same_letter a b.
Proof.
  rewrite ascii_eqb_code, !lower_ascii_code. unfold same_letter, capital_code.
  cbv zeta. generalize (nat_of_ascii a) (nat_of_ascii b). intros n m.
  destruct (Nat.leb_spec 65 n), (Nat.leb_spec n 90),
           (Nat.leb_spec 65 m), (Nat.leb_spec m 90),
           (Nat.leb_spec 97 n), (Nat.leb_spec n 122),
           (Nat.leb_spec 97 m), (Nat.leb_spec m 122);
    cbn [andb]; try lia;
    match goal with
    | |- (?x =? ?y)%nat = (?u =? ?v)%nat =>
        destruct (Nat.eqb_spec x y), (Nat.eqb_spec u v);
        try reflexivity; lia
    end.
Qed.

Lemma startswith_lower (phrase : string) : forall text,
  startswith (lower phrase) (lower text) = ci_prefix phrase text.
Proof.
  induction phrase as [|x phrase IH]; intros [|y text]; try reflexivity.
  cbn [lower startswith ci_prefix].
  now rewrite lower_ascii_same_letter, IH.
Qed.

Lemma contains_lower (phrase text : string) :
  contains (lower phrase) (lower text) = ci_occurs phrase text.
Proof.
  induction text as [|y text IH].
  - cbn [lower contains ci_occurs].
    now rewrite <- (startswith_lower phrase EmptyString).
  - cbn [lower contains ci_occurs].
    rewrite <- IH.
    now rewrite <- (startswith_lower phrase (String y text)).
Qed.

Lemma red_flag_matches_overlap (content : string) (t : Trajectory) :
  red_flag_matches (lower content) t = listed_overlap content t.
Proof.
  unfold red_flag_matches, listed_overlap, listed_flags. f_equal.
  apply filter_ext. intros rf. apply contains_lower.
Qed.

Lemma same_letter_sym (a b : ascii) : same_letter a b = same_letter b a.
Proof. unfold same_letter. apply Nat.eqb_sym. Qed.

Lemma ci_prefix_spec (phrase : string) : forall text,
  ci_prefix phrase text = true
  <-> exists part after,
        text = part ++ after /\ same_text part phrase = true.
Proof.
  induction phrase as [|x phrase IH]; intros text.
  - split; [|reflexivity]. intros _. exists EmptyString, text.
    split; reflexivity.
  - destruct text as [|y text]; cbn [ci_prefix].
    + split; [discriminate|].
      intros (part & after & E & H). destruct part; discriminate.
    + rewrite andb_true_iff, IH. split.
      * intros (Hxy & part & after & -> & H).
        exists (String y part), after. split; [reflexivity|].
        cbn [same_text]. now rewrite same_letter_sym, Hxy.
      * intros (part & after & E & H).
        destruct part as [|z part]; [discriminate|].
        cbn [same_text] in H. apply andb_true_iff in H.
        destruct H as (Hzx & H). simpl in E. inversion E; subst.
        split; [now rewrite same_letter_sym|].
        exists part, after. split; [reflexivity | exact H].
Qed.

(** The occurrence test says what the specification asks for. *)
Lemma ci_occurs_spec (phrase text : string) :
  ci_occurs phrase text = true <-> occurs_ignoring_case phrase text.
Proof.
  unfold occurs_ignoring_case. induction text as [|y text IH].
  - cbn [ci_occurs]. rewrite orb_false_r, ci_prefix_spec. split.
    + intros (part & after & E & H). exists EmptyString, part, after.
      split; [exact E | exact H].
    + intros (before & part & after & E & H).
      destruct before; [|discriminate]. exists part, after.
      split; [exact E | exact H].
  - cbn [ci_occurs]. rewrite orb_true_iff, ci_prefix_spec, IH. split.
    + intros [(part & after & E & H) | (before & part & after & E & H)].
      * exists EmptyString, part, after. split; [exact E | exact H].
      * exists (String y before), part, after. split; [|exact H].
        simpl. now rewrite E.
    + intros (before & part & after & E & H).
      destruct before as [|z before].
      * left. exists part, after. split; [exact E | exact H].
      * right. simpl in E. inversion E; subst.
        exists before, part, after. split; [reflexivity | exact H].
Qed.

End TrajectoryFacts.




Example match_trajectory_tie_keeps_earliest :
  _match_trajectory sample_trajectories
    "This is CBI. A warrant is out, pay the fine or join the lottery"
    (_aggregate_results [])
  = nth_error sample_trajectories 1.
Proof. reflexivity. Qed.

Example match_trajectory_single_overlap_no_match :
  _match_trajectory sample_trajectories "You won a lottery"
    (_aggregate_results [])
  = None.
Proof. reflexivity. Qed.

(* ================================================================== *)
(** ** Recommendations *)

(** C8.  For the CRITICAL tier the recommendation list has at least five
    entries.  From age 60 on it is the list for younger subjects with exactly
    one entry, the elder-specific instruction, put in front; below 60 it does
    not begin with that instruction. *)
Theorem critical_recommendations (risk_score : float) (user_age : Z) :
  let recs := _generate_recommendations CRITICAL risk_score user_age in
  let young := _generate_recommendations CRITICAL risk_score 59 in
  5 <= length recs
  /\ length young = 5
  /\ ((60 <= user_age)%Z ->
      recs = elder_rec :: young /\ hd_error recs = Some elder_rec
      /\ length recs = 6 /\ ~ In elder_rec (tl recs))
  /\ ((user_age < 60)%Z ->
      recs = young /\ hd_error recs <> Some elder_rec
      /\ ~ In elder_rec recs).
Proof.
  cbn zeta. unfold _generate_recommendations.
  assert (Hnot : ~ In elder_rec critical_recs).
  { unfold critical_recs, elder_rec. intros H.
    repeat (destruct H as [H | H]; [discriminate H|]). exact H. }
  change ((60 <=? 59)%Z) with false. cbn iota.
  destruct (Z.leb_spec 60 user_age) as [Hge | Hlt].
  - split; [simpl; lia|]. split; [reflexivity|]. split.
    + intros _. repeat split; auto.
    + intros H. lia.
  - split; [simpl; lia|]. split; [reflexivity|]. split.
    + intros H. lia.
    + intros _. split; [reflexivity|]. split; [|exact Hnot].
      simpl. intros H. discriminate H.
Qed.

(* ================================================================== *)
(** ** The analysis as a whole *)

Module AnalyzeFacts.

(** The result does not depend on the statistics: two calls that read the
    same clock return the same record. *)
Lemma analyze_result_ignores_stats (py_float : string -> float)
  (trajectories : list Trajectory) (stats stats' : Stats)
  (content : string) (user_age : Z) (now : string) :
  fst (analyze py_float trajectories stats content user_age now)
  = fst (analyze py_float trajectories stats' content user_age now).
Proof.
  unfold analyze. destruct (_generate_summaries _ _). reflexivity.
Qed.

(** The clock only sets the time stamp. *)
Lemma analyze_result_clock (py_float : string -> float)
  (trajectories : list Trajectory) (stats : Stats)
  (content : string) (user_age : Z) (now now' : string) :
  let r := fst (analyze py_float trajectories stats content user_age now) in
  let r' := fst (analyze py_float trajectories stats content user_age now') in
  pr_risk_score r = pr_risk_score r'
  /\ pr_threat_level r = pr_threat_level r'
  /\ pr_matched_trajectory r = pr_matched_trajectory r'
  /\ pr_primary_threat r = pr_primary_threat r'
  /\ pr_agent_findings r = pr_agent_findings r'
  /\ pr_recommendations r = pr_recommendations r'
  /\ pr_summary r = pr_summary r'
  /\ pr_emergency_action r = pr_emergency_action r'.
Proof.
  cbn zeta. unfold analyze. destruct (_generate_summaries _ _).
  repeat split.
Qed.

(** Every call counts one more analysis. *)
Lemma analyze_counts (py_float : string -> float)
  (trajectories : list Trajectory) (stats : Stats)
  (content : string) (user_age : Z) (now : string) :
  total_analyses (snd (analyze py_float trajectories stats content user_age now))
  = total_analyses stats + 1.
Proof.
  unfold analyze. destruct (_generate_summaries _ _).
  destruct (a_threat_level _); reflexivity.
Qed.

End AnalyzeFacts.

(** C9.  Two calls of [analyze] on the same content, with the same static
    tables, return the same risk score, threat tier and trajectory match
    (and the same findings, primary threat, recommendations and summaries),
    whatever the statistics counters and the clock are at each call.  The
    counters do change: each call adds one to [total_analyses]; run one after
    the other, the second call starts from the counters the first one left. *)
Theorem analyze_idempotent (py_float : string -> float)
  (trajectories : list Trajectory) (stats stats' : Stats)
  (content : string) (user_age : Z) (now now' : string) :
  let first := analyze py_float trajectories stats content user_age now in
  let second := analyze py_float trajectories stats' content user_age now' in
  let again :=
    analyze py_float trajectories (snd first) content user_age now' in
  (pr_risk_score (fst first) = pr_risk_score (fst second)
   /\ pr_threat_level (fst first) = pr_threat_level (fst second)
   /\ pr_matched_trajectory (fst first) = pr_matched_trajectory (fst second)
   /\ pr_primary_threat (fst first) = pr_primary_threat (fst second)
   /\ pr_agent_findings (fst first) = pr_agent_findings (fst second)
   /\ pr_recommendations (fst first) = pr_recommendations (fst second)
   /\ pr_summary (fst first) = pr_summary (fst second)
   /\ pr_emergency_action (fst first) = pr_emergency_action (fst second))
  /\ (pr_risk_score (fst again) = pr_risk_score (fst first)
      /\ pr_threat_level (fst again) = pr_threat_level (fst first)
      /\ pr_matched_trajectory (fst again) = pr_matched_trajectory (fst first))
  /\ total_analyses (snd first) = total_analyses stats + 1
  /\ total_analyses (snd again) = total_analyses stats + 2
  /\ snd again <> snd first.
Proof.
  intros first second again.
  assert (Hsame : forall st,
            let r := fst (analyze py_float trajectories st content user_age
                            now') in
            pr_risk_score (fst first) = pr_risk_score r
            /\ pr_threat_level (fst first) = pr_threat_level r
            /\ pr_matched_trajectory (fst first) = pr_matched_trajectory r
            /\ pr_primary_threat (fst first) = pr_primary_threat r
            /\ pr_agent_findings (fst first) = pr_agent_findings r
            /\ pr_recommendations (fst first) = pr_recommendations r
            /\ pr_summary (fst first) = pr_summary r
            /\ pr_emergency_action (fst first) = pr_emergency_action r).
  { intros st. unfold first.
    rewrite (AnalyzeFacts.analyze_result_ignores_stats py_float trajectories
               st stats content user_age now').
    apply AnalyzeFacts.analyze_result_clock. }
  assert (H1 : total_analyses (snd first) = total_analyses stats + 1)
    by apply AnalyzeFacts.analyze_counts.
  assert (H2 : total_analyses (snd again) = total_analyses (snd first) + 1)
    by apply AnalyzeFacts.analyze_counts.
  split; [exact (Hsame stats')|].
  split.
  { destruct (Hsame (snd first)) as (Hr & Ht & Hm & _). fold again in Hr, Ht, Hm.
    repeat split; symmetry; assumption. }
  split; [exact H1|]. split; [lia|].
  intros E. rewrite E in H2. lia.
Qed.

(** C10.  The result of [analyze] has [emergency_action] set exactly when
    its [threat_level] is CRITICAL. *)
Theorem analyze_emergency_iff_critical (py_float : string -> float)
  (trajectories : list Trajectory) (stats : Stats)
  (content : string) (user_age : Z) (now : string) :
  let r := fst (analyze py_float trajectories stats content user_age now) in
  pr_emergency_action r = true <-> pr_threat_level r = CRITICAL.
Proof.
  cbn zeta. unfold analyze.
  destruct (_generate_summaries _ _) as [summary hindi].
  cbn [fst pr_emergency_action pr_threat_level].
  destruct (a_threat_level _); simpl; split; congruence.
Qed.

(* ================================================================== *)
(** ** Pattern scores of the two UPI detectors *)

Module ScanFacts.
Import PyStr FloatFacts.
Local Open Scope float_scope.

Lemma count_hits_le (kws : list string) (text : string) :
  (count_hits kws text <= length kws)%nat.
Proof. unfold count_hits, hits. apply filter_length_le. Qed.

Lemma forallb_upto (P : nat -> bool) (n : nat) :
  forallb P (seq 0 (S n)) = true -> forall k, (k <= n)%nat -> P k = true.
Proof.
  intros H k Hk. rewrite forallb_forall in H. apply H.
  apply in_seq. lia.
Qed.

(** A running [max] from [x] ends on [x] or on an element of the list. *)
Lemma fold_max_in (l : list float) : forall x,
  fold_left py_max l x = x \/ In (fold_left py_max l x) l.
Proof.
  induction l as [|a l IH]; intros x; simpl; [now left|].
  destruct (IH (py_max x a)) as [E | Hin]; [|now right; right].
  rewrite E. destruct (py_max_cases x a) as [-> | ->];
    [now left | now right; left].
Qed.

(** The running [max] from [0.0] over scores of the unit interval is their
    maximum: an upper bound that is [0.0] for no score and is attained
    otherwise. *)
Lemma fold_max_unit (l : list float) :
  (forall s, In s l -> in_unit s) ->
  let total := fold_left py_max l 0 in
  (forall s, In s l -> (s <=? total) = true)
  /\ (l = [] -> total = 0)
  /\ (l <> [] -> exists s, In s l /\ (total =? s) = true).
Proof.
  intros Hunit total.
  destruct (AggregateFacts.py_max_iter_spec l 0) as (Hin & Hle & Hub).
  { reflexivity. }
  { intros y Hy. apply in_unit_not_nan. now apply Hunit. }
  unfold py_max_iter in *. fold total in Hin, Hle, Hub.
  split; [exact Hub|]. split.
  - intros ->. reflexivity.
  - intros Hne. destruct Hin as [E | Hin].
    + destruct l as [|s l]; [congruence|].
      exists s. split; [now left|].
      apply leb_antisym.
      * rewrite E. apply (Hunit s). now left.
      * apply Hub. now left.
    + exists total. split; [exact Hin|].
      apply FloatFacts.eqb_refl. apply in_unit_not_nan. now apply Hunit.
Qed.

(** *** [UPIScamDetector] (agents/tools.py) *)

Section Tool.
Import UPIScamDetector.

Variable message_lower : string.

Lemma tool_scan_fold (ps : list Pattern) : forall detected total,
  fold_left (scan_step message_lower) ps (detected, total)
  = ((detected ++ flat_map (tool_entry message_lower) ps)%list,
     fold_left py_max (map snd (flat_map (tool_entry message_lower) ps)) total).
Proof.
  induction ps as [|p ps IH]; intros detected total.
  - simpl. now rewrite app_nil_r.
  - cbn [fold_left flat_map].
    assert (E : scan_step message_lower (detected, total) p
                = ((detected ++ tool_entry message_lower p)%list,
                   fold_left py_max (map snd (tool_entry message_lower p))
                     total)).
    { unfold scan_step, tool_entry.
      destruct (_ && _); simpl; [reflexivity | now rewrite app_nil_r]. }
    rewrite E, IH, map_app, fold_left_app, app_assoc. reflexivity.
Qed.

Lemma tool_scores_checked :
  forallb
    (fun p =>
       forallb
         (fun k =>
            forallb (fun i => in_unitb (pattern_score (risk p) k i))
              (seq 0 (S (length (indicators p)))))
         (seq 0 (S (length (keywords p)))))
    SCAM_PATTERNS = true.
Proof. vm_compute. reflexivity. Qed.

Lemma tool_entry_unit (p : Pattern) (n : string) (s : float) :
  In p SCAM_PATTERNS -> In (n, s) (tool_entry message_lower p) -> in_unit s.
Proof.
  intros Hp Hin. unfold tool_entry in Hin.
  destruct (_ && _); [|destruct Hin].
  destruct Hin as [E | []]. inversion E; subst. apply in_unit_iff.
  pose proof tool_scores_checked as H. rewrite forallb_forall in H.
  specialize (H p Hp).
  eapply forallb_upto in H; [|apply count_hits_le].
  eapply forallb_upto in H; [|apply count_hits_le].
  exact H.
Qed.

End Tool.

(** *** [UPIFraudAgent] (agents/specialists) *)

Section Specialist.
Import UPIFraudAgent.

Variable content_lower : string.

Lemma agent_scan_fold (ps : list Pattern) : forall detected max_risk red_flags,
  fold_left (scan_step content_lower) ps (detected, max_risk, red_flags)
  = ((detected ++ flat_map (agent_entry content_lower) ps)%list,
     fold_left py_max (map d_risk (flat_map (agent_entry content_lower) ps))
       max_risk,
     (red_flags ++ flat_map (agent_flags content_lower) ps)%list).
Proof.
  induction ps as [|p ps IH]; intros detected max_risk red_flags.
  - simpl. now rewrite !app_nil_r.
  - cbn [fold_left flat_map].
    assert (E : scan_step content_lower (detected, max_risk, red_flags) p
                = ((detected ++ agent_entry content_lower p)%list,
                   fold_left py_max (map d_risk (agent_entry content_lower p))
                     max_risk,
                   (red_flags ++ agent_flags content_lower p)%list)).
    { unfold scan_step, agent_entry, agent_flags.
      destruct (_ && _); simpl; [reflexivity | now rewrite !app_nil_r]. }
    rewrite E, IH, map_app, fold_left_app, !app_assoc. reflexivity.
Qed.

Lemma agent_entry_scores (p : Pattern) (d : Detected) :
  In p patterns -> In d (agent_entry content_lower p) ->
  In (d_risk d) agent_scores.
Proof.
  intros Hp Hin. unfold agent_entry in Hin.
  destruct (_ && _); [|destruct Hin].
  destruct Hin as [<- | []]. cbn [d_risk].
  unfold agent_scores. apply in_flat_map. exists p. split; [exact Hp|].
  apply in_flat_map. exists (count_hits (keywords p) content_lower). split.
  { apply in_seq. pose proof (count_hits_le (keywords p) content_lower). lia. }
  apply in_map_iff. exists (count_hits (indicators p) content_lower). split.
  { reflexivity. }
  apply in_seq. pose proof (count_hits_le (indicators p) content_lower). lia.
Qed.

(** Every possible score, amplified by every possible number of urgency
    words, lies in the unit interval (the case of no urgency word is the
    score itself). *)
Lemma agent_scores_checked :
  forallb
    (fun r =>
       forallb (fun u => in_unitb (amplify r u))
         (seq 0 (S (length urgency_words))))
    (0 :: agent_scores) = true.
Proof. vm_compute. reflexivity. Qed.

Lemma agent_amplify_unit (r : float) (u : nat) :
  In r (0 :: agent_scores) -> (u <= length urgency_words)%nat ->
  in_unit (amplify r u).
Proof.
  intros Hr Hu. apply in_unit_iff.
  pose proof agent_scores_checked as H. rewrite forallb_forall in H.
  specialize (H r Hr). now apply (forallb_upto _ _ H).
Qed.

Lemma agent_entry_unit (p : Pattern) (d : Detected) :
  In p patterns -> In d (agent_entry content_lower p) -> in_unit (d_risk d).
Proof.
  intros Hp Hd.
  apply (agent_amplify_unit (d_risk d) 0); [|lia].
  right. eapply agent_entry_scores; eauto.
Qed.

End Specialist.

End ScanFacts.

Import PyStr.

(** On "collect request won" the collect-request pattern of the tool has two
    keyword hits and one indicator hit.  The program clamps the product:
    0.9 * 1.25 = 1.125 becomes 1.0, where the specification's formula gives
    0.9 * 1 = 0.9.  The specialist scores its collect-scam pattern 1.0 on the
    same text, where the formula gives 0.95. *)
Lemma claimed_pattern_score_fails :
  exists p score,
    In p UPIScamDetector.SCAM_PATTERNS
    /\ UPIScamDetector.p_name p = "collect_request_scam"
    /\ let m := lower "collect request won" in
       let k := count_hits (UPIScamDetector.keywords p) m in
       let i := count_hits (UPIScamDetector.indicators p) m in
       k = 2 /\ i = 1
       /\ In (UPIScamDetector.p_name p, score)
            (fst (UPIScamDetector.scan_patterns m))
       /\ score = 1%float
       /\ claimed_pattern_score (UPIScamDetector.risk p) k i = 0.9%float
       /\ score <> claimed_pattern_score (UPIScamDetector.risk p) k i
       /\ map UPIFraudAgent.d_risk (fst (fst (UPIFraudAgent.scan_patterns m)))
          = [1%float]
       /\ claimed_pattern_score 0.95 k i = 0.95%float.
Proof.
  exists (UPIScamDetector.mkPattern "collect_request_scam"
            ["collect"; "request"; "pay"; "receive"; "claim"]
            ["won"; "lottery"; "prize"; "cashback"; "refund"; "reward"]
            0.9%float), 1%float.
  split; [now left|]. split; [reflexivity|]. cbn zeta.
  split; [reflexivity|]. split; [reflexivity|].
  split; [vm_compute; now left|]. split; [reflexivity|].
  split; [reflexivity|].
  split; [|split; reflexivity].
  intros E. apply (f_equal (fun x => (x <? 1)%float)) in E.
  vm_compute in E. discriminate E.
Qed.

(** C2, as the program has it.  In both UPI detectors a pattern with at least
    one keyword hit and one indicator hit is detected with the score
    [min(base * (a + b * keyword_hits + b * indicator_hits), 1.0)]: the
    product is clamped, not the factor; [a = 0.5, b = 0.25] in the
    [UPIScamDetector] tool and [a = 0.7, b = 0.15] in [UPIFraudAgent].
    Nothing else is detected, and the risk before the amplifiers is the
    maximum of the scores of the detected patterns ([0.0] when none is). *)
Theorem pattern_score_clamped_product_and_max (message : string) :
  let m := lower message in
  (let detected := fst (UPIScamDetector.scan_patterns m) in
   let total_risk := snd (UPIScamDetector.scan_patterns m) in
   let score p :=
     py_min (UPIScamDetector.risk p
             * (0.5 + 0.25 * of_nat (count_hits (UPIScamDetector.keywords p) m)
                    + 0.25 * of_nat (count_hits (UPIScamDetector.indicators p) m)))
       1%float in
   let matched p :=
     (0 < count_hits (UPIScamDetector.keywords p) m)%nat
     /\ (0 < count_hits (UPIScamDetector.indicators p) m)%nat in
   (forall p, In p UPIScamDetector.SCAM_PATTERNS -> matched p ->
              In (UPIScamDetector.p_name p, score p) detected)
   /\ (forall n s, In (n, s) detected ->
         exists p, In p UPIScamDetector.SCAM_PATTERNS /\ matched p
                   /\ n = UPIScamDetector.p_name p /\ s = score p)
   /\ is_max_score (map snd detected) total_risk)%float
  /\
  (let '(detected, max_risk, _) := UPIFraudAgent.scan_patterns m in
   let score p :=
     py_min (UPIFraudAgent.risk p
             * (0.7 + 0.15 * of_nat (count_hits (UPIFraudAgent.keywords p) m)
                    + 0.15 * of_nat (count_hits (UPIFraudAgent.indicators p) m)))
       1%float in
   let matched p :=
     (0 < count_hits (UPIFraudAgent.keywords p) m)%nat
     /\ (0 < count_hits (UPIFraudAgent.indicators p) m)%nat in
   (forall p, In p UPIFraudAgent.patterns -> matched p ->
              exists d, In d detected
                        /\ UPIFraudAgent.d_name d = UPIFraudAgent.p_name p
                        /\ UPIFraudAgent.d_risk d = score p)
   /\ (forall d, In d detected ->
         exists p, In p UPIFraudAgent.patterns /\ matched p
                   /\ UPIFraudAgent.d_name d = UPIFraudAgent.p_name p
                   /\ UPIFraudAgent.d_risk d = score p)
   /\ is_max_score (map UPIFraudAgent.d_risk detected) max_risk)%float.
Proof.
  intro m. split.
  - unfold UPIScamDetector.scan_patterns.
    rewrite ScanFacts.tool_scan_fold. cbn [fst snd app]. cbn zeta.
    split; [|split].
    + intros p Hp [Hk Hi]. apply in_flat_map. exists p. split; [exact Hp|].
      unfold tool_entry.
      apply Nat.ltb_lt in Hk, Hi. rewrite Hk, Hi. now left.
    + intros n s Hin. apply in_flat_map in Hin. destruct Hin as (p & Hp & Hin).
      unfold tool_entry in Hin.
      destruct (Nat.ltb_spec 0 (count_hits (UPIScamDetector.keywords p) m));
        [|destruct Hin].
      destruct (Nat.ltb_spec 0 (count_hits (UPIScamDetector.indicators p) m));
        [|destruct Hin].
      destruct Hin as [E | []]. inversion E; subst.
      exists p. repeat split; auto.
    + apply ScanFacts.fold_max_unit.
      intros s Hs. apply in_map_iff in Hs. destruct Hs as ([n s'] & <- & Hin).
      apply in_flat_map in Hin. destruct Hin as (p & Hp & Hin).
      eapply ScanFacts.tool_entry_unit; eauto.
  - unfold UPIFraudAgent.scan_patterns.
    rewrite ScanFacts.agent_scan_fold. cbn [app]. cbn zeta.
    split; [|split].
    + intros p Hp [Hk Hi].
      exists (UPIFraudAgent.mkDetected (UPIFraudAgent.p_name p)
                (UPIFraudAgent.pattern_score (UPIFraudAgent.risk p)
                   (count_hits (UPIFraudAgent.keywords p) m)
                   (count_hits (UPIFraudAgent.indicators p) m))
                (count_hits (UPIFraudAgent.keywords p) m)
                (count_hits (UPIFraudAgent.indicators p) m)).
      split; [|split; reflexivity].
      apply in_flat_map. exists p. split; [exact Hp|].
      unfold agent_entry.
      apply Nat.ltb_lt in Hk, Hi. rewrite Hk, Hi. now left.
    + intros d Hin. apply in_flat_map in Hin. destruct Hin as (p & Hp & Hin).
      unfold agent_entry in Hin.
      destruct (Nat.ltb_spec 0 (count_hits (UPIFraudAgent.keywords p) m));
        [|destruct Hin].
      destruct (Nat.ltb_spec 0 (count_hits (UPIFraudAgent.indicators p) m));
        [|destruct Hin].
      destruct Hin as [<- | []].
      exists p. repeat split; auto.
    + apply ScanFacts.fold_max_unit.
      intros s Hs. apply in_map_iff in Hs. destruct Hs as (d & <- & Hin).
      apply in_flat_map in Hin. destruct Hin as (p & Hp & Hin).
      eapply ScanFacts.agent_entry_unit; eauto.
Qed.

(* ================================================================== *)
(** ** The range of the specialists' risk scores *)

Module RangeFacts.
Import FloatFacts ScanFacts.
Local Open Scope float_scope.

(** *** UPI *)

Lemma upi_risk_unit (content_lower : string) :
  exists r,
    risk_score (UPIFraudAgent.analyze_lower content_lower) = Some r
    /\ in_unit r.
Proof.
  unfold UPIFraudAgent.analyze_lower, UPIFraudAgent.scan_patterns.
  rewrite agent_scan_fold. cbn [app].
  eexists. split; [reflexivity|].
  apply agent_amplify_unit; [|apply count_hits_le].
  destruct (fold_max_in
              (map UPIFraudAgent.d_risk
                 (flat_map (agent_entry content_lower) UPIFraudAgent.patterns))
              0) as [-> | Hin]; [now left|].
  right. apply in_map_iff in Hin. destruct Hin as (d & <- & Hin).
  apply in_flat_map in Hin. destruct Hin as (p & Hp & Hin).
  eapply ScanFacts.agent_entry_scores; eauto.
Qed.

(** *** Phishing *)

Lemma phishing_scan_in (content_lower : string)
  (inds : list PhishingAgent.Indicator) : forall detected max_risk,
  In (snd (fold_left (PhishingAgent.scan_step content_lower) inds
             (detected, max_risk)))
     (max_risk :: map PhishingAgent.i_risk inds).
Proof.
  induction inds as [|ind inds IH]; intros detected max_risk.
  - now left.
  - cbn [fold_left map]. unfold PhishingAgent.scan_step at 2.
    destruct (existsb _ _).
    + destruct (IH (detected ++ [PhishingAgent.i_name ind])%list
                  (py_max max_risk (PhishingAgent.i_risk ind)))
        as [E | Hin]; [|now right; right].
      rewrite <- E.
      destruct (py_max_cases max_risk (PhishingAgent.i_risk ind))
        as [-> | ->]; [now left | now right; left].
    + destruct (IH detected max_risk) as [E | Hin];
        [now left | now right; right].
Qed.

Lemma phishing_risk_unit (content_lower : string) :
  exists r,
    risk_score (PhishingAgent.analyze_lower content_lower) = Some r
    /\ in_unit r.
Proof.
  unfold PhishingAgent.analyze_lower, PhishingAgent.scan_indicators.
  pose proof (phishing_scan_in content_lower
                PhishingAgent.phishing_indicators [] 0) as Hin.
  destruct (fold_left _ _ _) as [detected max_risk]. cbn [snd] in Hin.
  assert (Hk : In (snd (PhishingAgent.kyc_check content_lower
                          (detected, max_risk)))
                  (0.85 :: 0 :: map PhishingAgent.i_risk
                                  PhishingAgent.phishing_indicators)).
  { unfold PhishingAgent.kyc_check.
    destruct (_ && _); [|now right].
    destruct (max_risk <? 0.8); [now left | now right]. }
  destruct (PhishingAgent.kyc_check _ _) as [detected' max_risk'].
  cbn [snd] in Hk. eexists. split; [reflexivity|].
  apply in_unit_iff.
  assert (Hall : forallb in_unitb
                   (0.85 :: 0 :: map PhishingAgent.i_risk
                                   PhishingAgent.phishing_indicators) = true)
    by (vm_compute; reflexivity).
  rewrite forallb_forall in Hall. now apply Hall.
Qed.

(** *** Impersonation and investment: capped hit counts *)

Lemma cap_le (l : list string) : (cap l <= 3)%nat.
Proof. unfold cap. lia. Qed.

Lemma impersonation_add_capped (r w : float) (l : list string) :
  ImpersonationAgent.add_capped r w l = add_n r w (cap l).
Proof. destruct l; reflexivity. Qed.

Lemma investment_add_capped (r w : float) (l : list string) :
  InvestmentFraudAgent.add_capped r w l = add_n r w (cap l).
Proof. destruct l; reflexivity. Qed.

Lemma impersonation_risk_checked :
  forallb
    (fun na =>
       forallb
         (fun nt =>
            forallb
              (fun money =>
                 forallb
                   (fun video =>
                      in_unitb (impersonation_risk_n na nt money video))
                   [false; true])
              [false; true])
         (seq 0 4))
    (seq 0 4) = true.
Proof. vm_compute. reflexivity. Qed.

Lemma in_bools (b : bool) : In b [false; true].
Proof. destruct b; simpl; auto. Qed.

Lemma impersonation_risk_n_unit (na nt : nat) (money video : bool) :
  (na <= 3)%nat -> (nt <= 3)%nat ->
  in_unit (impersonation_risk_n na nt money video).
Proof.
  intros Ha Ht. apply in_unit_iff.
  pose proof (forallb_upto _ 3 impersonation_risk_checked na Ha) as H1.
  cbv beta in H1.
  pose proof (forallb_upto _ 3 H1 nt Ht) as H2. cbv beta in H2.
  rewrite forallb_forall in H2. specialize (H2 money (in_bools money)).
  rewrite forallb_forall in H2. exact (H2 video (in_bools video)).
Qed.

Lemma impersonation_risk_unit (content_lower : string) :
  exists r,
    risk_score (ImpersonationAgent.analyze_lower content_lower) = Some r
    /\ in_unit r.
Proof.
  unfold ImpersonationAgent.analyze_lower. eexists. split; [reflexivity|].
  unfold ImpersonationAgent.risk_of. rewrite !impersonation_add_capped.
  set (a := cap _). set (t := cap _).
  set (money := hits ImpersonationAgent.money_demands content_lower).
  set (video := any_in _ _).
  assert (E : match money with
              | [] => add_n (add_n 0 0.3 a) 0.25 t
              | _ :: _ => add_n (add_n 0 0.3 a) 0.25 t + 0.35
              end
              = if match money with [] => false | _ :: _ => true end
                then add_n (add_n 0 0.3 a) 0.25 t + 0.35
                else add_n (add_n 0 0.3 a) 0.25 t)
    by (destruct money; reflexivity).
  rewrite E.
  apply (impersonation_risk_n_unit a t
           match money with [] => false | _ :: _ => true end video);
    apply cap_le.
Qed.

Lemma investment_risk_checked :
  forallb
    (fun ns =>
       forallb
         (fun nr =>
            forallb (fun m => in_unitb (investment_risk_n ns nr m))
              [false; true])
         (seq 0 4))
    (seq 0 4) = true.
Proof. vm_compute. reflexivity. Qed.

Lemma investment_risk_n_unit (ns nr : nat) (return_match : bool) :
  (ns <= 3)%nat -> (nr <= 3)%nat ->
  in_unit (investment_risk_n ns nr return_match).
Proof.
  intros Hs Hr. apply in_unit_iff.
  pose proof (forallb_upto _ 3 investment_risk_checked ns Hs) as H1.
  cbv beta in H1.
  pose proof (forallb_upto _ 3 H1 nr Hr) as H2. cbv beta in H2.
  rewrite forallb_forall in H2. exact (H2 return_match (in_bools return_match)).
Qed.

Lemma investment_risk_unit (content_lower : string) :
  exists r,
    risk_score (InvestmentFraudAgent.analyze_lower content_lower) = Some r
    /\ in_unit r.
Proof.
  unfold InvestmentFraudAgent.analyze_lower. eexists. split; [reflexivity|].
  unfold InvestmentFraudAgent.risk_of. rewrite !investment_add_capped.
  apply (investment_risk_n_unit
           (cap (hits InvestmentFraudAgent.scam_indicators content_lower))
           (cap (hits InvestmentFraudAgent.red_flag_terms content_lower))
           (Re.search InvestmentFraudAgent.return_pattern content_lower));
    apply cap_le.
Qed.

(** *** Documents: at most one issue per table row, and the rate *)

Lemma flat_map_length_le {A B} (f : A -> list B) (l : list A) :
  (forall x, (length (f x) <= 1)%nat) ->
  (length (flat_map f l) <= length l)%nat.
Proof.
  intros Hf. induction l as [|x l IH]; simpl; [lia|].
  rewrite length_app. specialize (Hf x). lia.
Qed.

Lemma found_issues_length (py_float : string -> float)
  (content_lower doc_type : string) :
  (length (DocumentAnalystAgent.found_issues py_float content_lower doc_type)
   <= 6)%nat.
Proof.
  unfold DocumentAnalystAgent.found_issues. rewrite length_app.
  assert (H : forall rows,
             (length (flat_map (DocumentAnalystAgent.row_issue content_lower)
                        rows) <= length rows)%nat).
  { intros rows. apply flat_map_length_le. intros row.
    unfold DocumentAnalystAgent.row_issue. destruct (find _ _); simpl; lia. }
  assert (Hr : (length (if DocumentAnalystAgent.high_rate
                             (DocumentAnalystAgent.interest_rate py_float
                                content_lower)
                        then [DocumentAnalystAgent.mkIssue "High Interest Rate"
                                None "HIGH"]
                        else []) <= 1)%nat)
    by (destruct (DocumentAnalystAgent.high_rate _); simpl; lia).
  destruct (String.eqb doc_type "loan");
    [specialize (H DocumentAnalystAgent.loan_red_flags)
    |specialize (H DocumentAnalystAgent.insurance_red_flags)];
    simpl length in H at 2; lia.
Qed.

Lemma document_risk_unit (py_float : string -> float)
  (content_lower doc_type : string) :
  exists r,
    risk_score
      (DocumentAnalystAgent.analyze_lower py_float content_lower doc_type)
    = Some r
    /\ in_unit r.
Proof.
  unfold DocumentAnalystAgent.analyze_lower. eexists. split; [reflexivity|].
  apply in_unit_iff.
  assert (H : forallb (fun n => in_unitb (py_min (of_nat n * 0.2) 1))
                (seq 0 7) = true) by (vm_compute; reflexivity).
  apply (forallb_upto _ 6 H). apply found_issues_length.
Qed.

End RangeFacts.

(* ================================================================== *)
(** ** The specialists on text and on other input *)

(** Called with [None] instead of a text, [analyze] raises at its first
    statement, [content.lower()]: no risk score comes back. *)
Lemma specialist_raises_on_non_text :
  let e := Py.Exception "AttributeError"
             "'NoneType' object has no attribute 'lower'" in
  UPIFraudAgent.analyze_dyn Py.VNone = Py.Raise e
  /\ ImpersonationAgent.analyze_dyn Py.VNone = Py.Raise e
  /\ ~ (exists f, UPIFraudAgent.analyze_dyn Py.VNone = Py.Ok f
                  /\ risk_score f = Some 0%float).
Proof.
  cbn zeta. split; [reflexivity|]. split; [reflexivity|].
  intros (f & H & _). discriminate H.
Qed.

(** C5, as the program has it.  On every text each of the five specialist
    detectors returns a finding (the call does not raise) whose risk score
    lies in [0, 1]; on the empty text the risk score is 0. *)
Theorem specialists_total_on_text (py_float : string -> float)
  (content doc_type : string) :
  (UPIFraudAgent.analyze_dyn (Py.VStr content)
     = Py.Ok (UPIFraudAgent.analyze content)
   /\ PhishingAgent.analyze_dyn (Py.VStr content)
      = Py.Ok (PhishingAgent.analyze content)
   /\ ImpersonationAgent.analyze_dyn (Py.VStr content)
      = Py.Ok (ImpersonationAgent.analyze content)
   /\ DocumentAnalystAgent.analyze_dyn py_float (Py.VStr content) doc_type
      = Py.Ok (DocumentAnalystAgent.analyze py_float content doc_type)
   /\ InvestmentFraudAgent.analyze_dyn (Py.VStr content)
      = Py.Ok (InvestmentFraudAgent.analyze content))
  /\ (forall f,
        In f [ UPIFraudAgent.analyze content;
               PhishingAgent.analyze content;
               ImpersonationAgent.analyze content;
               DocumentAnalystAgent.analyze py_float content doc_type;
               InvestmentFraudAgent.analyze content ] ->
        exists r, risk_score f = Some r /\ in_unit r)
  /\ (forall f,
        In f [ UPIFraudAgent.analyze empty_text;
               PhishingAgent.analyze empty_text;
               ImpersonationAgent.analyze empty_text;
               DocumentAnalystAgent.analyze py_float empty_text doc_type;
               InvestmentFraudAgent.analyze empty_text ] ->
        risk_score f = Some 0%float).
Proof.
  split; [repeat split|]. split.
  - intros f [<- | [<- | [<- | [<- | [<- | []]]]]].
    + apply RangeFacts.upi_risk_unit.
    + apply RangeFacts.phishing_risk_unit.
    + apply RangeFacts.impersonation_risk_unit.
    + apply RangeFacts.document_risk_unit.
    + apply RangeFacts.investment_risk_unit.
  - intros f [<- | [<- | [<- | [<- | [<- | []]]]]]; try reflexivity.
    unfold DocumentAnalystAgent.analyze, DocumentAnalystAgent.analyze_lower,
      DocumentAnalystAgent.found_issues.
    destruct (String.eqb doc_type "loan"); reflexivity.
Qed.

(* ================================================================== *)
(** ** The detectors' own band tables *)

(** "police arrest" has one authority word and one threat word: the
    impersonation detector scores it 0.55 and calls that HIGH, where the
    table of the specification says MEDIUM.  The UPI specialist calls a risk
    of 0 LOW, where the table says SAFE. *)
Lemma claimed_detector_band_fails :
  (let f := ImpersonationAgent.analyze "police arrest" in
   risk_score f = Some 0.55%float
   /\ threat_level f = Some HIGH
   /\ option_map claimed_detector_band (risk_score f) = Some MEDIUM)
  /\ (let f := UPIFraudAgent.analyze empty_text in
      risk_score f = Some 0%float
      /\ threat_level f = Some LOW
      /\ option_map claimed_detector_band (risk_score f) = Some SAFE).
Proof. vm_compute. repeat split. Qed.

(** C6, as the program has it.  Each detector maps its own risk score to a
    tier by a table of its own: the UPI specialist by 0.9 / 0.7 / 0.4 with
    LOW below (it has no SAFE); the phishing specialist by 0.9 / 0.7 with LOW
    below; the impersonation and investment specialists by 0.8 / 0.5 with LOW
    below; the document specialist reports no tier.  The [UPIScamDetector]
    tool is the one that uses the five-band table of the specification. *)
Theorem detector_band_tables (py_float : string -> float)
  (content doc_type : string) (amount : option float) :
  (let f := UPIFraudAgent.analyze content in
   exists r, risk_score f = Some r
     /\ threat_level f
        = Some (if 0.9 <=? r then CRITICAL else if 0.7 <=? r then HIGH
                else if 0.4 <=? r then MEDIUM else LOW))%float
  /\ (let f := PhishingAgent.analyze content in
      exists r, risk_score f = Some r
        /\ threat_level f
           = Some (if 0.9 <=? r then CRITICAL else if 0.7 <=? r then HIGH
                   else LOW))%float
  /\ (let f := ImpersonationAgent.analyze content in
      exists r, risk_score f = Some r
        /\ threat_level f
           = Some (if 0.8 <=? r then CRITICAL else if 0.5 <=? r then HIGH
                   else LOW))%float
  /\ (let f := InvestmentFraudAgent.analyze content in
      exists r, risk_score f = Some r
        /\ threat_level f
           = Some (if 0.8 <=? r then CRITICAL else if 0.5 <=? r then HIGH
                   else LOW))%float
  /\ threat_level (DocumentAnalystAgent.analyze py_float content doc_type)
     = None
  /\ (let t := UPIScamDetector.analyze content amount in
      UPIScamDetector.tr_risk_level t
      = claimed_detector_band (UPIScamDetector.tr_risk_score t)).
Proof.
  split; [|split; [|split; [|split; [|split]]]].
  - cbn zeta. unfold UPIFraudAgent.analyze, UPIFraudAgent.analyze_lower.
    destruct (UPIFraudAgent.scan_patterns _) as [[detected max_risk] flags].
    eexists. split; reflexivity.
  - cbn zeta. unfold PhishingAgent.analyze, PhishingAgent.analyze_lower.
    destruct (PhishingAgent.kyc_check _ _) as [detected max_risk].
    eexists. split; reflexivity.
  - cbn zeta. eexists. split; reflexivity.
  - cbn zeta. eexists. split; reflexivity.
  - reflexivity.
  - cbn zeta. unfold UPIScamDetector.analyze.
    destruct (UPIScamDetector.scan_patterns _) as [detected total_risk].
    reflexivity.
Qed.

(* ================================================================== *)
(** ** The execution boundary of an agent *)

Module ExecuteFacts.
Import Py AdkCore.

(** The [try] block raises exactly what escapes a step. *)
Lemma execute_try_raises (a : Agent) (task : Task) (elapsed : float) (e : exn) :
  escapes a task e <-> execute_try a task elapsed = Raise e.
Proof.
  unfold execute_try, bind. split.
  - intros [H | plan sub Hp Hd H | plan names Hp Hd Hn H | plan Hp Hd Hn H
           | plan r Hp Hr H | plan r v Hp Hr Hv H].
    + now rewrite H.
    + rewrite Hp. unfold run_plan. now rewrite Hd, H.
    + rewrite Hp. unfold run_plan. now rewrite Hd, Hn, H.
    + rewrite Hp. unfold run_plan. now rewrite Hd, Hn, H.
    + now rewrite Hp, Hr, H.
    + now rewrite Hp, Hr, Hv, H.
  - destruct (_plan a task) as [plan|e0] eqn:Hp.
    2:{ intros E. inversion E; subst. now apply escapes_plan. }
    destruct (run_plan a task plan) as [r|e0] eqn:Hr.
    2:{ intros E. inversion E; subst. unfold run_plan in Hr.
        destruct (truthy_str (delegate_to plan)) as [sub|] eqn:Hd.
        - eapply escapes_delegate; eauto.
        - destruct (truthy_list (use_tools plan)) as [names|] eqn:Hn.
          + eapply escapes_tools; eauto.
          + eapply escapes_response; eauto. }
    destruct (_verify a task r) as [v|e0] eqn:Hv.
    2:{ intros E. inversion E; subst. eapply escapes_verify; eauto. }
    destruct (_calculate_confidence a v) as [c|e0] eqn:Hc.
    2:{ intros E. inversion E; subst. eapply escapes_confidence; eauto. }
    discriminate.
Qed.

(** The loop of the tool-use step: it builds the dict of the tools'
    outcomes, unless a tool raises outside the [Exception] hierarchy. *)
Lemma use_tools_from_spec (reg : Registry) (task : Task)
  (tool_names : list string) : forall results,
  use_tools_from reg task tool_names results
  = match first_escape reg task tool_names with
    | None => Ok (use_tools_loop reg task tool_names results)
    | Some e => Raise e
    end.
Proof.
  unfold use_tools_loop.
  induction tool_names as [|n rest IH]; intros results; [reflexivity|].
  cbn [use_tools_from first_escape fold_left]. unfold use_tool, try_except.
  destruct (ToolRegistry_execute reg n (content task)) as [r|e];
    cbn [bind]; [apply IH|].
  destruct (is_exception e); cbn [bind]; [apply IH | reflexivity].
Qed.

Lemma first_escape_not_exception (reg : Registry) (task : Task)
  (tool_names : list string) (e : exn) :
  first_escape reg task tool_names = Some e -> is_exception e = false.
Proof.
  induction tool_names as [|n rest IH]; [discriminate|].
  cbn [first_escape].
  destruct (ToolRegistry_execute reg n (content task)) as [r|e']; [exact IH|].
  destruct (is_exception e') eqn:E; [exact IH|].
  intros H. inversion H; subst. exact E.
Qed.

End ExecuteFacts.

Import Py AdkCore ExecuteFacts.



(** An exception that leaves the response step: the result is FAILED, with
    the prefixed error text as reasoning, and nothing enters the history. *)
Example execute_failed_on_raising_response :
  escapes raising_agent sample_task (Exception "KeyError" "'risk_score'")
  /\ execute raising_agent [] sample_task 0.5
     = Ok ({| tr_task_id := "t1";
              tr_agent_id := "specialist";
              status := FAILED;
              result := VDict [("error", VStr "'risk_score'")];
              confidence := 0;
              reasoning := "Execution failed: 'risk_score'";
              execution_time := 0.5 |}, []).
Proof.
  split; [|reflexivity].
  eapply escapes_response; reflexivity.
Qed.

(* ================================================================== *)
(** ** The scenarios of the specification *)

(** Scenario A: a prize message with a collect request, age 55.  Only the UPI
    specialist is consulted; its collect-scam pattern fires, the verdict is
    CRITICAL, and the five recommendations do not start with the
    elder-specific one. *)
Example scenario_prize_collect_request (py_float : string -> float)
  (timestamp : string) :
  let content :=
    "Congratulations! You have won Rs 50,000... accept the UPI collect request... Hurry!" in
  let r := fst (analyze py_float [] (mkStats 0 0 0) content 55 timestamp) in
  _route_to_agents content = ["upi"]
  /\ pr_risk_score r = 1%float
  /\ pr_threat_level r = CRITICAL
  /\ pr_primary_threat r = Some "upi_fraud_agent"
  /\ length (pr_recommendations r) = 5
  /\ hd_error (pr_recommendations r) <> Some elder_rec
  /\ pr_emergency_action r = true.
Proof.
  vm_compute. repeat split. intros H. discriminate H.
Qed.

(** Scenario B: a call in the name of the CBI with a warrant and a fine, age
    68.  The UPI specialist only sees the urgency word "now"; the
    impersonation specialist reaches the cap, the verdict is CRITICAL, and
    the first recommendation is the elder-specific one. *)
Example scenario_fake_cbi_call (py_float : string -> float)
  (timestamp : string) :
  let content :=
    "This is CBI. There is a warrant against you, pay Rs 1,50,000 fine now. Do not disconnect" in
  let r := fst (analyze py_float [] (mkStats 0 0 0) content 68 timestamp) in
  _route_to_agents content = ["upi"; "impersonation"]
  /\ map risk_score (pr_agent_findings r) = [Some 0.05%float; Some 1%float]
  /\ pr_threat_level r = CRITICAL
  /\ pr_primary_threat r = Some "impersonation_agent"
  /\ hd_error (pr_recommendations r) = Some elder_rec
  /\ length (pr_recommendations r) = 6.
Proof.
  vm_compute. repeat split.
Qed.

(** Scenario C: a loan text with a floating rate, a foreclosure charge, a
    processing fee and 18% p.a.  Three table rows match and the rate is
    above 15, so four issues are found and the risk is [min(4 * 0.2, 1.0)]. *)
Example scenario_loan_document (py_float : string -> float) :
  py_float "18" = 18%float ->
  let content :=
    "Floating rate loan. Foreclosure charge applies. Processing fee extra. Interest 18% p.a." in
  let f := DocumentAnalystAgent.analyze py_float content "loan" in
  evidence f
  = ["floating_rate"; "foreclosure_penalty"; "hidden_fees"; "High Interest Rate"]
  /\ risk_score f = Some (py_min (of_nat 4 * 0.2) 1)%float
  /\ risk_score f = Some 0.8%float.
Proof.
  intros H. cbn zeta.
  unfold DocumentAnalystAgent.analyze, DocumentAnalystAgent.analyze_lower,
    DocumentAnalystAgent.found_issues, DocumentAnalystAgent.interest_rate.
  replace (Re.rate_group _) with (Some "18") by (vm_compute; reflexivity).
  cbn [option_map]. rewrite H. vm_compute. repeat split.
Qed.

(* ================================================================== *)
(** * Further properties of the program *)

(** ** More order facts on binary64 numbers *)

Module FloatOrder.
Import FloatFacts.
Local Open Scope float_scope.

Lemma leb_ltb_false (x y : float) : (x <=? y) = true -> (y <? x) = false.
Proof.
  rewrite FloatAxioms.leb_spec, FloatAxioms.ltb_spec. unfold SFleb, SFltb.
  rewrite (SFcompare_antisym (Prim2SF x) (Prim2SF y)).
  destruct (SFcompare (Prim2SF x) (Prim2SF y)) as [[ | | ]|];
    simpl; congruence.
Qed.

Lemma ltb_not_nan_l (x y : float) : (x <? y) = true -> is_nan x = false.
Proof. intros H. eapply leb_not_nan_l. apply ltb_leb. exact H. Qed.

Lemma ltb_leb_trans (a b c : float) :
  (a <? b) = true -> (b <=? c) = true -> (a <? c) = true.
Proof.
  intros Hab Hbc. destruct (a <? c) eqn:E; [reflexivity|].
  assert (Hca : (c <=? a) = true).
  { apply ltb_false_leb; [eapply ltb_not_nan_l; eauto | | exact E].
    eapply leb_not_nan_r; eauto. }
  pose proof (leb_trans _ _ _ Hbc Hca) as Hba.
  apply leb_ltb_false in Hba. congruence.
Qed.

Lemma leb_ltb_trans (a b c : float) :
  (a <=? b) = true -> (b <? c) = true -> (a <? c) = true.
Proof.
  intros Hab Hbc. destruct (a <? c) eqn:E; [reflexivity|].
  assert (Hca : (c <=? a) = true).
  { apply ltb_false_leb; [eapply leb_not_nan_l; eauto | | exact E].
    eapply leb_not_nan_r. apply ltb_leb. eauto. }
  pose proof (leb_trans _ _ _ Hca Hab) as Hcb.
  apply leb_ltb_false in Hcb. congruence.
Qed.

(** Two numbers that compare equal compare alike with any third. *)
Lemma eqb_leb_compat (x y c : float) :
  (x =? y) = true -> (c <=? x) = (c <=? y).
Proof.
  intros E. pose proof (eqb_leb _ _ E) as Hxy.
  rewrite eqb_sym in E. pose proof (eqb_leb _ _ E) as Hyx.
  destruct (c <=? x) eqn:Hx, (c <=? y) eqn:Hy; try reflexivity.
  - rewrite (leb_trans _ _ _ Hx Hxy) in Hy. discriminate.
  - rewrite (leb_trans _ _ _ Hy Hyx) in Hx. discriminate.
Qed.

Lemma eqb_ltb_compat (x y c : float) :
  (x =? y) = true -> (c <? x) = (c <? y).
Proof.
  intros E. pose proof (eqb_leb _ _ E) as Hxy.
  rewrite eqb_sym in E. pose proof (eqb_leb _ _ E) as Hyx.
  destruct (c <? x) eqn:Hx, (c <? y) eqn:Hy; try reflexivity.
  - rewrite (ltb_leb_trans _ _ _ Hx Hxy) in Hy. discriminate.
  - rewrite (ltb_leb_trans _ _ _ Hy Hyx) in Hx. discriminate.
Qed.

End FloatOrder.

(* ================================================================== *)
(** ** Routing *)

(** X1.  The routing never returns an empty list.  The list has no
    duplicates, follows the fixed order upi, phishing, impersonation,
    document, investment, and names registered specialists only.  A
    specialist whose trigger words occur in the content is always consulted;
    one whose trigger words do not occur is consulted only as part of the
    default trio, when no trigger word occurs at all. *)
Theorem route_to_agents_well_formed (py_float : string -> float)
  (content : string) :
  let agents := _route_to_agents content in
  let fires key := any_in (triggers key) (lower content) in
  agents <> []
  /\ NoDup agents
  /\ subsequence agents specialist_keys = true
  /\ (forall key, In key agents -> specialist py_float key <> None)
  /\ (forall key, In key specialist_keys -> fires key = true -> In key agents)
  /\ (forall key, In key agents ->
        fires key = true
        \/ (agents = default_agents
            /\ forall k, In k specialist_keys -> fires k = false)).
Proof.
  cbn zeta. unfold _route_to_agents.
  assert (Hu : any_in (triggers "upi") (lower content)
               = any_in upi_triggers (lower content)) by reflexivity.
  assert (Hp : any_in (triggers "phishing") (lower content)
               = any_in phishing_triggers (lower content)) by reflexivity.
  assert (Hi : any_in (triggers "impersonation") (lower content)
               = any_in impersonation_triggers (lower content)) by reflexivity.
  assert (Hd : any_in (triggers "document") (lower content)
               = any_in document_triggers (lower content)) by reflexivity.
  assert (Hv : any_in (triggers "investment") (lower content)
               = any_in investment_triggers (lower content)) by reflexivity.
  destruct (any_in upi_triggers (lower content)),
           (any_in phishing_triggers (lower content)),
           (any_in impersonation_triggers (lower content)),
           (any_in document_triggers (lower content)),
           (any_in investment_triggers (lower content));
    cbn [app];
    (split; [discriminate|]);
    (split; [repeat constructor; simpl; intuition discriminate|]);
    (split; [reflexivity|]);
    (split; [intros key Hin; simpl in Hin;
             repeat (destruct Hin as [<- | Hin]; [discriminate|]);
             destruct Hin|]);
    (split;
     [intros key Hin Hf; simpl in Hin;
      repeat (destruct Hin as [<- | Hin];
              [first [ now (simpl; auto 6)
                     | congruence ]|]);
      destruct Hin
     |intros key Hin; simpl in Hin;
      repeat (destruct Hin as [<- | Hin];
              [first [ left; assumption
                     | right; split; [reflexivity|];
                       intros k Hk; simpl in Hk;
                       repeat (destruct Hk as [<- | Hk]; [assumption|]);
                       destruct Hk ]|]);
      destruct Hin]).
Qed.

(* ================================================================== *)
(** ** The findings behind a verdict *)

Module OrchestratorFacts.
Import FloatFacts.
Local Open Scope float_scope.

Lemma upi_agent (content : string) :
  agent (UPIFraudAgent.analyze content) = Some UPIFraudAgent.agent_id.
Proof.
  unfold UPIFraudAgent.analyze, UPIFraudAgent.analyze_lower.
  destruct (UPIFraudAgent.scan_patterns _) as [[d m] f]. reflexivity.
Qed.

Lemma phishing_agent (content : string) :
  agent (PhishingAgent.analyze content) = Some PhishingAgent.agent_id.
Proof.
  unfold PhishingAgent.analyze, PhishingAgent.analyze_lower.
  destruct (PhishingAgent.kyc_check _ _). reflexivity.
Qed.

Lemma specialist_finding_ok (py_float : string -> float) (key : string)
  (analyze : string -> Finding) (content : string) :
  specialist py_float key = Some analyze -> finding_ok (analyze content).
Proof.
  unfold specialist, finding_ok, specialist_agent_ids.
  destruct (String.eqb key "upi").
  { intros E; inversion E; subst. split.
    - eexists. split; [apply upi_agent | simpl; auto].
    - apply RangeFacts.upi_risk_unit. }
  destruct (String.eqb key "phishing").
  { intros E; inversion E; subst. split.
    - eexists. split; [apply phishing_agent | simpl; auto].
    - apply RangeFacts.phishing_risk_unit. }
  destruct (String.eqb key "impersonation").
  { intros E; inversion E; subst. split.
    - eexists. split; [reflexivity | simpl; auto].
    - apply RangeFacts.impersonation_risk_unit. }
  destruct (String.eqb key "document").
  { intros E; inversion E; subst. split.
    - eexists. split; [reflexivity | simpl; auto 6].
    - apply RangeFacts.document_risk_unit. }
  destruct (String.eqb key "investment"); [|discriminate].
  intros E; inversion E; subst. split.
  - eexists. split; [reflexivity | simpl; auto 6].
  - apply RangeFacts.investment_risk_unit.
Qed.

(** Every key the routing returns is a key of [self.specialists]. *)
Lemma route_keys_known (py_float : string -> float) (content : string) :
  forall key, In key (_route_to_agents content) ->
              specialist py_float key <> None.
Proof.
  unfold _route_to_agents.
  destruct (any_in upi_triggers (lower content)),
           (any_in phishing_triggers (lower content)),
           (any_in impersonation_triggers (lower content)),
           (any_in document_triggers (lower content)),
           (any_in investment_triggers (lower content));
    cbn [app]; intros key Hin; simpl in Hin;
    repeat (destruct Hin as [<- | Hin]; [discriminate|]);
    destruct Hin.
Qed.

Lemma route_length (content : string) :
  (1 <= length (_route_to_agents content) <= 5)%nat.
Proof.
  unfold _route_to_agents.
  destruct (any_in upi_triggers (lower content)),
           (any_in phishing_triggers (lower content)),
           (any_in impersonation_triggers (lower content)),
           (any_in document_triggers (lower content)),
           (any_in investment_triggers (lower content)); simpl; lia.
Qed.

Lemma run_agents_ok (py_float : string -> float) (content : string)
  (keys : list string) :
  Forall finding_ok (run_agents py_float keys content).
Proof.
  unfold run_agents. induction keys as [|key keys IH]; simpl.
  - constructor.
  - destruct (specialist py_float key) as [analyze|] eqn:E; simpl.
    + constructor; [|exact IH]. eapply specialist_finding_ok; eauto.
    + exact IH.
Qed.

Lemma run_agents_length (py_float : string -> float) (content : string)
  (keys : list string) :
  (forall key, In key keys -> specialist py_float key <> None) ->
  length (run_agents py_float keys content) = length keys.
Proof.
  unfold run_agents. induction keys as [|key keys IH]; intros H; simpl.
  - reflexivity.
  - destruct (specialist py_float key) as [analyze|] eqn:E.
    + simpl. f_equal. apply IH. intros k Hk. apply H. now right.
    + exfalso. apply (H key); [now left | exact E].
Qed.

Lemma finding_ok_risk (f : Finding) :
  finding_ok f -> in_unit (get_risk f).
Proof.
  intros (_ & r & Hr & Hu). unfold get_risk. now rewrite Hr.
Qed.

(** The aggregated risk of findings of the unit interval lies in it. *)
Lemma aggregate_risk_unit (results : list Finding) :
  Forall finding_ok results ->
  in_unit (a_risk_score (_aggregate_results results)).
Proof.
  intros Hall. destruct results as [|r0 rest].
  - split; reflexivity.
  - cbn [_aggregate_results a_risk_score]. unfold py_max_iter.
    rewrite Forall_forall in Hall.
    destruct (ScanFacts.fold_max_in (map get_risk rest) (get_risk r0))
      as [-> | Hin].
    + apply finding_ok_risk, Hall. now left.
    + apply in_map_iff in Hin. destruct Hin as (r & <- & Hr).
      apply finding_ok_risk, Hall. now right.
Qed.

End OrchestratorFacts.

(** X2.  Whatever the content, the risk score of the verdict lies in [0, 1]
    (it is never NaN), and the verdict holds one finding for every
    specialist the routing selected, at least one. *)
Theorem analyze_risk_in_unit (py_float : string -> float)
  (trajectories : list Trajectory) (stats : Stats)
  (content : string) (user_age : Z) (now : string) :
  let r := fst (analyze py_float trajectories stats content user_age now) in
  in_unit (pr_risk_score r)
  /\ is_nan (pr_risk_score r) = false
  /\ length (pr_agent_findings r) = length (_route_to_agents content)
  /\ (1 <= length (pr_agent_findings r) <= 5)%nat.
Proof.
  cbn zeta. unfold analyze.
  destruct (_generate_summaries _ _) as [summary hindi].
  cbn [fst pr_risk_score pr_agent_findings].
  assert (Hu : in_unit
                 (a_risk_score
                    (_aggregate_results
                       (run_agents py_float (_route_to_agents content)
                          content)))).
  { apply OrchestratorFacts.aggregate_risk_unit,
      OrchestratorFacts.run_agents_ok. }
  assert (Hl : length (run_agents py_float (_route_to_agents content) content)
               = length (_route_to_agents content)).
  { apply OrchestratorFacts.run_agents_length,
      OrchestratorFacts.route_keys_known. }
  split; [exact Hu|]. split; [now apply FloatFacts.in_unit_not_nan|].
  split; [exact Hl|]. rewrite Hl. apply OrchestratorFacts.route_length.
Qed.

Module VerdictFacts.
Import FloatFacts FloatOrder OrchestratorFacts.
Local Open Scope float_scope.

(** The aggregated score of a non-empty list of numbers is the score of one
    of the findings, and no finding has a higher one. *)
Lemma aggregate_risk_max (results : list Finding) :
  results <> [] -> scores_are_numbers results ->
  (exists r, In r results
             /\ a_risk_score (_aggregate_results results) = get_risk r)
  /\ (forall r, In r results ->
                (get_risk r <=? a_risk_score (_aggregate_results results))
                = true).
Proof.
  intros Hne Hnum. destruct results as [|r0 rest]; [congruence|].
  cbn [_aggregate_results a_risk_score].
  destruct (AggregateFacts.py_max_iter_spec (map get_risk rest) (get_risk r0))
    as (Hin & Hle & Hub).
  { apply Hnum. now left. }
  { intros y Hy. apply in_map_iff in Hy. destruct Hy as (r & <- & Hr).
    apply Hnum. now right. }
  split.
  - destruct Hin as [E | Hin].
    + exists r0. split; [now left | exact E].
    + apply in_map_iff in Hin. destruct Hin as (r & E & Hr).
      exists r. split; [now right | now symmetry].
  - intros r [<- | Hr]; [exact Hle|]. apply Hub. now apply in_map.
Qed.

Lemma aggregate_tier_band (results : list Finding) :
  a_threat_level (_aggregate_results results)
  = orchestrator_band (a_risk_score (_aggregate_results results)).
Proof. destruct results; reflexivity. Qed.

(** The band table is monotone. *)
Lemma orchestrator_band_monotone (s s' : float) :
  (s <=? s') = true ->
  (tier_rank (orchestrator_band s) <= tier_rank (orchestrator_band s'))%nat.
Proof.
  intros H. unfold orchestrator_band.
  assert (H9 : (0.9 <=? s) = true -> (0.9 <=? s') = true)
    by (intros; eapply leb_trans; eauto).
  assert (H7 : (0.7 <=? s) = true -> (0.7 <=? s') = true)
    by (intros; eapply leb_trans; eauto).
  assert (H4 : (0.4 <=? s) = true -> (0.4 <=? s') = true)
    by (intros; eapply leb_trans; eauto).
  assert (H1 : (0.1 <? s) = true -> (0.1 <? s') = true)
    by (intros; eapply ltb_leb_trans; eauto).
  destruct (0.9 <=? s); [rewrite H9 by reflexivity; simpl; lia|].
  destruct (0.7 <=? s);
    [rewrite H7 by reflexivity; destruct (0.9 <=? s'); simpl; lia|].
  destruct (0.4 <=? s);
    [rewrite H4 by reflexivity;
     destruct (0.9 <=? s'), (0.7 <=? s'); simpl; lia|].
  destruct (0.1 <? s);
    [rewrite H1 by reflexivity;
     destruct (0.9 <=? s'), (0.7 <=? s'), (0.4 <=? s'); simpl; lia|].
  simpl. lia.
Qed.

Lemma tier_rank_inj (a b : ThreatLevel) : tier_rank a = tier_rank b -> a = b.
Proof. destruct a, b; simpl; congruence. Qed.

End VerdictFacts.

(** X3.  The primary threat of a verdict is always the agent id of one of the
    findings of that verdict, one of the five specialists, and that finding's
    risk score equals the verdict's: [primary_threat] is never missing and
    never "unknown". *)
Theorem analyze_primary_threat (py_float : string -> float)
  (trajectories : list Trajectory) (stats : Stats)
  (content : string) (user_age : Z) (now : string) :
  let r := fst (analyze py_float trajectories stats content user_age now) in
  exists f a,
    In f (pr_agent_findings r)
    /\ agent f = Some a
    /\ pr_primary_threat r = Some a
    /\ In a specialist_agent_ids
    /\ (get_risk f =? pr_risk_score r)%float = true.
Proof.
  cbn zeta. unfold analyze.
  destruct (_generate_summaries _ _) as [summary hindi].
  cbn [fst pr_risk_score pr_agent_findings pr_primary_threat].
  set (results := run_agents py_float (_route_to_agents content) content).
  assert (Hok : Forall finding_ok results)
    by apply OrchestratorFacts.run_agents_ok.
  rewrite Forall_forall in Hok.
  assert (Hne : results <> []).
  { intros E. apply (f_equal (@length _)) in E. unfold results in E.
    rewrite OrchestratorFacts.run_agents_length in E
      by apply OrchestratorFacts.route_keys_known.
    pose proof (OrchestratorFacts.route_length content). simpl in E. lia. }
  assert (Hnum : scores_are_numbers results).
  { intros r Hr. apply FloatFacts.in_unit_not_nan.
    apply OrchestratorFacts.finding_ok_risk. now apply Hok. }
  destruct (VerdictFacts.aggregate_risk_max results Hne Hnum)
    as ((r & Hr & Em) & _).
  destruct (AggregateFacts.first_at_spec
              (a_risk_score (_aggregate_results results)) results)
    as (i & r1 & Hnth & Hr1 & _ & Hfirst).
  { exists r. split; [exact Hr|]. rewrite Em. apply FloatFacts.eqb_refl.
    now apply Hnum. }
  assert (Hin1 : In r1 results) by (eapply nth_error_In; eauto).
  destruct (Hok r1 Hin1) as ((a & Ha & Hids) & _).
  exists r1, a. split; [exact Hin1|]. split; [exact Ha|].
  split; [|split; [exact Hids | exact Hr1]].
  destruct results as [|r0 rest]; [congruence|].
  cbn [_aggregate_results a_primary_threat].
  cbn [_aggregate_results a_risk_score] in Hfirst.
  rewrite Hfirst. unfold get_agent. now rewrite Ha.
Qed.

(* ================================================================== *)
(** ** Statistics *)

(** X4.  [analyze] only ever adds to the counters: one analysis each time,
    one detected threat exactly when the verdict is HIGH or CRITICAL, one
    critical block exactly when it is CRITICAL.  So counters that are nested
    (critical blocks within detected threats within analyses) stay nested. *)
Theorem analyze_updates_stats (py_float : string -> float)
  (trajectories : list Trajectory) (stats : Stats)
  (content : string) (user_age : Z) (now : string) :
  let r := fst (analyze py_float trajectories stats content user_age now) in
  let stats' := snd (analyze py_float trajectories stats content user_age now) in
  total_analyses stats' = total_analyses stats + 1
  /\ threats_detected stats'
     = threats_detected stats
       + (if (3 <=? tier_rank (pr_threat_level r))%nat then 1 else 0)
  /\ critical_blocks stats'
     = critical_blocks stats + (if pr_emergency_action r then 1 else 0)
  /\ (stats_nested stats -> stats_nested stats').
Proof.
  cbn zeta. unfold analyze, stats_nested.
  destruct (_generate_summaries _ _) as [summary hindi].
  cbn [fst snd pr_threat_level pr_emergency_action].
  destruct (a_threat_level _); cbn; repeat split; lia.
Qed.

(* ================================================================== *)
(** ** Aggregation: more findings, other orders *)

(** X5.  Consulting more specialists never lowers the verdict: when every
    finding of one list also occurs in a second list of numeric scores, the
    tier aggregated from the first is at most the tier aggregated from the
    second, and so is the risk score (for a non-empty first list). *)
Theorem aggregate_results_monotone (results more : list Finding) :
  scores_are_numbers more ->
  incl results more ->
  (tier_rank (a_threat_level (_aggregate_results results))
   <= tier_rank (a_threat_level (_aggregate_results more)))%nat
  /\ (results <> [] ->
      (a_risk_score (_aggregate_results results)
       <=? a_risk_score (_aggregate_results more))%float = true).
Proof.
  intros Hnum Hincl.
  destruct results as [|r0 rest].
  { split; [simpl; lia | congruence]. }
  assert (Hne : r0 :: rest <> []) by discriminate.
  assert (Hne' : more <> []).
  { intros ->. apply (Hincl r0). now left. }
  assert (Hnum1 : scores_are_numbers (r0 :: rest)).
  { intros r Hr. apply Hnum, Hincl, Hr. }
  destruct (VerdictFacts.aggregate_risk_max _ Hne Hnum1) as ((r & Hr & E) & _).
  destruct (VerdictFacts.aggregate_risk_max _ Hne' Hnum) as (_ & Hub).
  assert (Hle : (a_risk_score (_aggregate_results (r0 :: rest))
                 <=? a_risk_score (_aggregate_results more))%float = true).
  { rewrite E. apply Hub, Hincl, Hr. }
  split; [|intros _; exact Hle].
  rewrite !VerdictFacts.aggregate_tier_band.
  now apply VerdictFacts.orchestrator_band_monotone.
Qed.

Lemma aggregate_results_monotone_witness :
  a_threat_level (_aggregate_results sample_part) = MEDIUM
  /\ a_threat_level (_aggregate_results sample_mixed) = CRITICAL
  /\ (tier_rank (a_threat_level (_aggregate_results sample_part))
      <= tier_rank (a_threat_level (_aggregate_results sample_mixed)))%nat
  /\ (sample_part <> [] ->
      (a_risk_score (_aggregate_results sample_part)
       <=? a_risk_score (_aggregate_results sample_mixed))%float = true).
Proof.
  split; [reflexivity|]. split; [reflexivity|].
  apply (aggregate_results_monotone sample_part sample_mixed).
  - intros r [<- | [<- | [<- | []]]]; reflexivity.
  - intros r [<- | [<- | []]]; simpl; auto.
Defined.

(** X6.  The tier and the risk score of the verdict do not depend on the
    order of the findings, nor on a finding being listed twice: two lists of
    numeric scores with the same elements aggregate to the same tier and to
    equal risk scores.  (The primary threat does depend on the order.) *)
Theorem aggregate_results_order_independent (results results' : list Finding) :
  scores_are_numbers results ->
  incl results results' -> incl results' results ->
  a_threat_level (_aggregate_results results)
  = a_threat_level (_aggregate_results results')
  /\ (a_risk_score (_aggregate_results results)
      =? a_risk_score (_aggregate_results results'))%float = true.
Proof.
  intros Hnum H12 H21.
  assert (Hnum' : scores_are_numbers results').
  { intros r Hr. apply Hnum, H21, Hr. }
  destruct results as [|r0 rest].
  { destruct results' as [|r0' rest']; [split; reflexivity|].
    destruct (H21 r0'). now left. }
  assert (Hne : r0 :: rest <> []) by discriminate.
  assert (Hne' : results' <> []).
  { intros ->. apply (H12 r0). now left. }
  destruct (VerdictFacts.aggregate_risk_max _ Hne Hnum) as ((r & Hr & E) & Hub).
  destruct (VerdictFacts.aggregate_risk_max _ Hne' Hnum')
    as ((r' & Hr' & E') & Hub').
  assert (Heq : (a_risk_score (_aggregate_results (r0 :: rest))
                 =? a_risk_score (_aggregate_results results'))%float = true).
  { apply FloatFacts.leb_antisym.
    - rewrite E. apply Hub', H12, Hr.
    - rewrite E'. apply Hub, H21, Hr'. }
  split; [|exact Heq].
  rewrite !VerdictFacts.aggregate_tier_band. unfold orchestrator_band.
  rewrite !(FloatOrder.eqb_leb_compat _ _ _ Heq),
          (FloatOrder.eqb_ltb_compat _ _ _ Heq).
  reflexivity.
Qed.

Lemma aggregate_results_order_independent_witness :
  a_primary_threat (_aggregate_results sample_mixed) = Some "phishing_agent"
  /\ a_threat_level (_aggregate_results sample_mixed)
     = a_threat_level (_aggregate_results sample_shuffled)
  /\ (a_risk_score (_aggregate_results sample_mixed)
      =? a_risk_score (_aggregate_results sample_shuffled))%float = true.
Proof.
  split; [reflexivity|].
  apply (aggregate_results_order_independent sample_mixed sample_shuffled).
  - intros r [<- | [<- | [<- | []]]]; reflexivity.
  - intros r [<- | [<- | [<- | []]]]; simpl; auto.
  - intros r [<- | [<- | [<- | [<- | []]]]]; simpl; auto.
Defined.

(* ================================================================== *)
(** ** Letter case *)

Module CaseFacts.

Lemma lower_ascii_idempotent (c : ascii) :
  lower_ascii (lower_ascii c) = lower_ascii c.
Proof.
  destruct c as [[] [] [] [] [] [] [] []]; reflexivity.
Qed.

Lemma lower_upper_ascii (c : ascii) :
  lower_ascii (upper_ascii c) = lower_ascii c.
Proof.
  destruct c as [[] [] [] [] [] [] [] []]; reflexivity.
Qed.

Lemma lower_idempotent (s : string) : lower (lower s) = lower s.
Proof.
  induction s as [|c s IH]; simpl; [reflexivity|].
  now rewrite lower_ascii_idempotent, IH.
Qed.

Lemma lower_upper (s : string) : lower (upper s) = lower s.
Proof.
  induction s as [|c s IH]; simpl; [reflexivity|].
  now rewrite lower_upper_ascii, IH.
Qed.

(** A specialist reads the content through its lower-case form only. *)
Lemma specialist_reads_lower (py_float : string -> float) (key : string)
  (analyze : string -> Finding) (c1 c2 : string) :
  lower c1 = lower c2 ->
  specialist py_float key = Some analyze -> analyze c1 = analyze c2.
Proof.
  intros H. unfold specialist.
  destruct (String.eqb key "upi").
  { intros E; inversion E; subst. unfold UPIFraudAgent.analyze.
    now rewrite H. }
  destruct (String.eqb key "phishing").
  { intros E; inversion E; subst. unfold PhishingAgent.analyze.
    now rewrite H. }
  destruct (String.eqb key "impersonation").
  { intros E; inversion E; subst. unfold ImpersonationAgent.analyze.
    now rewrite H. }
  destruct (String.eqb key "document").
  { intros E; inversion E; subst. unfold DocumentAnalystAgent.analyze.
    now rewrite H. }
  destruct (String.eqb key "investment"); [|discriminate].
  intros E; inversion E; subst. unfold InvestmentFraudAgent.analyze.
  now rewrite H.
Qed.

Lemma run_agents_reads_lower (py_float : string -> float)
  (keys : list string) (c1 c2 : string) :
  lower c1 = lower c2 ->
  run_agents py_float keys c1 = run_agents py_float keys c2.
Proof.
  intros H. unfold run_agents.
  induction keys as [|key keys IH]; simpl; [reflexivity|].
  rewrite IH. destruct (specialist py_float key) as [analyze|] eqn:E;
    [|reflexivity].
  now rewrite (specialist_reads_lower py_float key analyze c1 c2 H E).
Qed.

Lemma analyze_reads_lower (py_float : string -> float)
  (trajectories : list Trajectory) (stats : Stats)
  (c1 c2 : string) (user_age : Z) (now : string) :
  lower c1 = lower c2 ->
  analyze py_float trajectories stats c1 user_age now
  = analyze py_float trajectories stats c2 user_age now.
Proof.
  intros H. unfold analyze.
  assert (Hr : _route_to_agents c1 = _route_to_agents c2)
    by (unfold _route_to_agents; now rewrite H).
  rewrite Hr, (run_agents_reads_lower py_float _ c1 c2 H).
  unfold _match_trajectory. now rewrite H.
Qed.

Lemma lower_is_ascii (s : string) : is_ascii s = true -> is_ascii (lower s) = true.
Proof.
  induction s as [|c s IH]; [reflexivity|].
  cbn [is_ascii lower]. rewrite !andb_true_iff.
  intros (Hc & Hs). split; [|now apply IH].
  apply Nat.ltb_lt in Hc. apply Nat.ltb_lt.
  rewrite TrajectoryFacts.lower_ascii_code. cbv zeta.
  destruct (Nat.leb_spec 65 (nat_of_ascii c)); [|exact Hc].
  destruct (Nat.leb_spec (nat_of_ascii c) 90); cbn [andb]; lia.
Qed.

Lemma upper_is_ascii (s : string) : is_ascii s = true -> is_ascii (upper s) = true.
Proof.
  induction s as [|c s IH]; [reflexivity|].
  cbn [is_ascii upper]. rewrite !andb_true_iff.
  intros (Hc & Hs). split; [|now apply IH].
  apply Nat.ltb_lt in Hc. apply Nat.ltb_lt. unfold upper_ascii.
  destruct (Nat.leb_spec 97 (nat_of_ascii c)); [|exact Hc].
  destruct (Nat.leb_spec (nat_of_ascii c) 122); cbn [andb]; [|exact Hc].
  rewrite nat_ascii_embedding; lia.
Qed.

End CaseFacts.

(** X7.  On ASCII text the analysis is blind to letter case: for an ASCII
    content and a library of ASCII red flags, writing the content in upper
    case or in lower case changes neither the verdict nor the statistics,
    and any ASCII content with the same lower-case form is analysed
    alike.  (Outside ASCII the case mapping of the program does more than
    the model's, and nothing is stated.) *)
Theorem analyze_case_insensitive (py_float : string -> float)
  (trajectories : list Trajectory) (stats : Stats)
  (content : string) (user_age : Z) (now : string)
  (Hcontent : is_ascii content = true)
  (Hlibrary : ascii_library trajectories = true) :
  is_ascii (upper content) = true
  /\ is_ascii (lower content) = true
  /\ analyze py_float trajectories stats (upper content) user_age now
     = analyze py_float trajectories stats content user_age now
  /\ analyze py_float trajectories stats (lower content) user_age now
     = analyze py_float trajectories stats content user_age now
  /\ (forall other,
        is_ascii other = true ->
        lower other = lower content ->
        analyze py_float trajectories stats other user_age now
        = analyze py_float trajectories stats content user_age now).
Proof.
  split; [now apply CaseFacts.upper_is_ascii|].
  split; [now apply CaseFacts.lower_is_ascii|].
  split; [|split].
  - apply CaseFacts.analyze_reads_lower, CaseFacts.lower_upper.
  - apply CaseFacts.analyze_reads_lower, CaseFacts.lower_idempotent.
  - intros other _ H. now apply CaseFacts.analyze_reads_lower.
Qed.

Lemma analyze_case_insensitive_witness :
  let run content :=
    analyze (fun _ => 18%float) sample_trajectories (mkStats 0 0 0) content 45
      "2024-01-01T00:00:00" in
  upper "Pay the Fine, there is a Warrant" = "PAY THE FINE, THERE IS A WARRANT"
  /\ pr_threat_level (fst (run "Pay the Fine, there is a Warrant")) = CRITICAL
  /\ is_ascii (upper "Pay the Fine, there is a Warrant") = true
  /\ is_ascii (lower "Pay the Fine, there is a Warrant") = true
  /\ run (upper "Pay the Fine, there is a Warrant")
     = run "Pay the Fine, there is a Warrant"
  /\ run (lower "Pay the Fine, there is a Warrant")
     = run "Pay the Fine, there is a Warrant"
  /\ (forall other,
        is_ascii other = true ->
        lower other = lower "Pay the Fine, there is a Warrant" ->
        run other = run "Pay the Fine, there is a Warrant").
Proof.
  split; [reflexivity|]. split; [vm_compute; reflexivity|].
  apply (analyze_case_insensitive (fun _ => 18%float) sample_trajectories
           (mkStats 0 0 0) "Pay the Fine, there is a Warrant" 45
           "2024-01-01T00:00:00"); reflexivity.
Defined.

(* ================================================================== *)
(** ** Trajectory matching: what can be matched *)

(** X8.  A matched trajectory is always an entry of the library, and at
    least two of the red flags it lists occur in the content: an entry that
    lists fewer than two red flags (or none) is never matched, and an empty
    library matches nothing.  The aggregated result passed in is not
    read. *)
Theorem match_trajectory_from_library (trajectories : list Trajectory)
  (content : string) (aggregated aggregated' : Aggregated) :
  _match_trajectory trajectories content aggregated
  = _match_trajectory trajectories content aggregated'
  /\ (trajectories = [] ->
      _match_trajectory trajectories content aggregated = None)
  /\ (forall t,
        _match_trajectory trajectories content aggregated = Some t ->
        In t trajectories
        /\ exists flags,
             t_red_flags t = Some flags
             /\ 2 <= red_flag_matches (lower content) t <= length flags).
Proof.
  split; [reflexivity|]. split; [intros ->; reflexivity|].
  intros t. unfold _match_trajectory.
  pose proof (TrajectoryFacts.match_loop_invariant (lower content)
                trajectories) as H.
  destruct (fold_left (match_step (lower content)) trajectories (None, 0))
    as [best score].
  unfold best_so_far in H. simpl in H.
  destruct (Nat.leb_spec 2 score) as [Hge | Hlt]; [|discriminate].
  intros ->. destruct H as (-> & _ & i & Hnth & _).
  split; [eapply nth_error_In; eauto|].
  unfold red_flag_matches in *.
  destruct (t_red_flags t) as [flags|].
  - exists flags. split; [reflexivity|]. split; [exact Hge|].
    apply filter_length_le.
  - simpl in Hge. lia.
Qed.

(* ================================================================== *)
(** ** The specialists: what their tiers and flags mean *)

Module SpecialistFacts.
Import FloatFacts FloatOrder ScanFacts.
Local Open Scope float_scope.

Lemma agent_entry_matched_scores (content_lower : string)
  (p : UPIFraudAgent.Pattern) (d : UPIFraudAgent.Detected) :
  In p UPIFraudAgent.patterns -> In d (agent_entry content_lower p) ->
  In (UPIFraudAgent.d_risk d) agent_matched_scores.
Proof.
  intros Hp Hin. unfold agent_entry in Hin.
  destruct (Nat.ltb_spec 0 (count_hits (UPIFraudAgent.keywords p) content_lower))
    as [Hk|]; [|destruct Hin].
  destruct (Nat.ltb_spec 0
              (count_hits (UPIFraudAgent.indicators p) content_lower))
    as [Hi|]; [|destruct Hin].
  destruct Hin as [<- | []]. cbn [UPIFraudAgent.d_risk].
  unfold agent_matched_scores. apply in_flat_map. exists p. split; [exact Hp|].
  apply in_flat_map.
  exists (count_hits (UPIFraudAgent.keywords p) content_lower). split.
  { apply in_seq.
    pose proof (count_hits_le (UPIFraudAgent.keywords p) content_lower). lia. }
  apply in_map_iff.
  exists (count_hits (UPIFraudAgent.indicators p) content_lower). split.
  { reflexivity. }
  apply in_seq.
  pose proof (count_hits_le (UPIFraudAgent.indicators p) content_lower). lia.
Qed.

(** A matched score, amplified by any number of urgency words, is at least
    0.88 and rated HIGH or CRITICAL. *)
Lemma matched_scores_checked :
  forallb
    (fun r =>
       (0.88 <=? r)
       && forallb
            (fun u =>
               (0.88 <=? UPIFraudAgent.amplify r u)
               && (3 <=? tier_rank
                           (UPIFraudAgent.level_of (UPIFraudAgent.amplify r u)))%nat)
            (seq 0 (S (length UPIFraudAgent.urgency_words))))
    agent_matched_scores = true.
Proof. vm_compute. reflexivity. Qed.

(** Without a matched pattern the urgency words alone give at most 0.4:
    LOW or MEDIUM. *)
Lemma urgency_only_checked :
  forallb
    (fun u =>
       (UPIFraudAgent.amplify 0 u <=? 0.4)
       && (tier_rank (UPIFraudAgent.level_of (UPIFraudAgent.amplify 0 u)) <=? 2)%nat
       && (1 <=? tier_rank
                   (UPIFraudAgent.level_of (UPIFraudAgent.amplify 0 u)))%nat)
    (seq 0 (S (length UPIFraudAgent.urgency_words))) = true.
Proof. vm_compute. reflexivity. Qed.

Lemma phishing_risks_checked :
  forallb (fun r => (0 <? r) && (0.8 <=? r))
    (0.85 :: map PhishingAgent.i_risk PhishingAgent.phishing_indicators) = true.
Proof. vm_compute. reflexivity. Qed.

Lemma phishing_scan_step_inv (content_lower : string)
  (st : list string * float) (ind : PhishingAgent.Indicator) :
  In ind PhishingAgent.phishing_indicators ->
  phishing_scan_inv st ->
  phishing_scan_inv (PhishingAgent.scan_step content_lower st ind).
Proof.
  intros Hind. destruct st as [detected max_risk].
  unfold PhishingAgent.scan_step, phishing_scan_inv.
  destruct (existsb _ _); [|auto].
  intros H. right. cbn [fst snd]. split; [now destruct detected|].
  assert (Hr : In (PhishingAgent.i_risk ind)
                 (map PhishingAgent.i_risk PhishingAgent.phishing_indicators))
    by now apply in_map.
  destruct H as [(_ & E) | (_ & Hin)]; cbn [snd] in *.
  - subst max_risk. unfold py_max.
    pose proof phishing_risks_checked as Hc. rewrite forallb_forall in Hc.
    specialize (Hc _ (or_intror Hr)). apply andb_true_iff in Hc.
    destruct Hc as (Hpos & _). now rewrite Hpos.
  - destruct (py_max_cases max_risk (PhishingAgent.i_risk ind))
      as [-> | ->]; assumption.
Qed.

Lemma phishing_scan_loop_inv (content_lower : string)
  (inds : list PhishingAgent.Indicator) : forall st,
  incl inds PhishingAgent.phishing_indicators ->
  phishing_scan_inv st ->
  phishing_scan_inv
    (fold_left (PhishingAgent.scan_step content_lower) inds st).
Proof.
  induction inds as [|ind inds IH]; intros st Hincl Hst; simpl; [exact Hst|].
  apply IH.
  - intros x Hx. apply Hincl. now right.
  - apply phishing_scan_step_inv; [apply Hincl; now left | exact Hst].
Qed.

End SpecialistFacts.

(** X9.  In the UPI specialist a matched pattern (a keyword and an indicator
    of the same pattern in the content) always gives a risk of at least 0.88
    and the tier HIGH or CRITICAL.  Without a matched pattern the risk comes
    from urgency words alone, is at most 0.4, and the tier is LOW or MEDIUM,
    never HIGH or CRITICAL. *)
Theorem upi_matched_pattern_is_high (content : string) :
  let f := UPIFraudAgent.analyze content in
  ((exists p, In p UPIFraudAgent.patterns /\ upi_matched (lower content) p) ->
   at_least_high (threat_level f)
   /\ exists r, risk_score f = Some r /\ (0.88 <=? r)%float = true)
  /\ ((forall p, In p UPIFraudAgent.patterns ->
                 ~ upi_matched (lower content) p) ->
      (threat_level f = Some LOW \/ threat_level f = Some MEDIUM)
      /\ exists r, risk_score f = Some r /\ (r <=? 0.4)%float = true).
Proof.
  cbn zeta. unfold UPIFraudAgent.analyze, UPIFraudAgent.analyze_lower,
    UPIFraudAgent.scan_patterns.
  rewrite ScanFacts.agent_scan_fold. cbn [app].
  set (detected := flat_map (agent_entry (lower content)) UPIFraudAgent.patterns).
  set (u := count_hits UPIFraudAgent.urgency_words (lower content)).
  assert (Hu : (u <= length UPIFraudAgent.urgency_words)%nat)
    by apply ScanFacts.count_hits_le.
  cbn [threat_level risk_score].
  split.
  - intros (p & Hp & Hk & Hi).
    assert (Hd : exists d, In d detected).
    { eexists. apply in_flat_map. exists p. split; [exact Hp|].
      unfold agent_entry. apply Nat.ltb_lt in Hk, Hi. rewrite Hk, Hi.
      now left. }
    destruct Hd as (d & Hd).
    assert (Hall : forall s, In s (map UPIFraudAgent.d_risk detected) ->
                             In s agent_matched_scores).
    { intros s Hs. apply in_map_iff in Hs. destruct Hs as (d' & <- & Hd').
      apply in_flat_map in Hd'. destruct Hd' as (p' & Hp' & Hd').
      eapply SpecialistFacts.agent_entry_matched_scores; eauto. }
    pose proof SpecialistFacts.matched_scores_checked as Hc.
    rewrite forallb_forall in Hc.
    assert (Hm : In (fold_left py_max (map UPIFraudAgent.d_risk detected) 0%float)
                   agent_matched_scores).
    { destruct (ScanFacts.fold_max_in (map UPIFraudAgent.d_risk detected)
                  0%float) as [E | Hin]; [|now apply Hall].
      exfalso.
      destruct (ScanFacts.fold_max_unit (map UPIFraudAgent.d_risk detected))
        as (Hub & _).
      { intros s Hs. apply in_map_iff in Hs. destruct Hs as (d' & <- & Hd').
        apply in_flat_map in Hd'. destruct Hd' as (p' & Hp' & Hd').
        eapply ScanFacts.agent_entry_unit; eauto. }
      assert (Hs : In (UPIFraudAgent.d_risk d)
                     (map UPIFraudAgent.d_risk detected)) by now apply in_map.
      specialize (Hub _ Hs). rewrite E in Hub.
      specialize (Hc _ (Hall _ Hs)). apply andb_true_iff in Hc.
      destruct Hc as (H88 & _).
      pose proof (FloatFacts.leb_trans _ _ _ H88 Hub) as Habs.
      vm_compute in Habs. discriminate Habs. }
    specialize (Hc _ Hm). apply andb_true_iff in Hc. destruct Hc as (_ & Hc).
    pose proof (ScanFacts.forallb_upto _ _ Hc u Hu) as Hcu. cbv beta in Hcu.
    apply andb_true_iff in Hcu. destruct Hcu as (H88 & Hrank).
    split; [|eexists; split; [reflexivity | exact H88]].
    apply Nat.leb_le in Hrank. unfold at_least_high.
    destruct (UPIFraudAgent.level_of _); simpl in Hrank; auto; lia.
  - intros Hnone.
    assert (Hd : detected = []).
    { unfold detected. clear - Hnone.
      induction UPIFraudAgent.patterns as [|p ps IH]; [reflexivity|].
      simpl. rewrite IH by (intros q Hq; apply Hnone; now right).
      rewrite app_nil_r. unfold agent_entry.
      destruct (Nat.ltb_spec 0
                  (count_hits (UPIFraudAgent.keywords p) (lower content)));
        [|reflexivity].
      destruct (Nat.ltb_spec 0
                  (count_hits (UPIFraudAgent.indicators p) (lower content)));
        [|reflexivity].
      exfalso. apply (Hnone p); [now left | now split]. }
    rewrite Hd. cbn [map fold_left].
    pose proof (ScanFacts.forallb_upto _ _ SpecialistFacts.urgency_only_checked
                  u Hu) as Hcu.
    cbv beta in Hcu. apply andb_true_iff in Hcu. destruct Hcu as (Hcu & Hlo).
    apply andb_true_iff in Hcu. destruct Hcu as (H04 & Hhi).
    split; [|eexists; split; [reflexivity | exact H04]].
    apply Nat.leb_le in Hhi, Hlo.
    destruct (UPIFraudAgent.level_of _); simpl in Hhi, Hlo; auto; lia.
Qed.

(** X10.  The phishing specialist rates a content LOW exactly when it found
    no indicator, and then the risk is 0 and [is_phishing] is false.  As soon
    as one indicator is found the risk is at least 0.8, the tier is HIGH or
    CRITICAL and [is_phishing] is true: there is nothing in between. *)
Theorem phishing_low_iff_nothing_found (content : string) :
  let f := PhishingAgent.analyze content in
  (evidence f = [] ->
   risk_score f = Some 0%float /\ threat_level f = Some LOW
   /\ flagged f = Some false)
  /\ (evidence f <> [] ->
      at_least_high (threat_level f) /\ flagged f = Some true
      /\ exists r, risk_score f = Some r /\ (0.8 <=? r)%float = true).
Proof.
  cbn zeta. unfold PhishingAgent.analyze, PhishingAgent.analyze_lower,
    PhishingAgent.scan_indicators.
  pose proof (SpecialistFacts.phishing_scan_loop_inv (lower content)
                PhishingAgent.phishing_indicators ([], 0%float)
                (incl_refl _) (or_introl (conj eq_refl eq_refl))) as Hinv.
  destruct (fold_left _ _ _) as [detected max_risk].
  unfold phishing_scan_inv in Hinv. cbn [fst snd] in Hinv.
  assert (Hk : let st := PhishingAgent.kyc_check (lower content)
                           (detected, max_risk) in
               (fst st = [] /\ snd st = 0%float)
               \/ (fst st <> []
                   /\ In (snd st)
                        (0.85%float
                         :: map PhishingAgent.i_risk
                              PhishingAgent.phishing_indicators))).
  { cbn zeta. unfold PhishingAgent.kyc_check.
    destruct (_ && _).
    - destruct (max_risk <? 0.8)%float.
      + right. cbn [fst snd]. split; [now destruct detected | now left].
      + destruct Hinv as [H | (Hd & Hin)]; [now left | right].
        split; [exact Hd | now right].
    - destruct Hinv as [H | (Hd & Hin)]; [now left | right].
      split; [exact Hd | now right]. }
  destruct (PhishingAgent.kyc_check _ _) as [detected' max_risk'].
  cbn zeta in Hk. cbn [fst snd] in Hk.
  cbn [evidence risk_score threat_level flagged].
  split.
  - intros E. destruct Hk as [(_ & ->) | (Hne & _)]; [|congruence].
    repeat split.
  - intros Hne. destruct Hk as [(E & _) | (_ & Hin)]; [congruence|].
    pose proof SpecialistFacts.phishing_risks_checked as Hc.
    rewrite forallb_forall in Hc. specialize (Hc _ Hin).
    apply andb_true_iff in Hc. destruct Hc as (_ & H8).
    assert (H7 : (0.7 <=? max_risk')%float = true).
    { eapply FloatFacts.leb_trans; [|exact H8]. reflexivity. }
    unfold PhishingAgent.level_of, ge, at_least_high. rewrite H7.
    split; [destruct (0.9 <=? max_risk')%float; auto|].
    split; [reflexivity|]. eauto.
Qed.

(** X11.  In the impersonation and investment specialists the flag
    ([is_impersonation], [is_fraud], set from 0.7 on) and the tier (HIGH from
    0.5 on, CRITICAL from 0.8 on) are coupled one way only: a flagged content
    is HIGH or CRITICAL and a CRITICAL content is flagged, but a HIGH content
    need not be flagged, as "police arrest" (0.55) shows.  In the phishing
    specialist and in the [UPIScamDetector] tool the flag is set exactly when
    the tier is HIGH or CRITICAL. *)
Theorem flags_and_tiers (content : string) (amount : option float) :
  (let f := ImpersonationAgent.analyze content in
   (flagged f = Some true -> at_least_high (threat_level f))
   /\ (threat_level f = Some CRITICAL -> flagged f = Some true))
  /\ (let f := InvestmentFraudAgent.analyze content in
      (flagged f = Some true -> at_least_high (threat_level f))
      /\ (threat_level f = Some CRITICAL -> flagged f = Some true))
  /\ (let f := ImpersonationAgent.analyze "police arrest" in
      threat_level f = Some HIGH /\ flagged f = Some false)
  /\ (let f := PhishingAgent.analyze content in
      flagged f = Some true <-> at_least_high (threat_level f))
  /\ (let t := UPIScamDetector.analyze content amount in
      UPIScamDetector.tr_is_scam t = true
      <-> (3 <= tier_rank (UPIScamDetector.tr_risk_level t))%nat).
Proof.
  assert (Hcoupled : forall r : float,
            ((0.7 <=? r)%float = true ->
             at_least_high
               (Some (if (0.8 <=? r)%float then CRITICAL
                      else if (0.5 <=? r)%float then HIGH else LOW)))
            /\ (Some (if (0.8 <=? r)%float then CRITICAL
                      else if (0.5 <=? r)%float then HIGH else LOW)
                = Some CRITICAL -> (0.7 <=? r)%float = true)).
  { intros r. split.
    - intros H7.
      assert (H5 : (0.5 <=? r)%float = true)
        by (eapply FloatFacts.leb_trans; [|exact H7]; reflexivity).
      rewrite H5. unfold at_least_high.
      destruct (0.8 <=? r)%float; auto.
    - destruct (0.8 <=? r)%float eqn:H8.
      + intros _. eapply FloatFacts.leb_trans; [|exact H8]. reflexivity.
      + destruct (0.5 <=? r)%float; discriminate. }
  split; [|split; [|split; [|split]]].
  - cbn zeta. unfold ImpersonationAgent.analyze,
      ImpersonationAgent.analyze_lower.
    cbn [flagged threat_level].
    unfold ImpersonationAgent.level_of, ge.
    set (r := ImpersonationAgent.risk_of _ _ _ _).
    destruct (Hcoupled r) as (H1 & H2). split.
    + intros E. apply H1. now inversion E.
    + intros E. f_equal. now apply H2.
  - cbn zeta. unfold InvestmentFraudAgent.analyze,
      InvestmentFraudAgent.analyze_lower.
    cbn [flagged threat_level].
    unfold InvestmentFraudAgent.level_of, ge.
    set (r := InvestmentFraudAgent.risk_of _ _ _).
    destruct (Hcoupled r) as (H1 & H2). split.
    + intros E. apply H1. now inversion E.
    + intros E. f_equal. now apply H2.
  - vm_compute. split; reflexivity.
  - cbn zeta. unfold PhishingAgent.analyze, PhishingAgent.analyze_lower.
    destruct (PhishingAgent.kyc_check _ _) as [detected r].
    cbn [flagged threat_level].
    unfold PhishingAgent.level_of, ge, at_least_high.
    destruct (0.7 <=? r)%float eqn:H7.
    + split; [intros _; destruct (0.9 <=? r)%float; auto | reflexivity].
    + assert (H9 : (0.9 <=? r)%float = false).
      { destruct (0.9 <=? r)%float eqn:H9; [|reflexivity].
        assert (H : (0.7 <=? r)%float = true)
          by (eapply FloatFacts.leb_trans; [|exact H9]; reflexivity).
        congruence. }
      rewrite H9. split; [discriminate | intros [H | H]; discriminate].
  - cbn zeta. unfold UPIScamDetector.analyze.
    destruct (UPIScamDetector.scan_patterns _) as [detected total].
    cbn [UPIScamDetector.tr_is_scam UPIScamDetector.tr_risk_level].
    set (r := UPIScamDetector.amplify_amount _ _).
    unfold UPIScamDetector.level_of, ge, gt.
    destruct (0.7 <=? r)%float eqn:H7.
    + split; [intros _; destruct (0.9 <=? r)%float; simpl; lia | reflexivity].
    + assert (H9 : (0.9 <=? r)%float = false).
      { destruct (0.9 <=? r)%float eqn:H9; [|reflexivity].
        assert (H : (0.7 <=? r)%float = true)
          by (eapply FloatFacts.leb_trans; [|exact H9]; reflexivity).
        congruence. }
      rewrite H9. split; [discriminate|].
      destruct (0.4 <=? r)%float, (0 <? r)%float; simpl; lia.
Qed.

(* ================================================================== *)
(** ** The agent core: registries, tools, plans *)

Module AdkFacts.
Import AdkRegistry.

Lemma dict_get_set_same (k : string) (v : value) (d : list (string * value)) :
  dict_get k (dict_set k v d) = Some v.
Proof.
  induction d as [|[k' v'] d IH]; simpl.
  - now rewrite String.eqb_refl.
  - destruct (String.eqb k k') eqn:E; simpl.
    + now rewrite String.eqb_refl.
    + now rewrite E.
Qed.

Lemma dict_get_set_other (k k' : string) (v : value)
  (d : list (string * value)) :
  k <> k' -> dict_get k (dict_set k' v d) = dict_get k d.
Proof.
  intros Hne. induction d as [|[k0 v0] d IH]; simpl.
  - destruct (String.eqb_spec k k'); [congruence | reflexivity].
  - destruct (String.eqb_spec k' k0) as [<- | Hk0]; simpl.
    + destruct (String.eqb_spec k k'); [congruence | reflexivity].
    + destruct (String.eqb_spec k k0); [reflexivity | exact IH].
Qed.

Lemma get_register_same (reg : Registry) (name : string)
  (f : string -> outcome value) :
  ToolRegistry_get (ToolRegistry_register reg name f) name
  = Some (mkTool name f).
Proof.
  induction reg as [|[k t] reg IH]; simpl.
  - now rewrite String.eqb_refl.
  - destruct (String.eqb name k) eqn:E; simpl.
    + now rewrite String.eqb_refl.
    + now rewrite E.
Qed.

Lemma get_register_other (reg : Registry) (name other : string)
  (f : string -> outcome value) :
  other <> name ->
  ToolRegistry_get (ToolRegistry_register reg name f) other
  = ToolRegistry_get reg other.
Proof.
  intros Hne. induction reg as [|[k t] reg IH]; simpl.
  - destruct (String.eqb_spec other name); [congruence | reflexivity].
  - destruct (String.eqb_spec name k) as [<- | Hk]; simpl.
    + destruct (String.eqb_spec other name); [congruence | reflexivity].
    + destruct (String.eqb_spec other k); [reflexivity | exact IH].
Qed.

Lemma register_length (reg : Registry) (name : string)
  (f : string -> outcome value) :
  length (ToolRegistry_register reg name f)
  = if registered reg name then length reg else S (length reg).
Proof.
  unfold registered. induction reg as [|[k t] reg IH]; simpl.
  - reflexivity.
  - destruct (String.eqb name k); simpl; [reflexivity|].
    rewrite IH. destruct (ToolRegistry_get reg name); reflexivity.
Qed.

Lemma lookup_register_sub (subs : list (string * SubAgent)) (sub_id : string)
  (agent : SubAgent) :
  lookup_sub (register_sub_agent subs sub_id agent) sub_id = Some agent.
Proof.
  induction subs as [|[k a] subs IH]; simpl.
  - now rewrite String.eqb_refl.
  - destruct (String.eqb sub_id k) eqn:E; simpl.
    + now rewrite String.eqb_refl.
    + now rewrite E.
Qed.

Lemma use_tools_loop_get (reg : Registry) (task : Task) (names : list string) :
  forall results name,
    dict_get name (use_tools_loop reg task names results)
    = if existsb (String.eqb name) names
      then Some (tool_outcome (ToolRegistry_execute reg name (content task)))
      else dict_get name results.
Proof.
  unfold use_tools_loop.
  induction names as [|n names IH]; intros results name; simpl.
  - reflexivity.
  - rewrite IH. destruct (existsb (String.eqb name) names);
      [now rewrite orb_true_r|].
    rewrite orb_false_r.
    destruct (String.eqb_spec name n) as [-> | Hne].
    + destruct (ToolRegistry_execute reg n (content task));
        apply dict_get_set_same.
    + destruct (ToolRegistry_execute reg n (content task));
        now apply dict_get_set_other.
Qed.

Lemma first_escape_none (reg : Registry) (task : Task)
  (tool_names : list string) :
  first_escape reg task tool_names = None
  <-> forall name e,
        In name tool_names ->
        ToolRegistry_execute reg name (content task) = Raise e ->
        is_exception e = true.
Proof.
  induction tool_names as [|n rest IH]; cbn [first_escape].
  - split; [intros _ name e [] | reflexivity].
  - destruct (ToolRegistry_execute reg n (content task)) as [r|e'] eqn:En.
    + rewrite IH. split.
      * intros H name e [<- | Hin] He; [congruence | eauto].
      * intros H name e Hin. apply H. now right.
    + destruct (is_exception e') eqn:Ee.
      * rewrite IH. split.
        -- intros H name e [<- | Hin] He; [congruence | eauto].
        -- intros H name e Hin. apply H. now right.
      * split; [discriminate|].
        intros H. specialize (H n e' (or_introl eq_refl) En). congruence.
Qed.

Lemma first_escape_some (reg : Registry) (task : Task)
  (tool_names : list string) (e : exn) :
  first_escape reg task tool_names = Some e ->
  exists name,
    In name tool_names
    /\ ToolRegistry_execute reg name (content task) = Raise e.
Proof.
  induction tool_names as [|n rest IH]; [discriminate|].
  cbn [first_escape].
  destruct (ToolRegistry_execute reg n (content task)) as [r|e'] eqn:En.
  - intros H. destruct (IH H) as (name & Hin & He).
    exists name. split; [now right | exact He].
  - destruct (is_exception e').
    + intros H. destruct (IH H) as (name & Hin & He).
      exists name. split; [now right | exact He].
    + intros H. inversion H; subst. exists n. split; [now left | exact En].
Qed.

Lemma plan_delegate_never (task : Task) (subs : list (string * SubAgent)) :
  plan_delegate never_delegate task subs = Ok None.
Proof.
  induction subs as [|[sub_id agent] subs IH]; simpl; [reflexivity | exact IH].
Qed.

Lemma plan_tools_registered (reg : Registry) (task : Task)
  (names : list string) :
  plan_tools reg always_matches task names
  = Ok (filter (registered reg) names).
Proof.
  unfold registered.
  induction names as [|n names IH]; simpl; [reflexivity|].
  destruct (ToolRegistry_get reg n); simpl; rewrite IH; reflexivity.
Qed.

End AdkFacts.

(** X12.  Registration and lookup round-trip.  After [register(name, f)] the
    registry finds a tool under [name] and [execute(name)] runs [f]; every
    other name is looked up as before; registering a name anew replaces the
    tool without adding an entry.  [execute] on a name the registry does not
    hold raises the ValueError "Tool <name> not found".  A sub-agent
    registered under its id is the one [_delegate] runs for that id. *)
Theorem registry_round_trip (reg : Registry) (name other : string)
  (f : string -> outcome value) (content : string)
  (subs : list (string * SubAgent)) (agent : SubAgent) (task : Task) :
  let reg' := AdkRegistry.ToolRegistry_register reg name f in
  ToolRegistry_get reg' name = Some (mkTool name f)
  /\ ToolRegistry_execute reg' name content = f content
  /\ (other <> name -> ToolRegistry_get reg' other = ToolRegistry_get reg other)
  /\ length reg' = (if registered reg name then length reg else S (length reg))
  /\ (ToolRegistry_get reg other = None ->
      ToolRegistry_execute reg other content
      = Raise (Exception "ValueError" ("Tool " ++ other ++ " not found")))
  /\ BaseAgent_delegate (AdkRegistry.register_sub_agent subs name agent) task
       name
     = (r <- sa_execute agent task ;; Ok (result r)).
Proof.
  cbn zeta. split; [apply AdkFacts.get_register_same|].
  split.
  { unfold ToolRegistry_execute. now rewrite AdkFacts.get_register_same. }
  split; [apply AdkFacts.get_register_other|].
  split; [apply AdkFacts.register_length|].
  split.
  { intros H. unfold ToolRegistry_execute. now rewrite H. }
  unfold BaseAgent_delegate. now rewrite AdkFacts.lookup_register_sub.
Qed.

(** X13.  The tool-use step isolates the failures of the tools from one
    another as long as what they raise derives from [Exception]: it then
    returns a dict that holds, under each tool name it was given, that
    tool's own result or, when that tool raised, that tool's own error
    marker, and nothing under any other name.  An exception outside the
    [Exception] hierarchy is not caught: the step raises what the first
    tool to raise one has raised, and returns no dict. *)
Theorem use_tools_isolates_failures (reg : Registry) (task : Task)
  (tool_names : list string) :
  (first_escape reg task tool_names = None
   <-> forall name e,
         In name tool_names ->
         ToolRegistry_execute reg name (content task) = Raise e ->
         is_exception e = true)
  /\ match first_escape reg task tool_names with
     | None =>
         exists items,
           BaseAgent_use_tools reg task tool_names = Ok (VDict items)
           /\ (forall name, In name tool_names ->
                 dict_get name items
                 = Some (tool_outcome
                           (ToolRegistry_execute reg name (content task))))
           /\ (forall name, ~ In name tool_names ->
                 dict_get name items = None)
     | Some e =>
         BaseAgent_use_tools reg task tool_names = Raise e
         /\ is_exception e = false
         /\ exists name,
              In name tool_names
              /\ ToolRegistry_execute reg name (content task) = Raise e
     end.
Proof.
  split.
  { apply AdkFacts.first_escape_none. }
  unfold BaseAgent_use_tools. rewrite ExecuteFacts.use_tools_from_spec.
  destruct (first_escape reg task tool_names) as [e|] eqn:E.
  - split; [reflexivity|].
    split; [eapply ExecuteFacts.first_escape_not_exception; eauto|].
    now apply AdkFacts.first_escape_some.
  - cbn [bind]. eexists. split; [reflexivity|].
    split; intros name H; rewrite AdkFacts.use_tools_loop_get.
    + assert (E' : existsb (String.eqb name) tool_names = true).
      { apply existsb_exists. exists name. split; [exact H|].
        apply String.eqb_refl. }
      now rewrite E'.
    + assert (E' : existsb (String.eqb name) tool_names = false).
      { destruct (existsb (String.eqb name) tool_names) eqn:E';
          [|reflexivity].
        apply existsb_exists in E'. destruct E' as (n & Hn & En).
        apply String.eqb_eq in En. subst n. contradiction. }
      now rewrite E'.
Qed.

(** X14.  The confidence after a tool-use step does not reflect the
    failures of tools: when every exception the tools raised derives from
    [Exception], even when every tool raised one, the confidence is 0.8,
    unless one of the tools is itself named "error", in which case it is
    0.0.  When a tool raises outside the [Exception] hierarchy no
    confidence is computed: the exception goes on propagating. *)
Theorem tool_use_confidence (reg : Registry) (task : Task)
  (tool_names : list string) :
  (r <- BaseAgent_use_tools reg task tool_names ;;
   BaseAgent_calculate_confidence r)
  = match first_escape reg task tool_names with
    | None =>
        Ok (if existsb (String.eqb "error") tool_names then 0 else 0.8)%float
    | Some e => Raise e
    end.
Proof.
  unfold BaseAgent_use_tools. rewrite ExecuteFacts.use_tools_from_spec.
  destruct (first_escape reg task tool_names) as [e|]; [reflexivity|].
  cbn [bind]. unfold BaseAgent_calculate_confidence, contains_key, bind.
  rewrite AdkFacts.use_tools_loop_get.
  destruct (existsb (String.eqb "error") tool_names); reflexivity.
Qed.

(** X15.  An agent that keeps the default predicates never plans to
    delegate, whatever sub-agents it has.  It plans to use exactly those of
    its tools that are registered, in their order, and to respond directly
    when none is: a tool that is not registered is silently left out, so the
    tool-use step of such a plan never meets an unknown tool. *)
Theorem default_plan_uses_registered_tools (reg : Registry)
  (sub_agents : list (string * SubAgent)) (tools : list string)
  (task : Task) :
  let usable := filter (registered reg) tools in
  exists plan,
    BaseAgent_plan reg sub_agents tools never_delegate always_matches task
    = Ok plan
    /\ truthy_str (delegate_to plan) = None
    /\ truthy_list (use_tools plan)
       = match usable with [] => None | _ :: _ => Some usable end
    /\ action plan
       = match usable with [] => "respond" | _ :: _ => "use_tools" end
    /\ (forall name, In name usable ->
          exists tool,
            ToolRegistry_get reg name = Some tool
            /\ ToolRegistry_execute reg name (content task)
               = function tool (content task)).
Proof.
  cbn zeta. unfold BaseAgent_plan.
  rewrite AdkFacts.plan_delegate_never. cbn [bind].
  rewrite AdkFacts.plan_tools_registered. cbn [bind].
  assert (Hreg : forall name, In name (filter (registered reg) tools) ->
            exists tool,
              ToolRegistry_get reg name = Some tool
              /\ ToolRegistry_execute reg name (content task)
                 = function tool (content task)).
  { intros name Hin. apply filter_In in Hin. destruct Hin as (_ & Hr).
    unfold registered in Hr. unfold ToolRegistry_execute.
    destruct (ToolRegistry_get reg name) as [tool|]; [|discriminate].
    exists tool. split; reflexivity. }
  destruct (filter (registered reg) tools) as [|n usable] eqn:E;
    eexists; (split; [reflexivity|]); repeat split; exact Hreg.
Qed.

(* ================================================================== *)
(** ** The orchestrator of agents *)

Module OrchestrationFacts.
Import MultiAgentOrchestrator.

Lemma agents_get_register_same (agents : list (string * Member)) (a : Member) :
  agents_get (register_agent agents a) (m_agent_id a) = Some a.
Proof.
  induction agents as [|[k b] agents IH]; simpl.
  - now rewrite String.eqb_refl.
  - destruct (String.eqb (m_agent_id a) k) eqn:E; simpl.
    + now rewrite String.eqb_refl.
    + now rewrite E.
Qed.

Lemma agents_get_register_other (agents : list (string * Member)) (a : Member)
  (other : string) :
  other <> m_agent_id a ->
  agents_get (register_agent agents a) other = agents_get agents other.
Proof.
  intros Hne. induction agents as [|[k b] agents IH]; simpl.
  - destruct (String.eqb_spec other (m_agent_id a)); [congruence | reflexivity].
  - destruct (String.eqb_spec (m_agent_id a) k) as [<- | Hk]; simpl.
    + destruct (String.eqb_spec other (m_agent_id a));
        [congruence | reflexivity].
    + destruct (String.eqb_spec other k); [reflexivity | exact IH].
Qed.

Lemma last_result_snoc (results : list TaskResult) (r : TaskResult) :
  last_result (results ++ [r]) = Some r.
Proof.
  unfold last_result. rewrite length_app, Nat.add_1_r. simpl.
  rewrite nth_error_app2, Nat.sub_diag; [reflexivity | lia].
Qed.

Section Sequential.

Variable utcnow : nat -> string.
Variable agents : list (string * Member).
Variable task : Task.

(** What the loop of [execute_sequential] does from any state: it extends
    the results and the log, one element each for every known id. *)
Lemma sequential_loop (agent_order : list string) :
  forall results0 context0 log0,
  exists results entries context',
    fold_left (sequential_step utcnow agents task) agent_order
      (results0, context0, log0)
    = ((results0 ++ results)%list, context', (log0 ++ entries)%list)
    /\ length results = length (filter (known agents) agent_order)
    /\ map le_agent_id entries = filter (known agents) agent_order
    /\ map le_task_id entries = map tr_task_id results
    /\ map le_status entries = map (fun r => status_value (status r)) results
    /\ map le_confidence entries = map confidence results
    /\ map le_execution_time entries = map execution_time results
    /\ previous_result context'
       = match last_result results with
         | Some r => Some (result r)
         | None => previous_result context0
         end
    /\ (forall key, key <> "previous_result" ->
          dict_get key (metadata context') = dict_get key (metadata context0))
    /\ (forall i agent_id agent,
          nth_error (filter (known agents) agent_order) i = Some agent_id ->
          agents_get agents agent_id = Some agent ->
          exists c,
            nth_error results i
            = Some (m_execute agent (derived_task task agent_id) c)
            /\ previous_result c
               = match i with
                 | O => previous_result context0
                 | S j => option_map result (nth_error results j)
                 end).
Proof.
  induction agent_order as [|agent_id agent_order IH];
    intros results0 context0 log0.
  - exists [], [], context0. simpl. rewrite !app_nil_r.
    repeat apply conj; try reflexivity.
    intros [|i] ? ? H; discriminate H.
  - cbn [fold_left filter]. unfold sequential_step at 2.
    destruct (agents_get agents agent_id) as [agent|] eqn:Ha.
    + assert (Hk : known agents agent_id = true)
        by (unfold known; now rewrite Ha).
      rewrite Hk.
      set (r := m_execute agent (derived_task task agent_id) context0).
      set (c1 := set_metadata "previous_result" (result r) context0).
      destruct (IH (results0 ++ [r])%list c1
                  (_log_execution utcnow log0 agent_id r))
        as (results & entries & context' & Hrun & Hlen & Hids & Htask & Hst
            & Hconf & Htime & Hprev & Hmeta & Hnth).
      exists (r :: results),
        ({| le_agent_id := agent_id;
            le_task_id := tr_task_id r;
            le_status := status_value (status r);
            le_confidence := confidence r;
            le_execution_time := execution_time r;
            le_timestamp := utcnow (length log0) |} :: entries),
        context'.
      split.
      { rewrite Hrun. unfold _log_execution.
        rewrite <- !app_assoc. reflexivity. }
      cbn [map length le_agent_id le_task_id le_status le_confidence
             le_execution_time].
      repeat apply conj; try congruence.
      * rewrite Hprev. destruct results as [|r' results'] eqn:Hres.
        -- unfold last_result, previous_result, c1. simpl.
           apply AdkFacts.dict_get_set_same.
        -- rewrite <- Hres.
           assert (E : last_result (r :: results) = last_result results).
           { subst results. unfold last_result. reflexivity. }
           rewrite E. subst results. clear.
           destruct (last_result (r' :: results')) eqn:E; [reflexivity|].
           unfold last_result in E. apply nth_error_None in E.
           simpl in E. lia.
      * intros key Hkey. rewrite (Hmeta key Hkey). unfold c1. simpl.
        now apply AdkFacts.dict_get_set_other.
      * intros [|i] id a Hi Hid.
        -- simpl in Hi. injection Hi as <-. rewrite Ha in Hid.
           injection Hid as <-. exists context0. split; reflexivity.
        -- simpl in Hi. destruct (Hnth i id a Hi Hid) as (c & Hc & Hp).
           exists c. split; [exact Hc|]. rewrite Hp.
           destruct i as [|j]; [|reflexivity].
           simpl. unfold previous_result, c1. simpl.
           apply AdkFacts.dict_get_set_same.
    + assert (Hk : known agents agent_id = false)
        by (unfold known; now rewrite Ha).
      rewrite Hk. exact (IH results0 context0 log0).
Qed.

End Sequential.

(** The key [max_by_risk] compares, for the two confidences of the base
    class. *)
Lemma max_by_risk_base (rest : list TaskResult) :
  forall best,
    (confidence best = 0%float \/ confidence best = 0.8%float) ->
    base_confidences rest ->
    max_by_risk best rest
    = if (confidence best =? 0)%float then best
      else match first_without_confidence rest with
           | Some r => r
           | None => best
           end.
Proof.
  unfold first_without_confidence.
  induction rest as [|r rest IH]; intros best Hb Hall.
  - simpl. destruct (confidence best =? 0)%float; reflexivity.
  - change (max_by_risk best (r :: rest))
      with (max_by_risk
              (if (risk_key best <? risk_key r)%float then r else best) rest).
    cbn [find].
    assert (Hr : confidence r = 0%float \/ confidence r = 0.8%float)
      by (apply Hall; now left).
    assert (Hrest : base_confidences rest)
      by (intros x Hx; apply Hall; now right).
    unfold risk_key.
    destruct Hb as [Hb | Hb], Hr as [Hr | Hr]; rewrite Hb, Hr;
      match goal with
      | |- context [PrimFloat.ltb ?a ?b] =>
          let v := eval vm_compute in (PrimFloat.ltb a b) in
          change (PrimFloat.ltb a b) with v
      end;
      repeat match goal with
      | |- context [PrimFloat.eqb ?a ?b] =>
          let v := eval vm_compute in (PrimFloat.eqb a b) in
          change (PrimFloat.eqb a b) with v
      end; cbv iota.
    + rewrite (IH best (or_introl Hb) Hrest), Hb. reflexivity.
    + rewrite (IH best (or_introl Hb) Hrest), Hb. reflexivity.
    + rewrite (IH r (or_introl Hr) Hrest), Hr. reflexivity.
    + rewrite (IH best (or_intror Hb) Hrest), Hb. reflexivity.
Qed.

End OrchestrationFacts.




(** X19.  The primary result of an aggregation.  When the results carry the
    confidences the base class assigns (0.0 for a result with an error
    marker or a failed execution, 0.8 otherwise), the primary result of
    [aggregate_results] is the result of the first agent with confidence
    0.0, so a single failing agent takes the place of every answer; only
    when no agent has confidence 0.0 is it the result of the first agent.
    The aggregate counts every result and lists every execution time, and
    its findings are the results that are dicts. *)
Theorem aggregate_results_primary_is_first_failure
  (py_sum : list float -> float) (r0 : TaskResult) (rest : list TaskResult)
  (Hbase : base_confidences (r0 :: rest)) :
  exists avg_confidence primary_result all_findings,
    MultiAgentOrchestrator.aggregate_results py_sum (r0 :: rest)
    = MultiAgentOrchestrator.Aggregated (S (length rest)) avg_confidence
        primary_result all_findings (map execution_time (r0 :: rest))
    /\ primary_result
       = result (match first_without_confidence (r0 :: rest) with
                 | Some r => r
                 | None => r0
                 end)
    /\ map (fun f => snd (fst f)) all_findings
       = filter MultiAgentOrchestrator.is_dict (map result (r0 :: rest)).
Proof.
  unfold MultiAgentOrchestrator.aggregate_results. cbv zeta.
  do 3 eexists. split; [reflexivity|]. split.
  - f_equal.
    rewrite OrchestrationFacts.max_by_risk_base.
    + unfold first_without_confidence. cbn [find].
      destruct (confidence r0 =? 0)%float; reflexivity.
    + apply Hbase. now left.
    + intros r Hr. apply Hbase. now right.
  - rewrite map_map. cbn [fst snd].
    generalize (r0 :: rest). intros l.
    induction l as [|x l IH]; [reflexivity|].
    cbn [filter map]. destruct (MultiAgentOrchestrator.is_dict (result x));
      cbn [map]; now rewrite IH.
Qed.

Lemma aggregate_results_primary_is_first_failure_witness :
  exists avg_confidence primary_result all_findings,
    MultiAgentOrchestrator.aggregate_results plain_sum sample_results
    = MultiAgentOrchestrator.Aggregated 3 avg_confidence
        primary_result all_findings [0.1; 0.2; 0.3]%float
    /\ primary_result
       = result (match first_without_confidence sample_results with
                 | Some r => r
                 | None =>
                     mkTaskResult "t_a" "a" COMPLETED
                       (VDict [("response", VStr "fine")])
                       0.8 "Generating direct response" 0.1
                 end)
    /\ map (fun f => snd (fst f)) all_findings
       = filter MultiAgentOrchestrator.is_dict (map result sample_results).
Proof.
  apply (aggregate_results_primary_is_first_failure plain_sum).
  intros r [<- | [<- | [<- | []]]]; simpl; auto.
Defined.

(* ================================================================== *)
(** ** The tools of agents/tools.py *)

Module ToolFacts.
Import FloatFacts FloatOrder ScanFacts.
Local Open Scope float_scope.

(** *** [UPIScamDetector] *)

Lemma tool_entry_matched_scores (message_lower : string)
  (p : UPIScamDetector.Pattern) (n : string) (s : float) :
  In p UPIScamDetector.SCAM_PATTERNS ->
  In (n, s) (tool_entry message_lower p) ->
  In s tool_matched_scores.
Proof.
  intros Hp Hin. unfold tool_entry in Hin.
  destruct (Nat.ltb_spec 0
              (count_hits (UPIScamDetector.keywords p) message_lower))
    as [Hk|]; [|destruct Hin].
  destruct (Nat.ltb_spec 0
              (count_hits (UPIScamDetector.indicators p) message_lower))
    as [Hi|]; [|destruct Hin].
  destruct Hin as [E | []]. inversion E; subst. clear E.
  unfold tool_matched_scores. apply in_flat_map. exists p. split; [exact Hp|].
  apply in_flat_map.
  exists (count_hits (UPIScamDetector.keywords p) message_lower). split.
  { apply in_seq.
    pose proof (count_hits_le (UPIScamDetector.keywords p) message_lower).
    lia. }
  apply in_map_iff.
  exists (count_hits (UPIScamDetector.indicators p) message_lower). split.
  { reflexivity. }
  apply in_seq.
  pose proof (count_hits_le (UPIScamDetector.indicators p) message_lower).
  lia.
Qed.

(** Whatever the amplifiers add, the risk stays in the unit interval and
    does not fall. *)
Lemma tool_amplify_checked :
  forallb
    (fun r =>
       forallb
         (fun u =>
            forallb
              (fun odd =>
                 in_unitb (tool_amplify r u odd)
                 && (r <=? tool_amplify r u odd))
              [false; true])
         (seq 0 (S (length UPIScamDetector.urgency_words))))
    (0 :: tool_matched_scores) = true.
Proof. vm_compute. reflexivity. Qed.

(** A matched score is at least 0.85, and rated HIGH or CRITICAL. *)
Lemma tool_matched_checked :
  forallb
    (fun r =>
       (0.85 <=? r)
       && (3 <=? tier_rank (UPIScamDetector.level_of r))%nat)
    tool_matched_scores = true.
Proof. vm_compute. reflexivity. Qed.

Lemma tool_amplify_spec (r : float) (u : nat) (odd : bool) :
  In r (0 :: tool_matched_scores) ->
  (u <= length UPIScamDetector.urgency_words)%nat ->
  in_unit (tool_amplify r u odd) /\ (r <=? tool_amplify r u odd) = true.
Proof.
  intros Hr Hu.
  pose proof tool_amplify_checked as H. rewrite forallb_forall in H.
  specialize (H r Hr). pose proof (forallb_upto _ _ H u Hu) as H1.
  cbv beta in H1. rewrite forallb_forall in H1.
  specialize (H1 odd (RangeFacts.in_bools odd)).
  apply andb_true_iff in H1. destruct H1 as (H1 & H2).
  split; [now apply in_unit_iff | exact H2].
Qed.

(** The tier never falls when the risk grows. *)
Lemma tool_level_monotone (r r' : float) :
  (r <=? r') = true ->
  (tier_rank (UPIScamDetector.level_of r)
   <= tier_rank (UPIScamDetector.level_of r'))%nat.
Proof.
  intros H. unfold UPIScamDetector.level_of, ge, gt.
  assert (T : forall c, (c <=? r) = true -> (c <=? r') = true)
    by (intros c Hc; eapply leb_trans; eauto).
  assert (T' : (0 <? r) = true -> (0 <? r') = true)
    by (intros Hc; eapply ltb_leb_trans; eauto).
  destruct (0.9 <=? r) eqn:E9; [rewrite (T _ E9); simpl; lia|].
  destruct (0.7 <=? r) eqn:E7;
    [rewrite (T _ E7); destruct (0.9 <=? r'); simpl; lia|].
  destruct (0.4 <=? r) eqn:E4;
    [rewrite (T _ E4); destruct (0.9 <=? r'), (0.7 <=? r'); simpl; lia|].
  destruct (0 <? r) eqn:E0;
    [rewrite (T' eq_refl);
     destruct (0.9 <=? r'), (0.7 <=? r'), (0.4 <=? r'); simpl; lia|].
  simpl. lia.
Qed.

(** The tool's result, with the pattern loop and the amplifiers written
    out. *)
Lemma tool_analyze_eq (message : string) (amount : option float) :
  let detected :=
    flat_map (tool_entry (lower message)) UPIScamDetector.SCAM_PATTERNS in
  let total_risk :=
    tool_amplify (fold_left py_max (map snd detected) 0)
      (count_hits UPIScamDetector.urgency_words (lower message))
      (odd_amount amount) in
  UPIScamDetector.analyze message amount
  = {| UPIScamDetector.tr_risk_score := total_risk;
       UPIScamDetector.tr_patterns_detected := detected;
       UPIScamDetector.tr_risk_level := UPIScamDetector.level_of total_risk;
       UPIScamDetector.tr_is_scam := ge total_risk 0.7 |}.
Proof.
  cbv zeta. unfold UPIScamDetector.analyze, UPIScamDetector.scan_patterns.
  rewrite tool_scan_fold. cbn [app].
  unfold tool_amplify, UPIScamDetector.amplify_amount, odd_amount.
  destruct amount as [a|]; [|reflexivity].
  destruct (negb (a =? 0) && _); reflexivity.
Qed.

(** *** [KYCPhishingDetector] *)

Lemma kyc_indicator_risks_checked :
  forallb
    (fun r =>
       (0 <? r) && in_unitb r && ge r 0.7
       && (3 <=? tier_rank (KYCPhishingDetector.level_of r))%nat)
    (map KYCPhishingDetector.i_risk KYCPhishingDetector.PHISHING_INDICATORS)
  = true.
Proof. vm_compute. reflexivity. Qed.

Lemma kyc_credential_risks_checked :
  forallb
    (fun r =>
       in_unitb (py_max r 0.95) && (0.95 <=? py_max r 0.95)
       && ge (py_max r 0.95) 0.7
       && ThreatLevel_eqb (KYCPhishingDetector.level_of (py_max r 0.95))
            CRITICAL)
    (0 :: map KYCPhishingDetector.i_risk
            KYCPhishingDetector.PHISHING_INDICATORS)
  = true.
Proof. vm_compute. reflexivity. Qed.

Lemma kyc_scan_step_inv (message_lower : string)
  (st : KYCPhishingDetector.scan_state) (ind : KYCPhishingDetector.Indicator) :
  In ind KYCPhishingDetector.PHISHING_INDICATORS ->
  kyc_scan_inv st ->
  kyc_scan_inv (KYCPhishingDetector.scan_step message_lower st ind).
Proof.
  intros Hind Hinv. destruct st as [[detected max_risk] evidence].
  unfold KYCPhishingDetector.scan_step.
  destruct (existsb _ _); [|exact Hinv].
  right. split.
  { intros E. apply app_eq_nil in E. destruct E as (_ & E). discriminate. }
  assert (Hr : In (KYCPhishingDetector.i_risk ind)
                 (map KYCPhishingDetector.i_risk
                    KYCPhishingDetector.PHISHING_INDICATORS))
    by (apply in_map; exact Hind).
  destruct Hinv as [(_ & ->) | (_ & Hm)].
  - pose proof kyc_indicator_risks_checked as H.
    rewrite forallb_forall in H. specialize (H _ Hr).
    rewrite !andb_true_iff in H. destruct H as (((H0 & _) & _) & _).
    unfold py_max. rewrite H0. exact Hr.
  - destruct (py_max_cases max_risk (KYCPhishingDetector.i_risk ind))
      as [-> | ->]; assumption.
Qed.

Lemma kyc_scan_loop_inv (message_lower : string)
  (inds : list KYCPhishingDetector.Indicator) :
  (forall ind, In ind inds ->
               In ind KYCPhishingDetector.PHISHING_INDICATORS) ->
  forall st, kyc_scan_inv st ->
  kyc_scan_inv
    (fold_left (KYCPhishingDetector.scan_step message_lower) inds st).
Proof.
  induction inds as [|ind inds IH]; intros Hsub st Hinv; [exact Hinv|].
  cbn [fold_left]. apply IH.
  - intros i Hi. apply Hsub. now right.
  - apply kyc_scan_step_inv; [apply Hsub; now left | exact Hinv].
Qed.

(** The three ways a message ends: nothing found; indicators but no
    credential request; a credential request. *)
Lemma kyc_analyze_cases (message : string) :
  let t := KYCPhishingDetector.analyze message in
  let r := KYCPhishingDetector.tr_risk_score t in
  KYCPhishingDetector.tr_is_phishing t = ge r 0.7
  /\ KYCPhishingDetector.tr_risk_level t = KYCPhishingDetector.level_of r
  /\ ((KYCPhishingDetector.tr_indicators t = []
       /\ Re.search KYCPhishingDetector.credentials (lower message) = false
       /\ r = 0)
      \/ (KYCPhishingDetector.tr_indicators t <> []
          /\ Re.search KYCPhishingDetector.credentials (lower message) = false
          /\ In r (map KYCPhishingDetector.i_risk
                     KYCPhishingDetector.PHISHING_INDICATORS))
      \/ (Re.search KYCPhishingDetector.credentials (lower message) = true
          /\ exists m,
               In m (0 :: map KYCPhishingDetector.i_risk
                            KYCPhishingDetector.PHISHING_INDICATORS)
               /\ r = py_max m 0.95)).
Proof.
  cbv zeta. unfold KYCPhishingDetector.analyze.
  pose proof (kyc_scan_loop_inv (lower message)
                KYCPhishingDetector.PHISHING_INDICATORS
                (fun _ H => H) ([], 0, []) (or_introl (conj eq_refl eq_refl)))
    as Hinv.
  fold (KYCPhishingDetector.scan_indicators (lower message)) in Hinv.
  destruct (KYCPhishingDetector.scan_indicators (lower message))
    as [[detected max_risk] evidence].
  unfold KYCPhishingDetector.credential_check.
  destruct (Re.search KYCPhishingDetector.credentials (lower message)).
  - cbn. split; [reflexivity|]. split; [reflexivity|].
    right. right. split; [reflexivity|]. exists max_risk. split; [|reflexivity].
    destruct Hinv as [(_ & ->) | (_ & Hm)]; [now left | now right].
  - cbn. split; [reflexivity|]. split; [reflexivity|].
    destruct Hinv as [(-> & ->) | (Hd & Hm)].
    + left. repeat split.
    + right. left. repeat split; assumption.
Qed.

(** *** [PoliceImpersonationDetector] *)

Lemma police_add_capped (r w : float) (l : list string) :
  PoliceImpersonationDetector.add_capped r w l = add_n r w (cap l).
Proof. destruct l; reflexivity. Qed.

Lemma police_risk_of (a t : list string) (money time : bool) :
  PoliceImpersonationDetector.risk_of a t money time
  = police_risk_n (cap a) (cap t) money time.
Proof.
  unfold PoliceImpersonationDetector.risk_of, police_risk_n.
  now rewrite !police_add_capped.
Qed.

(** For all capped counts: the risk is in the unit interval; CRITICAL is
    flagged and flagged is HIGH or CRITICAL; an authority claim, a threat
    and a money demand together are CRITICAL; nothing found is no risk. *)
Lemma police_risk_checked :
  forallb
    (fun na =>
       forallb
         (fun nt =>
            forallb
              (fun money =>
                 forallb
                   (fun time =>
                      let r := police_risk_n na nt money time in
                      let level := PoliceImpersonationDetector.level_of r in
                      in_unitb r
                      && implb (ThreatLevel_eqb level CRITICAL) (ge r 0.7)
                      && implb (ge r 0.7) (3 <=? tier_rank level)%nat
                      && implb ((1 <=? na)%nat && (1 <=? nt)%nat && money)
                           (ThreatLevel_eqb level CRITICAL)
                      && implb ((na =? 0)%nat && (nt =? 0)%nat
                                && negb money && negb time)
                           ((r =? 0) && ThreatLevel_eqb level LOW))
                   [false; true])
              [false; true])
         (seq 0 4))
    (seq 0 4) = true.
Proof. vm_compute. reflexivity. Qed.

Lemma cap_pos (l : list string) : l <> [] -> (1 <=? cap l)%nat = true.
Proof.
  intros H. apply Nat.leb_le. unfold cap.
  destruct l; [congruence|]. simpl. lia.
Qed.

End ToolFacts.

(** X20.  The [UPIScamDetector] tool always reports a risk of the unit
    interval.  The urgency and amount amplifiers never lower it: the
    reported risk is at least the score of every pattern the tool lists as
    detected.  A message with a detected pattern has a risk of at least
    0.85 and is rated HIGH or CRITICAL, whatever its amount.  A message with
    no detected pattern, no urgency word and no odd amount has risk 0.0 and
    is rated SAFE. *)
Theorem upi_tool_risk_bounds (message : string) (amount : option float) :
  let t := UPIScamDetector.analyze message amount in
  in_unit (UPIScamDetector.tr_risk_score t)
  /\ (forall name score,
        In (name, score) (UPIScamDetector.tr_patterns_detected t) ->
        (score <=? UPIScamDetector.tr_risk_score t)%float = true)
  /\ (UPIScamDetector.tr_patterns_detected t <> [] ->
      (0.85 <=? UPIScamDetector.tr_risk_score t)%float = true
      /\ (3 <= tier_rank (UPIScamDetector.tr_risk_level t))%nat)
  /\ (UPIScamDetector.tr_patterns_detected t = [] ->
      count_hits UPIScamDetector.urgency_words (lower message) = 0%nat ->
      odd_amount amount = false ->
      UPIScamDetector.tr_risk_score t = 0%float
      /\ UPIScamDetector.tr_risk_level t = SAFE).
Proof.
  cbv zeta. rewrite ToolFacts.tool_analyze_eq. cbv zeta.
  cbn [UPIScamDetector.tr_risk_score UPIScamDetector.tr_patterns_detected
         UPIScamDetector.tr_risk_level].
  set (detected :=
         flat_map (tool_entry (lower message)) UPIScamDetector.SCAM_PATTERNS).
  set (u := count_hits UPIScamDetector.urgency_words (lower message)).
  set (total := fold_left py_max (map snd detected) 0%float).
  assert (Hu : (u <= length UPIScamDetector.urgency_words)%nat)
    by apply ScanFacts.count_hits_le.
  assert (Hmatched : forall s, In s (map snd detected) ->
                               In s tool_matched_scores).
  { intros s Hs. apply in_map_iff in Hs. destruct Hs as ((n & s') & <- & Hd).
    apply in_flat_map in Hd. destruct Hd as (p & Hp & Hd).
    eapply ToolFacts.tool_entry_matched_scores; eauto. }
  assert (Hunit : forall s, In s (map snd detected) -> in_unit s).
  { intros s Hs. apply in_map_iff in Hs. destruct Hs as ((n & s') & <- & Hd).
    apply in_flat_map in Hd. destruct Hd as (p & Hp & Hd).
    eapply ScanFacts.tool_entry_unit; eauto. }
  assert (Htotal : In total (0%float :: tool_matched_scores)).
  { destruct (ScanFacts.fold_max_in (map snd detected) 0%float) as [E | Hin].
    - left. symmetry. exact E.
    - right. now apply Hmatched. }
  destruct (ToolFacts.tool_amplify_spec total u (odd_amount amount) Htotal Hu)
    as (Hamp & Hle).
  destruct (ScanFacts.fold_max_unit (map snd detected) Hunit)
    as (Hub & Hnil & Hatt).
  fold total in Hub, Hnil, Hatt.
  split; [exact Hamp|]. split; [|split].
  - intros name score Hin.
    eapply FloatFacts.leb_trans; [|exact Hle].
    apply Hub. apply in_map_iff. exists (name, score). now split.
  - intros Hne.
    assert (Hin : In total tool_matched_scores).
    { destruct (ScanFacts.fold_max_in (map snd detected) 0%float)
        as [E | Hin]; [|now apply Hmatched].
      fold total in E.
      destruct Hatt as (s & Hs & Heq).
      { intros Hmap. apply map_eq_nil in Hmap. contradiction. }
      pose proof ToolFacts.tool_matched_checked as Hc.
      rewrite forallb_forall in Hc. specialize (Hc s (Hmatched s Hs)).
      apply andb_true_iff in Hc. destruct Hc as (Hc & _).
      rewrite E, FloatFacts.eqb_sym in Heq.
      apply FloatFacts.eqb_leb in Heq.
      assert (Habs : (0.85 <=? 0)%float = true)
        by (eapply FloatFacts.leb_trans; eauto).
      discriminate Habs. }
    pose proof ToolFacts.tool_matched_checked as Hc.
    rewrite forallb_forall in Hc. specialize (Hc total Hin).
    apply andb_true_iff in Hc. destruct Hc as (H85 & Hrank).
    apply Nat.leb_le in Hrank. split.
    + eapply FloatFacts.leb_trans; eauto.
    + pose proof (ToolFacts.tool_level_monotone _ _ Hle). lia.
  - intros Hd Hu0 Hodd.
    assert (E : total = 0%float).
    { apply Hnil. now rewrite Hd. }
    rewrite E, Hu0, Hodd. split; reflexivity.
Qed.

(** X21.  The [KYCPhishingDetector] tool rates a message SAFE, HIGH or
    CRITICAL and nothing in between: its MEDIUM branch is never taken, and
    it has no LOW.  Its risk lies in the unit interval, [is_phishing] is set
    exactly when the rating is not SAFE, and the rating is SAFE exactly when
    no indicator was detected and the message requests no credential; the
    risk is then 0.0. *)
Theorem kyc_tool_tiers (message : string) :
  let t := KYCPhishingDetector.analyze message in
  in_unit (KYCPhishingDetector.tr_risk_score t)
  /\ In (KYCPhishingDetector.tr_risk_level t) [SAFE; HIGH; CRITICAL]
  /\ KYCPhishingDetector.tr_is_phishing t
     = negb (ThreatLevel_eqb (KYCPhishingDetector.tr_risk_level t) SAFE)
  /\ (KYCPhishingDetector.tr_risk_level t = SAFE
      <-> KYCPhishingDetector.tr_indicators t = []
          /\ Re.search KYCPhishingDetector.credentials (lower message) = false)
  /\ (KYCPhishingDetector.tr_risk_level t = SAFE ->
      KYCPhishingDetector.tr_risk_score t = 0%float).
Proof.
  cbv zeta.
  destruct (ToolFacts.kyc_analyze_cases message) as (Hflag & Hlevel & Hcases).
  cbv zeta in Hflag, Hlevel, Hcases.
  rewrite Hflag, Hlevel.
  set (r := KYCPhishingDetector.tr_risk_score
              (KYCPhishingDetector.analyze message)) in *.
  destruct Hcases as [(Hd & Hc & E) | [(Hd & Hc & Hin) | (Hc & m & Hm & E)]].
  - rewrite E.
    change (KYCPhishingDetector.level_of 0) with SAFE.
    change (ge 0 0.7) with false.
    split; [split; reflexivity|]. split; [now left|].
    split; [reflexivity|]. split; [|reflexivity].
    split; [intros _; now split | reflexivity].
  - pose proof ToolFacts.kyc_indicator_risks_checked as H.
    rewrite forallb_forall in H. specialize (H r Hin).
    rewrite !andb_true_iff in H. destruct H as (((_ & Hunit) & H7) & Hrank).
    apply Nat.leb_le in Hrank. rewrite H7.
    apply FloatFacts.in_unit_iff in Hunit.
    split; [exact Hunit|].
    destruct (KYCPhishingDetector.level_of r) eqn:El;
      simpl in Hrank; try lia.
    + split; [right; now left|]. split; [reflexivity|].
      split; [|discriminate].
      split; [discriminate | intros (Hd' & _); contradiction].
    + split; [right; right; now left|]. split; [reflexivity|].
      split; [|discriminate].
      split; [discriminate | intros (Hd' & _); contradiction].
  - pose proof ToolFacts.kyc_credential_risks_checked as H.
    rewrite forallb_forall in H. specialize (H m Hm).
    rewrite !andb_true_iff in H. rewrite <- E in H.
    destruct H as (((Hunit & _) & H7) & Hcrit).
    apply FloatFacts.in_unit_iff in Hunit. rewrite H7.
    split; [exact Hunit|].
    destruct (KYCPhishingDetector.level_of r) eqn:El; try discriminate Hcrit.
    split; [right; right; now left|]. split; [reflexivity|].
    split; [|discriminate].
    split; [discriminate | intros (_ & Hc'); congruence].
Qed.

(** X22.  In the [KYCPhishingDetector] tool a message in which one of the
    words otp, pin, password or cvv occurs, in any case and also inside
    another word, is rated CRITICAL and flagged as phishing with a risk of
    at least 0.95, whatever else it says; the evidence names the credential
    request.  "Happy shopping" is such a message: it holds "pin". *)
Theorem kyc_tool_credentials_are_critical (message : string)
  (Hcred : Re.search KYCPhishingDetector.credentials (lower message) = true) :
  let t := KYCPhishingDetector.analyze message in
  KYCPhishingDetector.tr_risk_level t = CRITICAL
  /\ KYCPhishingDetector.tr_is_phishing t = true
  /\ (0.95 <=? KYCPhishingDetector.tr_risk_score t)%float = true
  /\ In "Request for sensitive credentials (OTP/PIN/CVV)"
        (KYCPhishingDetector.tr_evidence t).
Proof.
  cbv zeta.
  destruct (ToolFacts.kyc_analyze_cases message) as (Hflag & Hlevel & Hcases).
  cbv zeta in Hflag, Hlevel, Hcases.
  rewrite Hflag, Hlevel.
  assert (Hev : In "Request for sensitive credentials (OTP/PIN/CVV)"
                  (KYCPhishingDetector.tr_evidence
                     (KYCPhishingDetector.analyze message))).
  { unfold KYCPhishingDetector.analyze.
    destruct (KYCPhishingDetector.scan_indicators (lower message))
      as [[detected max_risk] evidence].
    unfold KYCPhishingDetector.credential_check. rewrite Hcred. cbn.
    apply in_or_app. right. now left. }
  set (r := KYCPhishingDetector.tr_risk_score
              (KYCPhishingDetector.analyze message)) in *.
  destruct Hcases as [(_ & Hc & _) | [(_ & Hc & _) | (_ & m & Hm & E)]];
    try congruence.
  pose proof ToolFacts.kyc_credential_risks_checked as H.
  rewrite forallb_forall in H. specialize (H m Hm).
  rewrite !andb_true_iff in H. rewrite <- E in H.
  destruct H as (((_ & H95) & H7) & Hcrit).
  repeat apply conj; try assumption.
  destruct (KYCPhishingDetector.level_of r); try discriminate Hcrit.
  reflexivity.
Qed.

Lemma kyc_tool_credentials_are_critical_witness :
  KYCPhishingDetector.tr_indicators
    (KYCPhishingDetector.analyze "Happy shopping") = []
  /\ let t := KYCPhishingDetector.analyze "Happy shopping" in
     KYCPhishingDetector.tr_risk_level t = CRITICAL
     /\ KYCPhishingDetector.tr_is_phishing t = true
     /\ (0.95 <=? KYCPhishingDetector.tr_risk_score t)%float = true
     /\ In "Request for sensitive credentials (OTP/PIN/CVV)"
           (KYCPhishingDetector.tr_evidence t).
Proof.
  split; [reflexivity|].
  apply (kyc_tool_credentials_are_critical "Happy shopping").
  reflexivity.
Defined.

(** X23.  The [PoliceImpersonationDetector] tool always reports a risk of
    the unit interval.  A CRITICAL message is flagged as impersonation and a
    flagged message is HIGH or CRITICAL.  A message with an authority
    keyword, a threat and a money demand is always CRITICAL.  A message with
    none of the four kinds of evidence has risk 0.0 and is rated LOW, the
    lowest rating this tool has. *)
Theorem police_tool_risk_and_tier (message : string) :
  let t := PoliceImpersonationDetector.analyze message in
  in_unit (PoliceImpersonationDetector.tr_risk_score t)
  /\ (PoliceImpersonationDetector.tr_risk_level t = CRITICAL ->
      PoliceImpersonationDetector.tr_is_impersonation t = true)
  /\ (PoliceImpersonationDetector.tr_is_impersonation t = true ->
      (3 <= tier_rank (PoliceImpersonationDetector.tr_risk_level t))%nat)
  /\ (PoliceImpersonationDetector.tr_authority_claims t <> [] ->
      PoliceImpersonationDetector.tr_threats t <> [] ->
      Re.search PoliceImpersonationDetector.money_demand (lower message)
      = true ->
      PoliceImpersonationDetector.tr_risk_level t = CRITICAL)
  /\ (PoliceImpersonationDetector.tr_evidence t = [] ->
      (PoliceImpersonationDetector.tr_risk_score t =? 0)%float = true
      /\ PoliceImpersonationDetector.tr_risk_level t = LOW)
  /\ (1 <= tier_rank (PoliceImpersonationDetector.tr_risk_level t))%nat.
Proof.
  cbv zeta. unfold PoliceImpersonationDetector.analyze.
  cbn [PoliceImpersonationDetector.tr_risk_score
         PoliceImpersonationDetector.tr_risk_level
         PoliceImpersonationDetector.tr_is_impersonation
         PoliceImpersonationDetector.tr_authority_claims
         PoliceImpersonationDetector.tr_threats
         PoliceImpersonationDetector.tr_evidence].
  set (a := hits PoliceImpersonationDetector.AUTHORITY_KEYWORDS (lower message)).
  set (t := hits PoliceImpersonationDetector.THREAT_PATTERNS (lower message)).
  set (money := Re.search PoliceImpersonationDetector.money_demand
                  (lower message)).
  set (time := Re.search PoliceImpersonationDetector.time_pressure
                 (lower message)).
  rewrite ToolFacts.police_risk_of.
  pose proof ToolFacts.police_risk_checked as H.
  pose proof (ScanFacts.forallb_upto _ 3 H (cap a) (RangeFacts.cap_le a)) as H1.
  cbv beta in H1.
  pose proof (ScanFacts.forallb_upto _ 3 H1 (cap t) (RangeFacts.cap_le t))
    as H2.
  cbv beta in H2. rewrite forallb_forall in H2.
  specialize (H2 money (RangeFacts.in_bools money)).
  rewrite forallb_forall in H2.
  specialize (H2 time (RangeFacts.in_bools time)).
  cbv zeta in H2. rewrite !andb_true_iff in H2.
  destruct H2 as ((((Hunit & Hcrit) & Hflag) & Htriad) & Hnone).
  set (r := police_risk_n (cap a) (cap t) money time) in *.
  split; [now apply FloatFacts.in_unit_iff|].
  split.
  { intros E. rewrite E in Hcrit. exact Hcrit. }
  split.
  { intros E. rewrite E in Hflag. now apply Nat.leb_le. }
  split.
  { intros Ha Ht Hm.
    rewrite (ToolFacts.cap_pos a Ha), (ToolFacts.cap_pos t Ht), Hm in Htriad.
    simpl in Htriad.
    destruct (PoliceImpersonationDetector.level_of r);
      try discriminate Htriad. reflexivity. }
  split.
  { intros He. unfold PoliceImpersonationDetector.evidence_of in He.
    assert (Ea : a = []).
    { destruct a; [reflexivity | discriminate He]. }
    rewrite Ea in He. cbn [PoliceImpersonationDetector.evidence_line app] in He.
    assert (Et : t = []).
    { destruct t; [reflexivity | discriminate He]. }
    rewrite Et in He. cbn [PoliceImpersonationDetector.evidence_line app] in He.
    assert (Em : money = false).
    { destruct money; [discriminate He | reflexivity]. }
    rewrite Em in He. cbn [app] in He.
    assert (Etm : time = false).
    { destruct time; [discriminate He | reflexivity]. }
    rewrite Ea, Et, Em, Etm in Hnone. simpl in Hnone.
    apply andb_true_iff in Hnone. destruct Hnone as (H0 & Hlow).
    split; [exact H0|].
    destruct (PoliceImpersonationDetector.level_of r);
      try discriminate Hlow. reflexivity. }
  unfold PoliceImpersonationDetector.level_of.
  destruct (ge r 0.8); [simpl; lia|]. destruct (ge r 0.5); simpl; lia.
Qed.

(* ================================================================== *)
(** ** The loan agreement decoder *)

Module LoanFacts.
Import LoanAgreementDecoder.

Lemma has_risk_snoc (risk : Risk) (found : list Found) (f : Found) :
  has_risk risk (found ++ [f])
  = has_risk risk found || Risk_eqb (f_risk f) risk.
Proof.
  unfold has_risk. rewrite existsb_app. simpl. now rewrite orb_false_r.
Qed.

Lemma count_risk_snoc (risk : Risk) (found : list Found) (f : Found) :
  count_risk risk (found ++ [f])
  = count_risk risk found + (if Risk_eqb (f_risk f) risk then 1 else 0).
Proof.
  unfold count_risk. rewrite filter_app, length_app. simpl.
  destruct (Risk_eqb (f_risk f) risk); reflexivity.
Qed.

Lemma loan_scan_step_inv (text_lower : string) (st : scan_state)
  (term : Term) :
  t_risk term <> R_LOW ->
  loan_scan_inv st -> loan_scan_inv (scan_step text_lower st term).
Proof.
  intros Hrisk Hinv. destruct st as [[found max_risk] totals].
  unfold scan_step. destruct (existsb _ _); [|exact Hinv].
  destruct Hinv as (Hmax & Hh & Hm & Hl & Hnone).
  unfold loan_scan_inv, listed_max.
  rewrite !has_risk_snoc, !count_risk_snoc. cbn [f_risk].
  rewrite Hmax. unfold listed_max.
  destruct (t_risk term); [congruence| |];
    destruct (has_risk R_HIGH found), (has_risk R_MEDIUM found);
    destruct totals as [h m l]; simpl in *;
    repeat apply conj; try reflexivity; lia.
Qed.

Lemma loan_scan_loop_inv (text_lower : string) (terms : list Term) :
  (forall term, In term terms -> t_risk term <> R_LOW) ->
  forall st, loan_scan_inv st ->
  loan_scan_inv (fold_left (scan_step text_lower) terms st).
Proof.
  induction terms as [|term terms IH]; intros Hrisk st Hinv; [exact Hinv|].
  cbn [fold_left]. apply IH.
  - intros t Ht. apply Hrisk. now right.
  - apply loan_scan_step_inv; [apply Hrisk; now left | exact Hinv].
Qed.

Lemma loan_scan_loop_length (text_lower : string) (terms : list Term) :
  forall found max_risk totals,
    length (fst (fst (fold_left (scan_step text_lower) terms
                        (found, max_risk, totals))))
    <= length found + length terms.
Proof.
  induction terms as [|term terms IH]; intros found max_risk totals.
  - simpl. lia.
  - cbn [fold_left]. unfold scan_step at 2.
    destruct (existsb _ _).
    + etransitivity; [apply IH|]. rewrite length_app. simpl. lia.
    + etransitivity; [apply IH|]. simpl. lia.
Qed.

Lemma danger_terms_risks (term : Term) :
  In term DANGER_TERMS -> t_risk term <> R_LOW.
Proof.
  intros H. simpl in H.
  repeat (destruct H as [<- | H]; [discriminate|]). destruct H.
Qed.

End LoanFacts.

(** X24.  The rating of the [LoanAgreementDecoder] tool is the highest risk
    among the terms it lists: HIGH when a listed term is HIGH, MEDIUM when
    terms are listed and none is HIGH, LOW exactly when nothing is listed.
    The summary counts the listed MEDIUM terms and the listed HIGH terms of
    the table; its LOW counter stays 0, and the warning for an interest rate
    above 15 is listed as a HIGH term but not counted, so the summary can
    count no HIGH term under a HIGH rating.  At most seven terms are
    listed. *)
Theorem loan_decoder_rating (py_float : string -> float)
  (document_text : string) :
  let t := LoanAgreementDecoder.analyze py_float document_text in
  let found := LoanAgreementDecoder.tr_found_terms t in
  let summary := LoanAgreementDecoder.tr_risk_summary t in
  let warned :=
    LoanAgreementDecoder.high_rate (LoanAgreementDecoder.tr_interest_rate t) in
  LoanAgreementDecoder.tr_max_risk t = listed_max found
  /\ LoanAgreementDecoder.tr_risk_level t
     = LoanAgreementDecoder.level_of (listed_max found)
  /\ (LoanAgreementDecoder.tr_risk_level t = LOW <-> found = [])
  /\ LoanAgreementDecoder.n_low summary = 0
  /\ LoanAgreementDecoder.n_medium summary
     = count_risk LoanAgreementDecoder.R_MEDIUM found
  /\ count_risk LoanAgreementDecoder.R_HIGH found
     = LoanAgreementDecoder.n_high summary + (if warned then 1 else 0)
  /\ length found
     = LoanAgreementDecoder.n_high summary
       + LoanAgreementDecoder.n_medium summary + (if warned then 1 else 0)
  /\ length found <= 7.
Proof.
  cbv zeta. unfold LoanAgreementDecoder.analyze.
  pose proof (LoanFacts.loan_scan_loop_inv (lower document_text)
                LoanAgreementDecoder.DANGER_TERMS LoanFacts.danger_terms_risks
                ([], LoanAgreementDecoder.R_LOW,
                 LoanAgreementDecoder.mkSummary 0 0 0)) as Hinv.
  pose proof (LoanFacts.loan_scan_loop_length (lower document_text)
                LoanAgreementDecoder.DANGER_TERMS []
                LoanAgreementDecoder.R_LOW
                (LoanAgreementDecoder.mkSummary 0 0 0)) as Hlen.
  fold (LoanAgreementDecoder.scan_terms (lower document_text)) in Hinv, Hlen.
  destruct (LoanAgreementDecoder.scan_terms (lower document_text))
    as [[found max_risk] totals].
  specialize (Hinv (conj eq_refl (conj eq_refl (conj eq_refl
                      (conj eq_refl eq_refl))))).
  destruct Hinv as (Hmax & Hh & Hm & Hl & Hnone).
  cbn [fst length] in Hlen.
  assert (Hsplit : forall l : list LoanAgreementDecoder.Found,
            count_risk LoanAgreementDecoder.R_LOW l = 0 ->
            length l = count_risk LoanAgreementDecoder.R_HIGH l
                       + count_risk LoanAgreementDecoder.R_MEDIUM l).
  { unfold count_risk. induction l as [|f l IH]; [reflexivity|].
    simpl. destruct (LoanAgreementDecoder.f_risk f); simpl; intros H;
      try discriminate; rewrite (IH H); lia. }
  assert (Hlow : forall l : list LoanAgreementDecoder.Found,
            count_risk LoanAgreementDecoder.R_LOW l = 0 ->
            (LoanAgreementDecoder.level_of (listed_max l) = LOW <-> l = [])).
  { intros l H0. destruct l as [|f l]; [split; reflexivity|].
    split; [|discriminate]. unfold listed_max, has_risk. simpl.
    unfold count_risk in H0. simpl in H0.
    destruct (LoanAgreementDecoder.f_risk f); simpl in *;
      [discriminate H0 | |]; try discriminate.
    destruct (existsb _ l); discriminate. }
  destruct (LoanAgreementDecoder.high_rate
              (LoanAgreementDecoder.interest_rate py_float
                 (lower document_text))) eqn:Hrate;
    cbn [LoanAgreementDecoder.tr_found_terms
           LoanAgreementDecoder.tr_risk_summary
           LoanAgreementDecoder.tr_interest_rate
           LoanAgreementDecoder.tr_max_risk
           LoanAgreementDecoder.tr_risk_level];
    rewrite Hrate.
  - assert (Emax : listed_max
                     (found ++ [LoanAgreementDecoder.mkFound
                                  "High Interest Rate"
                                  LoanAgreementDecoder.R_HIGH])
                   = LoanAgreementDecoder.R_HIGH).
    { unfold listed_max. rewrite LoanFacts.has_risk_snoc. simpl.
      now rewrite orb_true_r. }
    split; [now rewrite Emax|]. split; [now rewrite Emax|].
    split.
    { split; [discriminate|].
      intros E. apply app_eq_nil in E. destruct E as (_ & E). discriminate. }
    split; [exact Hl|].
    split.
    { rewrite LoanFacts.count_risk_snoc. simpl. lia. }
    split.
    { rewrite LoanFacts.count_risk_snoc. simpl. lia. }
    split.
    { rewrite length_app, (Hsplit found Hnone). simpl. lia. }
    rewrite length_app. simpl. simpl in Hlen. lia.
  - split; [exact Hmax|]. split; [now rewrite Hmax|].
    split; [rewrite Hmax; now apply Hlow|]. split; [exact Hl|].
    split; [exact Hm|]. split; [lia|].
    split; [rewrite (Hsplit found Hnone); lia|].
    simpl in Hlen. lia.
Qed.

(* ================================================================== *)
(** ** A specialist run by the agent core *)

Module SpecialistRunFacts.

Lemma filter_unregistered (reg : Registry) (tools : list string) :
  (forall name, In name tools -> registered reg name = false) ->
  filter (registered reg) tools = [].
Proof.
  induction tools as [|n tools IH]; intros H; [reflexivity|].
  simpl. rewrite (H n (or_introl eq_refl)). apply IH.
  intros name Hn. apply H. now right.
Qed.

Lemma filter_registered (reg : Registry) (tools : list string) (name : string) :
  In name tools -> registered reg name = true ->
  exists n rest, filter (registered reg) tools = n :: rest.
Proof.
  intros Hin Hreg.
  assert (H : In name (filter (registered reg) tools))
    by (apply filter_In; now split).
  destruct (filter (registered reg) tools) as [|n rest]; [destruct H|].
  now exists n, rest.
Qed.

End SpecialistRunFacts.

(** X25.  A specialist run through [BaseAgent.execute] answers with its own
    analysis as long as none of its tool names is registered: when the
    analysis returns a dict without an "error" key, the task is COMPLETED,
    the result is that dict unchanged, the confidence is 0.8 whatever risk
    the analysis found, and the result is appended to the history. *)
Theorem specialist_execute_returns_analysis (reg : Registry)
  (agent_id : string) (tools : list string)
  (analysis : Task -> outcome value) (task_history : list TaskResult)
  (task : Task) (elapsed : float) (finding : list (string * value))
  (Htools : forall name, In name tools -> registered reg name = false)
  (Hanalysis : analysis task = Ok (VDict finding))
  (Hkey : dict_get "error" finding = None) :
  let r := {| tr_task_id := task_id task;
              tr_agent_id := agent_id;
              status := COMPLETED;
              result := VDict finding;
              confidence := 0.8;
              reasoning := "Generating direct response";
              execution_time := elapsed |} in
  execute (SpecialistAgent.specialist_agent reg agent_id tools analysis)
    task_history task elapsed
  = Ok (r, (task_history ++ [r])%list).
Proof.
  cbv zeta. unfold execute, execute_try, SpecialistAgent.specialist_agent.
  cbn [_plan _delegate _use_tools _generate_response _verify
         _calculate_confidence AdkCore.agent_id].
  unfold BaseAgent_plan. cbn [plan_delegate bind].
  rewrite AdkFacts.plan_tools_registered. cbn [bind].
  rewrite (SpecialistRunFacts.filter_unregistered reg tools Htools).
  cbn [bind]. unfold run_plan.
  cbn [delegate_to use_tools truthy_str truthy_list _generate_response].
  rewrite Hanalysis. cbn [bind BaseAgent_verify].
  unfold BaseAgent_calculate_confidence, contains_key. rewrite Hkey.
  reflexivity.
Qed.

Lemma specialist_execute_returns_analysis_witness :
  exists r,
    execute
      (SpecialistAgent.specialist_agent [] "upi_fraud_agent"
         SpecialistAgent.upi_tools sample_analysis)
      [] sample_task 0.5%float
    = Ok (r, [r])
    /\ result r
       = VDict [("agent", VStr "upi_fraud_agent"); ("risk_score", VFloat 0.9)]
    /\ confidence r = 0.8%float.
Proof.
  eexists. split.
  - apply (specialist_execute_returns_analysis [] "upi_fraud_agent"
             SpecialistAgent.upi_tools sample_analysis [] sample_task
             0.5%float
             [("agent", VStr "upi_fraud_agent"); ("risk_score", VFloat 0.9)]).
    + intros name _. reflexivity.
    + reflexivity.
    + reflexivity.
  - split; reflexivity.
Defined.

(** X26.  As soon as one of a specialist's tool names is registered,
    [BaseAgent.execute] no longer consults the specialist's own analysis:
    the outcome is the same whatever the analysis would return or raise.
    When every exception the registered tools raise derives from
    [Exception], the task is COMPLETED and its result is the dict of the
    registered tools' outcomes, which holds no risk score of the
    specialist; when a registered tool raises outside the [Exception]
    hierarchy, that exception leaves [execute]. *)
Theorem specialist_execute_prefers_tools (reg : Registry)
  (agent_id : string) (tools : list string)
  (task_history : list TaskResult) (task : Task) (elapsed : float)
  (tool : string)
  (Hin : In tool tools) (Hreg : registered reg tool = true) :
  let registered_tools := filter (registered reg) tools in
  (forall analysis analysis',
     execute (SpecialistAgent.specialist_agent reg agent_id tools analysis)
       task_history task elapsed
     = execute (SpecialistAgent.specialist_agent reg agent_id tools analysis')
         task_history task elapsed)
  /\ match first_escape reg task registered_tools with
     | None =>
         exists r items,
           (forall analysis,
              execute
                (SpecialistAgent.specialist_agent reg agent_id tools analysis)
                task_history task elapsed
              = Ok (r, (task_history ++ [r])%list))
           /\ status r = COMPLETED
           /\ result r = VDict items
           /\ (forall name,
                 dict_get name items
                 = if existsb (String.eqb name) registered_tools
                   then Some (tool_outcome
                                (ToolRegistry_execute reg name (content task)))
                   else None)
     | Some e =>
         is_exception e = false
         /\ forall analysis,
              execute
                (SpecialistAgent.specialist_agent reg agent_id tools analysis)
                task_history task elapsed
              = Raise e
     end.
Proof.
  cbv zeta.
  destruct (SpecialistRunFacts.filter_registered reg tools tool Hin Hreg)
    as (n & rest & Hfilter).
  assert (Hrun : forall analysis,
            execute
              (SpecialistAgent.specialist_agent reg agent_id tools analysis)
              task_history task elapsed
            = try_except
                (r <- (result <- BaseAgent_use_tools reg task (n :: rest) ;;
                       conf <- BaseAgent_calculate_confidence result ;;
                       Ok {| tr_task_id := task_id task;
                             tr_agent_id := agent_id;
                             status := COMPLETED;
                             result := result;
                             confidence := conf;
                             reasoning :=
                               "Using tools: " ++ PyStr.join ", " (n :: rest);
                             execution_time := elapsed |}) ;;
                 Ok (r, (task_history ++ [r])%list))
                (fun e =>
                   r <- execute_except
                          (SpecialistAgent.specialist_agent reg agent_id tools
                             analysis) task elapsed e ;;
                   Ok (r, task_history))).
  { intros analysis.
    unfold execute, execute_try, SpecialistAgent.specialist_agent.
    cbn [_plan _delegate _use_tools _generate_response _verify
           _calculate_confidence AdkCore.agent_id].
    unfold BaseAgent_plan. cbn [plan_delegate bind].
    rewrite AdkFacts.plan_tools_registered. cbn [bind].
    rewrite Hfilter.
    cbn [bind]. unfold run_plan.
    cbn [delegate_to use_tools truthy_str truthy_list _use_tools
           plan_reasoning].
    destruct (BaseAgent_use_tools reg task (n :: rest)) as [v|e];
      reflexivity. }
  rewrite Hfilter.
  assert (Huse : BaseAgent_use_tools reg task (n :: rest)
                 = match first_escape reg task (n :: rest) with
                   | None => Ok (VDict (use_tools_loop reg task (n :: rest) []))
                   | Some e => Raise e
                   end).
  { unfold BaseAgent_use_tools. rewrite ExecuteFacts.use_tools_from_spec.
    destruct (first_escape reg task (n :: rest)); reflexivity. }
  split.
  { intros analysis analysis'. rewrite !Hrun, Huse.
    destruct (first_escape reg task (n :: rest)) as [e|] eqn:E.
    - cbn [bind try_except].
      now rewrite (ExecuteFacts.first_escape_not_exception _ _ _ _ E).
    - reflexivity. }
  destruct (first_escape reg task (n :: rest)) as [e|] eqn:E.
  - pose proof (ExecuteFacts.first_escape_not_exception _ _ _ _ E) as He.
    split; [exact He|]. intros analysis. rewrite Hrun, Huse.
    cbn [bind try_except]. now rewrite He.
  - destruct (BaseAgent_calculate_confidence
                (VDict (use_tools_loop reg task (n :: rest) []))) as [conf|e]
      eqn:Hconf.
    2:{ unfold BaseAgent_calculate_confidence, contains_key, bind in Hconf.
        discriminate Hconf. }
    eexists. exists (use_tools_loop reg task (n :: rest) []).
    split; [|split; [|split]].
    + intros analysis. rewrite Hrun, Huse. cbn [bind]. rewrite Hconf.
      cbn [bind try_except]. reflexivity.
    + reflexivity.
    + reflexivity.
    + intros name. apply AdkFacts.use_tools_loop_get.
Qed.

Lemma specialist_execute_prefers_tools_witness :
  first_escape upi_tool_registry sample_task
    (filter (registered upi_tool_registry) SpecialistAgent.upi_tools) = None
  /\ (forall analysis analysis',
        execute
          (SpecialistAgent.specialist_agent upi_tool_registry "upi_fraud_agent"
             SpecialistAgent.upi_tools analysis)
          [] sample_task 0.5%float
        = execute
            (SpecialistAgent.specialist_agent upi_tool_registry
               "upi_fraud_agent" SpecialistAgent.upi_tools analysis')
            [] sample_task 0.5%float)
  /\ exists r items,
       (forall analysis,
          execute
            (SpecialistAgent.specialist_agent upi_tool_registry
               "upi_fraud_agent" SpecialistAgent.upi_tools analysis)
            [] sample_task 0.5%float
          = Ok (r, ([] ++ [r])%list))
       /\ status r = COMPLETED
       /\ result r = VDict items
       /\ (forall name,
             dict_get name items
             = if existsb (String.eqb name)
                    (filter (registered upi_tool_registry)
                       SpecialistAgent.upi_tools)
               then Some (tool_outcome
                            (ToolRegistry_execute upi_tool_registry name
                               (content sample_task)))
               else None).
Proof.
  split; [reflexivity|].
  apply (specialist_execute_prefers_tools upi_tool_registry "upi_fraud_agent"
           SpecialistAgent.upi_tools [] sample_task 0.5%float
           "upi_pattern_matcher").
  - now left.
  - reflexivity.
Defined.
